(** * pdf2web-presenter: the media transcoding pipeline of [media_extractor.py]

    A shallow embedding of [MediaProcessor] (src/media_extractor.py) with the
    constants of src/config.py, and the properties of its transcoding
    decision engine.

    Modelling conventions.
    - The media output directory is a finite map from file names to file
      contents.  Every path the processor builds is
      [os.path.join(self.media_output_dir, name)] or a temporary file created
      in the directory of such a path, so a path is represented by its file
      name inside that directory ([os.path.basename] is then the identity).
    - File-system calls behave as on a POSIX directory held in memory:
      [os.remove] and [shutil.move] raise [FileNotFoundError] when their
      source is missing and succeed otherwise.
    - The external tools are oracles of the environment record [Env]: the
      encoder decides its exit status and what happens to its output file
      (the last word of its command line) and touches no other file; the
      prober reports an exit status and a parsed report.
    - Python exceptions are values of [exn]; a computation is a function from
      the world to a result (a value or a raised exception) and a new world,
      the world being kept when an exception is raised.
    - [print] calls are omitted.  The world carries a log of the external
      processes started, the temporary files created, the content type
      detected and the outcome of each stage helper; the log is write-only
      for the program. *)

From Stdlib Require Import ZArith Ascii String Lia Sorted.
From stdpp Require Import base tactics option list gmap fin_maps strings pretty.


Local Open Scope stdpp_scope.

(** ** Python values *)

Abbreviation bytes := (list Byte.byte).

Inductive exn :=
  | FileNotFoundError
  | FileExistsError
  | OSError
  | CalledProcessError
  | JSONDecodeError
  | ValueError
  | OtherException.

(** [FileNotFoundError] and [FileExistsError] are subclasses of [OSError]. *)
Definition is_OSError (e : exn) : bool :=
  match e with
  | FileNotFoundError | FileExistsError | OSError => true
  | _ => false
  end.

Inductive Res (A : Type) :=
  | Ok (a : A)
  | Raise (e : exn).
Arguments Ok {A} a.
Arguments Raise {A} e.

(** Truthiness of [str] and of optional values. *)
Definition str_truthy (s : string) : bool :=
  match s with "" => false | _ => true end.

Definition opt_str_truthy (o : option string) : bool :=
  match o with Some s => str_truthy s | None => false end.

Definition list_truthy {A} (l : list A) : bool :=
  match l with [] => false | _ => true end.

Definition Z_truthy (z : Z) : bool := negb (z =? 0)%Z.

(** Insertion-ordered [dict] with [str] keys. *)
Definition pydict (V : Type) := list (string * V).

Fixpoint dict_get {V} (d : pydict V) (k : string) : option V :=
  match d with
  | [] => None
  | (k', v) :: d' => if String.eqb k' k then Some v else dict_get d' k
  end.

Definition dict_contains {V} (d : pydict V) (k : string) : bool :=
  match dict_get d k with Some _ => true | None => false end.

Definition dict_values {V} (d : pydict V) : list V := map snd d.

Fixpoint str_in (s : string) (l : list string) : bool :=
  match l with
  | [] => false
  | x :: l' => String.eqb s x || str_in s l'
  end.

(** ** String functions of the Python library, on ASCII strings *)

Definition ascii_in_range (lo hi : N) (c : ascii) : bool :=
  (lo <=? N_of_ascii c)%N && (N_of_ascii c <=? hi)%N.

Definition isdigit (c : ascii) : bool := ascii_in_range 48 57 c.
Definition isupper (c : ascii) : bool := ascii_in_range 65 90 c.
Definition islower (c : ascii) : bool := ascii_in_range 97 122 c.
Definition isalnum (c : ascii) : bool := isdigit c || isupper c || islower c.

Definition isspace (c : ascii) : bool :=
  ascii_in_range 9 13 c || ascii_in_range 28 32 c.

Definition ascii_lower (c : ascii) : ascii :=
  if isupper c then ascii_of_N (N_of_ascii c + 32) else c.

Fixpoint str_map (f : ascii -> ascii) (s : string) : string :=
  match s with
  | "" => ""
  | String c s' => String (f c) (str_map f s')
  end.

Fixpoint str_filter (f : ascii -> bool) (s : string) : string :=
  match s with
  | "" => ""
  | String c s' => if f c then String c (str_filter f s') else str_filter f s'
  end.

Fixpoint str_forallb (f : ascii -> bool) (s : string) : bool :=
  match s with
  | "" => true
  | String c s' => f c && str_forallb f s'
  end.

Definition lower (s : string) : string := str_map ascii_lower s.

Fixpoint lstrip (s : string) : string :=
  match s with
  | "" => ""
  | String c s' => if isspace c then lstrip s' else s
  end.

Definition strip (s : string) : string :=
  String.rev (lstrip (String.rev (lstrip s))).

Definition startswith (s p : string) : bool := String.prefix p s.

Fixpoint endswith_char (s : string) (c : ascii) : bool :=
  match s with
  | "" => false
  | String a "" => Ascii.eqb a c
  | String _ s' => endswith_char s' c
  end.

(** [c in s] for a one-character [c]. *)
Fixpoint contains_char (c : ascii) (s : string) : bool :=
  match s with
  | "" => false
  | String a s' => Ascii.eqb a c || contains_char c s'
  end.

(** [s.split(c, 1)]: the parts before and after the first [c]. *)
Fixpoint split_first (c : ascii) (s : string) : string * option string :=
  match s with
  | "" => ("", None)
  | String a s' =>
      if Ascii.eqb a c then ("", Some s')
      else let '(h, t) := split_first c s' in (String a h, t)
  end.

(** The split of [s] at its last ['.']: the part before it and the part from
    it on. *)
Fixpoint rsplit_dot (s : string) : option (string * string) :=
  match s with
  | "" => None
  | String a s' =>
      match rsplit_dot s' with
      | Some (h, t) => Some (String a h, t)
      | None => if Ascii.eqb a "." then Some ("", s) else None
      end
  end.

(** [os.path.splitext] on a file name: the extension starts at the last dot,
    unless only dots precede it. *)
Definition os_path_splitext (name : string) : string * string :=
  match rsplit_dot name with
  | Some (h, t) =>
      if str_forallb (fun c => Ascii.eqb c ".") h then (name, "") else (h, t)
  | None => (name, "")
  end.

(** [os.path.join] of two components (POSIX). *)
Definition os_path_join (a b : string) : string :=
  if startswith b "/" then b
  else if negb (str_truthy a) || endswith_char a "/" then a +:+ b
  else a +:+ "/" +:+ b.

(** [s.replace("\\", "/")]. *)
Definition replace_backslash (s : string) : string :=
  str_map (fun c => if Ascii.eqb c "\" then "/"%char else c) s.

Fixpoint join_with (sep : string) (l : list string) : string :=
  match l with
  | [] => ""
  | [x] => x
  | x :: l' => x +:+ sep +:+ join_with sep l'
  end.

(** [str(n)] for an [int]. *)
Definition str_of_Z (z : Z) : string := pretty z.

(** ** The world: directory, log, temporary-name counter *)

Inductive event :=
  | EvProbe (cmd : list string)
  | EvEncoder (cmd : list string)
  | EvTemp (name : string)
  | EvDetected (mime : string)
  | EvPreResize (input : string) (ok : bool)
  | EvScaling (input output : string) (ok : bool)
  | EvIntermediate (input output : string) (ok : bool)
  | EvFinalEncode (input : string) (source_codec : option string)
      (attempt_vaapi_decode use_vaapi_for_encode : bool) (ok : bool).

Record World := mkWorld {
  w_fs : gmap string bytes;
  w_log : list event;
  w_ntmp : nat;
}.

Definition set_fs (f : gmap string bytes -> gmap string bytes) (w : World) : World :=
  mkWorld (f (w_fs w)) (w_log w) (w_ntmp w).

Definition add_log (e : event) (w : World) : World :=
  mkWorld (w_fs w) (w_log w ++ [e]) (w_ntmp w).

(** ** The computation monad: state that survives exceptions *)

Definition M (A : Type) := World -> Res A * World.

Definition ret {A} (a : A) : M A := fun w => (Ok a, w).

Definition bind {A B} (m : M A) (f : A -> M B) : M B :=
  fun w =>
    match m w with
    | (Ok a, w') => f a w'
    | (Raise e, w') => (Raise e, w')
    end.

Definition raise {A} (e : exn) : M A := fun w => (Raise e, w).

(** [try: m except <classes>: h], the classes given as a predicate. *)
Definition try_except {A} (m : M A) (catches : exn -> bool) (h : M A) : M A :=
  fun w =>
    match m w with
    | (Raise e, w') => if catches e then h w' else (Raise e, w')
    | r => r
    end.

(** [try: m finally: fin]. *)
Definition try_finally {A} (m : M A) (fin : M unit) : M A :=
  fun w =>
    let '(r, w') := m w in
    match fin w' with
    | (Ok _, w'') => (r, w'')
    | (Raise e, w'') => (Raise e, w'')
    end.

Declare Scope py_scope.
Delimit Scope py_scope with py.
Notation "x <- m ;; k" := (bind m (fun x => k))
  (at level 100, m at next level, right associativity) : py_scope.
Notation "m ;;; k" := (bind m (fun _ => k))
  (at level 100, right associativity) : py_scope.
Local Open Scope py_scope.

Definition catch_all (e : exn) : bool := true.

Definition when (b : bool) (m : M unit) : M unit := if b then m else ret tt.

Definition emit (e : event) : M unit := fun w => (Ok tt, add_log e w).

(** ** File-system calls *)

Definition os_path_exists (p : string) : M bool :=
  fun w => (Ok (bool_decide (is_Some (w_fs w !! p))), w).

Definition os_path_getsize (p : string) : M Z :=
  fun w =>
    match w_fs w !! p with
    | Some c => (Ok (Z.of_nat (length c)), w)
    | None => (Raise FileNotFoundError, w)
    end.

Definition os_remove (p : string) : M unit :=
  fun w =>
    match w_fs w !! p with
    | Some _ => (Ok tt, set_fs (delete p) w)
    | None => (Raise FileNotFoundError, w)
    end.

Definition shutil_move (src dst : string) : M unit :=
  fun w =>
    match w_fs w !! src with
    | Some c => (Ok tt, set_fs (fun fs => <[dst := c]> (delete src fs)) w)
    | None => (Raise FileNotFoundError, w)
    end.

(** [with open(p, "wb") as f: f.write(b)]. *)
Definition write_file (p : string) (b : bytes) : M unit :=
  fun w => (Ok tt, set_fs (<[p := b]>) w).

(** [try: os.remove(p) except OSError: pass]. *)
Definition try_remove (p : string) : M unit :=
  try_except (os_remove p) is_OSError (ret tt).

(** [if os.path.exists(p): try: os.remove(p) except OSError: pass]. *)
Definition remove_if_exists (p : string) : M unit :=
  ex <- os_path_exists p ;;
  when ex (try_remove p).

(** ** The environment: external tools and library oracles *)

(** What an encoder run does to its output file. *)
Inductive out_effect :=
  | OutKeep
  | OutWrite (b : bytes)
  | OutRemove.

(** [subprocess.run(cmd, check=False)] of the encoder: it completes with an
    exit status, or the call itself raises. *)
Inductive proc_result :=
  | Completed (returncode : Z) (eff : out_effect)
  | RunRaises (e : exn).

(** One entry of the prober's [streams] array, as requested with
    [-show_entries stream=width,height,codec_name]: integer dimensions and a
    codec name, each possibly absent. *)
Record ffprobe_stream := {
  st_width : option Z;
  st_height : option Z;
  st_codec_name : option string;
}.

(** The prober's standard output: text [json.loads] rejects, or a report
    object whose [streams] key may be missing. *)
Inductive probe_stdout :=
  | StdoutUnparseable
  | StdoutReport (streams : option (list ffprobe_stream)).

Inductive probe_result :=
  | ProbeCompleted (returncode : Z) (out : probe_stdout)
  | ProbeRaises (e : exn).

Record Env := {
  ffmpeg_run : list string -> gmap string bytes -> proc_result;
  ffprobe_run : list string -> gmap string bytes -> probe_result;
  (** [self.mime_checker.from_file(path)] *)
  magic_from_file : string -> gmap string bytes -> Res string;
  (** the random parts [tempfile] tries for its n-th temporary file *)
  tmp_names : nat -> list string;
}.

Definition apply_effect (out : string) (eff : out_effect)
    (fs : gmap string bytes) : gmap string bytes :=
  match eff with
  | OutKeep => fs
  | OutWrite b => <[out := b]> fs
  | OutRemove => delete out fs
  end.

(** [subprocess.run(cmd, capture_output=True, text=True, check=False)] for an
    encoder command whose output file is [out]. *)
Definition run_encoder (E : Env) (cmd : list string) (out : string) : M Z :=
  fun w =>
    let w1 := add_log (EvEncoder cmd) w in
    match ffmpeg_run E cmd (w_fs w) with
    | Completed rc eff => (Ok rc, set_fs (apply_effect out eff) w1)
    | RunRaises e => (Raise e, w1)
    end.

(** [subprocess.run(cmd, capture_output=True, text=True, check=True)] for the
    prober: a non-zero exit status raises [CalledProcessError]. *)
Definition run_prober (E : Env) (cmd : list string) : M probe_stdout :=
  fun w =>
    let w1 := add_log (EvProbe cmd) w in
    match ffprobe_run E cmd (w_fs w) with
    | ProbeCompleted rc out =>
        if (rc =? 0)%Z then (Ok out, w1) else (Raise CalledProcessError, w1)
    | ProbeRaises e => (Raise e, w1)
    end.

Fixpoint first_fresh (fs : gmap string bytes) (prefix suffix : string)
    (cands : list string) : option string :=
  match cands with
  | [] => None
  | r :: cs =>
      let n := prefix +:+ r +:+ suffix in
      if bool_decide (is_Some (fs !! n)) then first_fresh fs prefix suffix cs
      else Some n
  end.

(** [with tempfile.NamedTemporaryFile(mode='wb', delete=False, dir=...,
    prefix=..., suffix=...) as f: name = f.name]: an empty file under the
    first candidate name that is free; [FileExistsError] when none is. *)
Definition named_temporary_file (E : Env) (prefix suffix : string) : M string :=
  fun w =>
    match first_fresh (w_fs w) prefix suffix (tmp_names E (w_ntmp w)) with
    | Some n =>
        (Ok n, mkWorld (<[n := []]> (w_fs w)) (w_log w ++ [EvTemp n]) (S (w_ntmp w)))
    | None =>
        (Raise FileExistsError, mkWorld (w_fs w) (w_log w) (S (w_ntmp w)))
    end.

(** [rc == 0 and os.path.exists(p) and os.path.getsize(p) > 0]. *)
Definition produced_output (rc : Z) (p : string) : M bool :=
  if (rc =? 0)%Z then
    ex <- os_path_exists p ;;
    if ex then
      sz <- os_path_getsize p ;;
      ret (0 <? sz)%Z
    else ret false
  else ret false.

(** ** config.py *)

Record format_info := {
  fi_ext : option string;
  fi_mime : option string;
  fi_container_opts : option (list string);
}.

(** A [dict] is falsy when it is empty. *)
Definition format_info_truthy (fi : format_info) : bool :=
  match fi_ext fi, fi_mime fi, fi_container_opts fi with
  | None, None, None => false
  | _, _, _ => true
  end.

Record Config := {
  MEDIA_OUTPUT_DIR_NAME : string;
  DEFAULT_VIDEO_CODEC : string;
  ALLOWED_VIDEO_CODECS : list string;
  PREFERRED_FORMATS : pydict (list string);
  CODEC_FORMAT_MAP : pydict format_info;
  MAX_PRE_RESIZE_WIDTH : Z;
  MAX_PRE_RESIZE_HEIGHT : Z;
  FFMPEG_PRE_RESIZE_OPTIONS : list string;
  FFMPEG_COMMON_OPTIONS : list string;
  FFMPEG_CODEC_OPTIONS_CPU : pydict (list string);
  FFMPEG_CODEC_OPTIONS_VAAPI : pydict (list string);
  ENABLE_TRANSCODING : bool;
  VAAPI_DEVICE_PATH : string;
}.

Definition config_py : Config := {|
  MEDIA_OUTPUT_DIR_NAME := "videos";
  DEFAULT_VIDEO_CODEC := "h264";
  ALLOWED_VIDEO_CODECS := ["h264"; "vp9"; "av1"];
  PREFERRED_FORMATS := [
    (".mp4", ["h264"]);
    (".webm", ["vp9"; "av1"])
  ];
  CODEC_FORMAT_MAP := [
    ("h264", {| fi_ext := Some ".mp4"; fi_mime := Some "video/mp4";
                fi_container_opts := Some ["-movflags"; "+faststart"] |});
    ("vp9", {| fi_ext := Some ".webm"; fi_mime := Some "video/webm";
               fi_container_opts := Some [] |});
    ("av1", {| fi_ext := Some ".webm"; fi_mime := Some "video/webm";
               fi_container_opts := Some [] |})
  ];
  MAX_PRE_RESIZE_WIDTH := 3840;
  MAX_PRE_RESIZE_HEIGHT := 2160;
  FFMPEG_PRE_RESIZE_OPTIONS := [
    "-c:v"; "libx264"; "-preset"; "ultrafast"; "-crf"; "8";
    "-c:a"; "copy"; "-sn"
  ];
  FFMPEG_COMMON_OPTIONS := [
    "-map_metadata"; "0"; "-map_chapters"; "0"; "-threads"; "0"
  ];
  FFMPEG_CODEC_OPTIONS_CPU := [
    ("h264", ["-c:v"; "libx264"; "-preset"; "medium"; "-crf"; "23";
              "-profile:v"; "high"; "-level:v"; "4.1"]);
    ("vp9", ["-c:v"; "libvpx-vp9"; "-crf"; "31"; "-b:v"; "0";
             "-deadline"; "good"; "-row-mt"; "1"]);
    ("av1", ["-c:v"; "libaom-av1"; "-crf"; "35"; "-b:v"; "0";
             "-cpu-used"; "6"; "-row-mt"; "1";
             "-tile-columns"; "2"; "-tile-rows"; "2"])
  ];
  FFMPEG_CODEC_OPTIONS_VAAPI := [
    ("h264", ["-c:v"; "h264_vaapi"; "-qp"; "23"; "-profile:v"; "high"]);
    ("vp9", ["-c:v"; "vp9_vaapi"; "-qp"; "31"]);
    ("av1", ["-c:v"; "av1_vaapi"; "-rc_mode"; "2"; "-b:v"; "1M"])
  ];
  ENABLE_TRANSCODING := true;
  VAAPI_DEVICE_PATH := "";
|}.

(** ** MediaProcessor: attributes and construction *)

Record MediaProcessor := {
  config : Config;
  media_output_dir : string;
  ffmpeg_path : option string;
  ffprobe_path : option string;
  enable_transcoding : bool;
  user_codec_choice : option string;
  scaling_factor : option Z;
  target_codec : string;
  target_extension : string;
  target_mime_type : string;
  target_container_opts : list string;
  use_vaapi : bool;
  magic_available : bool;
}.

Definition VAAPI_DECODABLE_CODECS : list string :=
  ["h264"; "hevc"; "vp9"; "av1"; "mpeg2video"; "vc1"].

(** [_validate_and_set_scaling]; the factor comes from an [int] option of the
    command line, or is [None]. *)
Definition _validate_and_set_scaling (scaling_factor_input : option Z) : option Z :=
  match scaling_factor_input with
  | Some factor =>
      if (1 <=? factor)%Z && (factor <=? 100)%Z then Some factor else None
  | None => None
  end.

(** [_determine_target_format]: the target codec, extension, MIME type and
    container options.  [CODEC_FORMAT_MAP['h264']] raises when the fallback
    entry is missing (a [KeyError], listed under [OtherException]). *)
Definition _determine_target_format (cfg : Config)
    (codec_choice_input : option string)
    : Res (string * string * string * list string) :=
  let target0 :=
    match codec_choice_input with
    | Some c => if str_in c (ALLOWED_VIDEO_CODECS cfg) then c
                else DEFAULT_VIDEO_CODEC cfg
    | None => DEFAULT_VIDEO_CODEC cfg
    end in
  let finish (codec : string) (fi : format_info) :=
    Ok (codec, default ".mp4" (fi_ext fi), default "video/mp4" (fi_mime fi),
        default [] (fi_container_opts fi)) in
  match dict_get (CODEC_FORMAT_MAP cfg) target0 with
  | Some fi =>
      if format_info_truthy fi then finish target0 fi
      else match dict_get (CODEC_FORMAT_MAP cfg) "h264" with
           | Some fi' => finish "h264" fi'
           | None => Raise OtherException
           end
  | None =>
      match dict_get (CODEC_FORMAT_MAP cfg) "h264" with
      | Some fi' => finish "h264" fi'
      | None => Raise OtherException
      end
  end.

(** [_validate_vaapi_request]; [on_linux] is
    [sys.platform.startswith('linux')].  The look at [/dev/dri] only prints. *)
Definition _validate_vaapi_request (cfg : Config) (ffmpeg : option string)
    (on_linux : bool) (use_vaapi_input : bool) : bool :=
  if negb use_vaapi_input then false
  else if negb (opt_str_truthy ffmpeg) then false
  else if negb on_linux then false
  else if negb (existsb (fun codec => dict_contains (FFMPEG_CODEC_OPTIONS_VAAPI cfg) codec)
                  (ALLOWED_VIDEO_CODECS cfg)) then false
  else true.

(** [MediaProcessor.__init__]; [magic_ok] says whether python-magic was
    imported and initialised. *)
Definition MediaProcessor_init (config_obj : Config) (media_dir : string)
    (ffmpeg ffprobe : option string) (scaling_factor_input : option Z)
    (use_vaapi_input : bool) (codec_choice : option string)
    (on_linux magic_ok : bool) : Res MediaProcessor :=
  match _determine_target_format config_obj codec_choice with
  | Raise e => Raise e
  | Ok (codec, ext, mime, opts) =>
      Ok {|
        config := config_obj;
        media_output_dir := media_dir;
        ffmpeg_path := ffmpeg;
        ffprobe_path := ffprobe;
        enable_transcoding := ENABLE_TRANSCODING config_obj && opt_str_truthy ffmpeg;
        user_codec_choice := codec_choice;
        scaling_factor := _validate_and_set_scaling scaling_factor_input;
        target_codec := codec;
        target_extension := ext;
        target_mime_type := mime;
        target_container_opts := opts;
        use_vaapi := _validate_vaapi_request config_obj ffmpeg on_linux use_vaapi_input;
        magic_available := magic_ok;
      |}
  end.

(** The path of a file of the media directory, as it appears on a command
    line. *)
Definition in_media_dir (p : MediaProcessor) (name : string) : string :=
  os_path_join (media_output_dir p) name.

(** [_get_file_extension_from_mime] *)
Definition common_mime_map : pydict string := [
  ("video/mp4", ".mp4"); ("video/quicktime", ".mov"); ("video/webm", ".webm");
  ("video/x-matroska", ".mkv"); ("video/x-msvideo", ".avi");
  ("video/mpeg", ".mpg"); ("audio/mpeg", ".mp3"); ("audio/aac", ".aac");
  ("audio/ogg", ".ogg"); ("audio/wav", ".wav"); ("audio/flac", ".flac");
  ("image/jpeg", ".jpg"); ("image/png", ".png"); ("image/gif", ".gif");
  ("image/webp", ".webp"); ("image/svg+xml", ".svg");
  ("application/octet-stream", ".bin")
].

Fixpoint first_ext_for_mime (l : list format_info) (mime_type : string)
    : option string :=
  match l with
  | [] => None
  | details :: l' =>
      match fi_mime details with
      | Some m =>
          if String.eqb m mime_type then Some (default ".bin" (fi_ext details))
          else first_ext_for_mime l' mime_type
      | None => first_ext_for_mime l' mime_type
      end
  end.

Definition _get_file_extension_from_mime (p : MediaProcessor)
    (mime_type : string) : string :=
  if negb (contains_char "/" mime_type) then ".bin"
  else
    let sub_type_full := default "" (split_first "/" mime_type).2 in
    let sub_type := strip (lower (split_first ";" sub_type_full).1) in
    match first_ext_for_mime (dict_values (CODEC_FORMAT_MAP (config p))) mime_type with
    | Some ext => ext
    | None =>
        match dict_get common_mime_map mime_type with
        | Some ext => ext
        | None =>
            let safe_subtype :=
              str_filter (fun c => isalnum c || Ascii.eqb c "-" || Ascii.eqb c "+")
                sub_type in
            if str_truthy safe_subtype then "." +:+ safe_subtype else ".bin"
        end
    end.

(** ** Stage helpers *)

Record video_info := {
  width : Z;
  height : Z;
  codec_name : string;
}.

(** [json.loads(result.stdout)] *)
Definition json_loads (out : probe_stdout) : M (option (list ffprobe_stream)) :=
  match out with
  | StdoutUnparseable => raise JSONDecodeError
  | StdoutReport streams => ret streams
  end.

Definition ffprobe_command (p : MediaProcessor) (input_path : string) : list string :=
  [default "" (ffprobe_path p); "-v"; "error"; "-select_streams"; "v:0";
   "-show_entries"; "stream=width,height,codec_name";
   "-of"; "json"; in_media_dir p input_path].

(** [_get_video_info] *)
Definition _get_video_info (E : Env) (p : MediaProcessor) (input_path : string)
    : M (option video_info) :=
  if negb (opt_str_truthy (ffprobe_path p)) then ret None
  else
    ex <- os_path_exists input_path ;;
    if negb ex then ret None
    else
      try_except
        (try_except
           (out <- run_prober E (ffprobe_command p input_path) ;;
            data <- json_loads out ;;
            match data with
            | None | Some [] => ret None
            | Some (stream :: _) =>
                match st_width stream, st_height stream, st_codec_name stream with
                | Some w, Some h, Some c =>
                    if Z_truthy w && Z_truthy h && str_truthy c
                    then ret (Some {| width := w; height := h; codec_name := c |})
                    else ret None
                | _, _, _ => ret None
                end
            end)
           (fun e => match e with
                     | CalledProcessError | JSONDecodeError => true
                     | _ => false
                     end)
           (ret None))
        catch_all
        (ret None).

Definition pre_resize_command (p : MediaProcessor) (input_path temp_path : string)
    : list string :=
  let max_w := MAX_PRE_RESIZE_WIDTH (config p) in
  let max_h := MAX_PRE_RESIZE_HEIGHT (config p) in
  let scale_filter :=
    "scale=w='min(iw,trunc(" +:+ str_of_Z max_w +:+ "/2)*2)':" +:+
    "h='min(ih,trunc(" +:+ str_of_Z max_h +:+ "/2)*2)':" +:+
    "force_original_aspect_ratio=decrease:flags=bicubic" in
  [default "" (ffmpeg_path p); "-y"; "-i"; in_media_dir p input_path]
  ++ ["-vf"; scale_filter]
  ++ FFMPEG_PRE_RESIZE_OPTIONS (config p)
  ++ [in_media_dir p temp_path].

(** [_perform_pre_resize].  The [try] block is split after the creation of
    the temporary file, where [temp_path] becomes known to the [finally]
    clause; [except Exception] catches whatever either part raises. *)
Definition _perform_pre_resize (E : Env) (p : MediaProcessor)
    (input_path : string) (info : option video_info) : M (bool * string) :=
  match info with
  | None => ret (false, input_path)
  | Some vi =>
      if negb (opt_str_truthy (ffmpeg_path p)) then ret (false, input_path)
      else
        let max_w := MAX_PRE_RESIZE_WIDTH (config p) in
        let max_h := MAX_PRE_RESIZE_HEIGHT (config p) in
        if negb (Z_truthy max_w) || negb (Z_truthy max_h)
           || ((width vi <=? max_w)%Z && (height vi <=? max_h)%Z)
        then ret (false, input_path)
        else
          let input_base := (os_path_splitext input_path).1 in
          t <- try_except
                 (n <- named_temporary_file E (input_base +:+ "_") ".preresize.mp4" ;;
                  ret (Some n))
                 catch_all (ret None) ;;
          success <-
            match t with
            | None => ret false
            | Some temp_path =>
                success <-
                  try_except
                    (rc <- run_encoder E (pre_resize_command p input_path temp_path)
                             temp_path ;;
                     good <- produced_output rc temp_path ;;
                     if good then shutil_move temp_path input_path ;;; ret true
                     else ret false)
                    catch_all (ret false) ;;
                when (negb success) (remove_if_exists temp_path) ;;;
                ret success
            end ;;
          emit (EvPreResize input_path success) ;;;
          ret (success, input_path)
  end.

Definition intermediate_h264_command (p : MediaProcessor)
    (input_path intermediate_h264_output_path : string) : list string :=
  [default "" (ffmpeg_path p); "-y";
   "-i"; in_media_dir p input_path;
   "-c:v"; "libx264";
   "-preset"; "ultrafast";
   "-crf"; "17";
   "-c:a"; "copy";
   "-movflags"; "+faststart";
   in_media_dir p intermediate_h264_output_path].

(** The body shared by the intermediate and the scaling encode: run the
    command; on a bad outcome or an exception delete the output file. *)
Definition encode_to (E : Env) (cmd : list string) (out : string) : M bool :=
  try_except
    (rc <- run_encoder E cmd out ;;
     good <- produced_output rc out ;;
     if good then ret true
     else remove_if_exists out ;;; ret false)
    catch_all
    (remove_if_exists out ;;; ret false).

(** [_perform_intermediate_h264_encode] *)
Definition _perform_intermediate_h264_encode (E : Env) (p : MediaProcessor)
    (input_path intermediate_h264_output_path : string) : M bool :=
  r <- (if negb (opt_str_truthy (ffmpeg_path p)) then ret false
        else encode_to E
               (intermediate_h264_command p input_path intermediate_h264_output_path)
               intermediate_h264_output_path) ;;
  emit (EvIntermediate input_path intermediate_h264_output_path r) ;;;
  ret r.

(** [repr(factor / 100.0)] for [1 <= factor <= 100]: the shortest decimal
    that reads back as the same float. *)
Definition str_of_ratio (factor : Z) : string :=
  if (factor =? 100)%Z then "1.0"
  else if (factor mod 10 =? 0)%Z then "0." +:+ str_of_Z (factor / 10)
  else "0." +:+ str_of_Z (factor / 10) +:+ str_of_Z (factor mod 10).

Definition scaling_command (p : MediaProcessor) (factor : Z)
    (input_path intermediate_output_path : string) : list string :=
  let scale_ratio := str_of_ratio factor in
  let scale_filter :=
    "scale=w='trunc(iw*" +:+ scale_ratio +:+ "/2)*2':" +:+
    "h='trunc(ih*" +:+ scale_ratio +:+ "/2)*2':flags=lanczos" in
  [default "" (ffmpeg_path p); "-y";
   "-i"; in_media_dir p input_path;
   "-vf"; scale_filter;
   "-c:v"; "libx264";
   "-preset"; "fast";
   "-crf"; "18";
   "-c:a"; "copy";
   "-movflags"; "+faststart";
   in_media_dir p intermediate_output_path].

(** [_perform_scaling_step] *)
Definition _perform_scaling_step (E : Env) (p : MediaProcessor)
    (input_path intermediate_output_path : string) : M bool :=
  r <- match scaling_factor p with
       | None => ret false
       | Some factor =>
           if negb (opt_str_truthy (ffmpeg_path p)) then ret false
           else encode_to E
                  (scaling_command p factor input_path intermediate_output_path)
                  intermediate_output_path
       end ;;
  emit (EvScaling input_path intermediate_output_path r) ;;;
  ret r.

(** [source_codec_name in self.VAAPI_DECODABLE_CODECS]; the name may be
    [None]. *)
Definition vaapi_decodable (source_codec_name : option string) : bool :=
  match source_codec_name with
  | Some c => str_in c VAAPI_DECODABLE_CODECS
  | None => false
  end.

(** The audio options of the final encode (lines 902-910). *)
Definition audio_opts (target_ext_lower : string) : list string :=
  if String.eqb target_ext_lower ".webm"
  then ["-c:a"; "libopus"; "-b:a"; "96k"]
  else ["-c:a"; "aac"; "-b:a"; "128k"].

(** The video part of the final encode command, up to the encoder options
    (lines 820-899); [ValueError] when the options of the target codec are
    missing. *)
Definition final_video_args (p : MediaProcessor) (input_path target_codec : string)
    (source_codec_name : option string)
    (attempt_vaapi_decode use_vaapi_for_encode_attempt : bool) : Res (list string) :=
  let vaapi_instance_name := "va" in
  let vaapi_needed_overall := attempt_vaapi_decode || use_vaapi_for_encode_attempt in
  let init_opts :=
    if vaapi_needed_overall then
      let init_device_str :=
        if str_truthy (VAAPI_DEVICE_PATH (config p))
        then "vaapi=" +:+ vaapi_instance_name +:+ ":" +:+ VAAPI_DEVICE_PATH (config p)
        else "vaapi=" +:+ vaapi_instance_name in
      ["-init_hw_device"; init_device_str]
      ++ (if use_vaapi_for_encode_attempt || attempt_vaapi_decode
          then ["-filter_hw_device"; vaapi_instance_name] else [])
    else [] in
  let hw_decode_active := attempt_vaapi_decode && vaapi_decodable source_codec_name in
  let decode_opts :=
    if hw_decode_active
    then ["-hwaccel"; "vaapi"; "-hwaccel_device"; vaapi_instance_name;
          "-hwaccel_output_format"; "vaapi"]
    else [] in
  let vf_parts :=
    if use_vaapi_for_encode_attempt then
      if negb hw_decode_active then ["format=pix_fmts=nv12"]
      else ["hwupload"; "scale_vaapi=w=iw:h=ih:format=nv12"]
    else
      if hw_decode_active then ["hwdownload"; "format=pix_fmts=yuv420p"]
      else if String.eqb target_codec "av1" then ["format=pix_fmts=yuv420p"]
      else [] in
  let vf_opts :=
    if list_truthy vf_parts then ["-vf"; join_with "," vf_parts] else [] in
  let codec_options :=
    if use_vaapi_for_encode_attempt
    then dict_get (FFMPEG_CODEC_OPTIONS_VAAPI (config p)) target_codec
    else dict_get (FFMPEG_CODEC_OPTIONS_CPU (config p)) target_codec in
  match codec_options with
  | Some opts =>
      if list_truthy opts then
        Ok ([default "" (ffmpeg_path p); "-y"] ++ init_opts ++ decode_opts
            ++ ["-i"; in_media_dir p input_path]
            ++ ["-map"; "0:v:0"; "-map"; "0:a:0?"]
            ++ vf_opts ++ opts)
      else Raise ValueError
  | None => Raise ValueError
  end.

(** The options after the encoder options (lines 902-917). *)
Definition final_output_args (p : MediaProcessor)
    (final_output_path target_codec temp_output_path : string) : list string :=
  let target_ext_lower := lower (os_path_splitext final_output_path).2 in
  let container_opts :=
    match dict_get (CODEC_FORMAT_MAP (config p)) target_codec with
    | Some fi => if format_info_truthy fi then default [] (fi_container_opts fi) else []
    | None => []
    end in
  audio_opts target_ext_lower
  ++ FFMPEG_COMMON_OPTIONS (config p)
  ++ container_opts
  ++ [in_media_dir p temp_output_path].

Definition final_encode_command (p : MediaProcessor)
    (input_path final_output_path target_codec : string)
    (source_codec_name : option string)
    (attempt_vaapi_decode use_vaapi_for_encode_attempt : bool)
    (temp_output_path : string) : Res (list string) :=
  match final_video_args p input_path target_codec source_codec_name
          attempt_vaapi_decode use_vaapi_for_encode_attempt with
  | Ok video =>
      Ok (video ++ final_output_args p final_output_path target_codec temp_output_path)
  | Raise e => Raise e
  end.

(** [_perform_final_encode_step] *)
Definition _perform_final_encode_step (E : Env) (p : MediaProcessor)
    (input_path final_output_path target_codec : string)
    (source_codec_name : option string)
    (attempt_vaapi_decode use_vaapi_for_encode_attempt : bool) : M bool :=
  r <- (if negb (opt_str_truthy (ffmpeg_path p)) then ret false
        else
          let '(final_base, final_ext) := os_path_splitext final_output_path in
          let attempt_type := if use_vaapi_for_encode_attempt then "vaapi" else "cpu" in
          let temp_prefix := final_base +:+ "_final_" +:+ attempt_type +:+ "_" in
          t <- try_except
                 (n <- named_temporary_file E temp_prefix final_ext ;; ret (Some n))
                 catch_all (ret None) ;;
          match t with
          | None => ret false
          | Some temp_output_path =>
              match final_encode_command p input_path final_output_path target_codec
                      source_codec_name attempt_vaapi_decode
                      use_vaapi_for_encode_attempt temp_output_path with
              | Raise e => raise e
              | Ok ffmpeg_cmd =>
                  final_encode_ok <-
                    try_except
                      (rc <- run_encoder E ffmpeg_cmd temp_output_path ;;
                       good <- produced_output rc temp_output_path ;;
                       if good
                       then shutil_move temp_output_path final_output_path ;;; ret true
                       else ret false)
                      catch_all (ret false) ;;
                  when (negb final_encode_ok) (remove_if_exists temp_output_path) ;;;
                  ret final_encode_ok
              end
          end) ;;
  emit (EvFinalEncode input_path source_codec_name attempt_vaapi_decode
          use_vaapi_for_encode_attempt r) ;;;
  ret r.

(** ** process_annotation *)

(** The stream object of the PDF library: what [read_bytes()] gives, and the
    [objgen] attribute when the object has one. *)
Record StreamRef := {
  read_bytes : Res bytes;
  objgen : option (Z * Z);
}.

Definition rect := list Z.

(** The dictionary returned for a processed item. *)
Record media_item := {
  pageIndex : Z;
  annotIndex : Z;
  outputPath : string;
  absolutePath : string;
  contentTypeDetected : string;
  pdfRect : rect;
}.

Definition safe_char (c : ascii) : ascii :=
  if isalnum c || Ascii.eqb c "_" || Ascii.eqb c "-" then c else "_"%char.

(** [safe_base] (lines 401-410) *)
Definition safe_base_of (page_num annot_index : Z) (stream_ref : StreamRef) : string :=
  let stream_id_part :=
    match objgen stream_ref with
    | Some (a, b) => str_of_Z a +:+ "_" +:+ str_of_Z b
    | None => "p" +:+ str_of_Z (page_num + 1) +:+ "a" +:+ str_of_Z (annot_index + 1) +:+ "s"
    end in
  let base_filename_raw :=
    "slide_" +:+ str_of_Z (page_num + 1) +:+ "_annot_" +:+ str_of_Z (annot_index + 1)
    +:+ "_" +:+ stream_id_part in
  str_map safe_char base_filename_raw.

Definition octet_stream : string := "application/octet-stream".

(** MIME detection (lines 434-451) *)
Definition detect_mime (E : Env) (p : MediaProcessor)
    (current_path content_type_pdf : string) : M string :=
  let from_pdf :=
    if str_truthy content_type_pdf && negb (String.eqb content_type_pdf octet_stream)
    then content_type_pdf else octet_stream in
  if magic_available p then
    try_except
      (magic_mime <- (fun w => (magic_from_file E current_path (w_fs w), w)) ;;
       if str_truthy magic_mime && negb (String.eqb magic_mime octet_stream)
       then ret magic_mime
       else ret from_pdf)
      catch_all
      (ret from_pdf)
  else ret from_pdf.

(** The renaming block that occurs at lines 457-467, 668-681 and 688-697:
    [if src != dst: try: (remove dst if it exists); shutil.move(src, dst)
    except OSError: keep src]; its value is the path the file has
    afterwards. *)
Definition rename_to (src dst : string) : M string :=
  if String.eqb src dst then ret src
  else
    try_except
      (ex <- os_path_exists dst ;;
       when ex (os_remove dst) ;;;
       shutil_move src dst ;;;
       ret dst)
      is_OSError
      (ret src).

(** Whether the scaling stage runs (line 486). *)
Definition needs_scaling (p : MediaProcessor) : bool :=
  match scaling_factor p with
  | Some f => negb (f =? 100)%Z
  | None => false
  end.

(** What the scaling stage hands to the final stage. *)
Record encode_input := {
  scaled_intermediate_path : option string;
  path_for_final_encode : string;
  codec_for_final_encode : option string;
  ext_for_final_encode : string;
  mime_for_final_encode : string;
}.

(** Step 1, scaling (lines 479-511); the item is a video here. *)
Definition scaling_stage (E : Env) (p : MediaProcessor)
    (safe_base initial_absolute_temp_path current_path : string)
    (source_codec : option string) (detected_mime : string) : M encode_input :=
  let unscaled := {|
    scaled_intermediate_path := None;
    path_for_final_encode := current_path;
    codec_for_final_encode := source_codec;
    ext_for_final_encode := lower (os_path_splitext current_path).2;
    mime_for_final_encode := detected_mime |} in
  if needs_scaling p && enable_transcoding p then
    let scaled := safe_base +:+ ".scale_hq_inter.mp4" in
    scale_ok <- _perform_scaling_step E p current_path scaled ;;
    if scale_ok then
      ex <- os_path_exists current_path ;;
      when (negb (String.eqb current_path initial_absolute_temp_path) && ex)
           (try_remove current_path) ;;;
      ret {| scaled_intermediate_path := Some scaled;
             path_for_final_encode := scaled;
             codec_for_final_encode := Some "h264";
             ext_for_final_encode := ".mp4";
             mime_for_final_encode := "video/mp4" |}
    else
      remove_if_exists scaled ;;;
      ret unscaled
  else ret unscaled.

(** The entry decision of the final stage (lines 515-530). *)
Definition is_preferred_format (p : MediaProcessor)
    (ext : string) (codec : option string) : bool :=
  match dict_get (PREFERRED_FORMATS (config p)) ext, codec with
  | Some preferred_codecs, Some c => list_truthy preferred_codecs && str_in c preferred_codecs
  | _, _ => false
  end.

Definition explicit_change (p : MediaProcessor)
    (ext : string) (codec : option string) : bool :=
  match user_codec_choice p with
  | Some choice =>
      if str_truthy choice then
        let requested_ext :=
          match dict_get (CODEC_FORMAT_MAP (config p)) choice with
          | Some fi => if format_info_truthy fi then lower (default ".err" (fi_ext fi))
                       else ".err"
          | None => ".err"
          end in
        negb (bool_decide (codec = Some choice)) || negb (String.eqb requested_ext ext)
      else false
  | None => false
  end.

Definition final_transcode_needed (p : MediaProcessor)
    (ext : string) (codec : option string) : bool :=
  negb (is_preferred_format p ext codec) || explicit_change p ext codec.

(** Lines 550-557. *)
Definition decode_vaapi_possible (p : MediaProcessor) (codec : option string) : bool :=
  use_vaapi p && opt_str_truthy codec && vaapi_decodable codec.

Definition encode_vaapi_possible (p : MediaProcessor) : bool :=
  use_vaapi p && dict_contains (FFMPEG_CODEC_OPTIONS_VAAPI (config p)) (target_codec p).

(** The attempts of the final transcode (lines 559-650): the overall success
    flag and the H.264 intermediate, when one was named. *)
Definition final_transcode_cascade (E : Env) (p : MediaProcessor)
    (safe_base final_output_path path_for_final_encode : string)
    (codec_for_final_encode : option string) : M (bool * option string) :=
  let decode_possible := decode_vaapi_possible p codec_for_final_encode in
  r <- (if encode_vaapi_possible p then
          final_encode_success <-
            (if decode_possible then
               _perform_final_encode_step E p path_for_final_encode final_output_path
                 (target_codec p) codec_for_final_encode true true
             else ret false) ;;
          if negb final_encode_success then
            let intermediate_h264_file := safe_base +:+ ".inter_h264.mp4" in
            intermediate_ok <-
              _perform_intermediate_h264_encode E p path_for_final_encode
                intermediate_h264_file ;;
            if intermediate_ok then
              success_vaapi_from_h264 <-
                _perform_final_encode_step E p intermediate_h264_file final_output_path
                  (target_codec p) (Some "h264") true true ;;
              ret (success_vaapi_from_h264, Some intermediate_h264_file)
            else ret (false, Some intermediate_h264_file)
          else ret (true, None)
        else ret (false, None)) ;;
  let '(final_encode_success, intermediate_h264_file) := r in
  if negb final_encode_success then
    inter_exists <-
      match intermediate_h264_file with
      | Some f => os_path_exists f
      | None => ret false
      end ;;
    let cpu_input_path :=
      match intermediate_h264_file with
      | Some f => if inter_exists then f else path_for_final_encode
      | None => path_for_final_encode
      end in
    let cpu_source_codec :=
      if bool_decide (Some cpu_input_path = intermediate_h264_file) then Some "h264"
      else codec_for_final_encode in
    let cpu_attempt_decode :=
      if bool_decide (cpu_source_codec = Some "h264") then true else decode_possible in
    success_cpu <-
      _perform_final_encode_step E p cpu_input_path final_output_path
        (target_codec p) cpu_source_codec cpu_attempt_decode false ;;
    ret (success_cpu, intermediate_h264_file)
  else ret (true, intermediate_h264_file).

(** What the final stage leaves for the clean-up. *)
Record encode_outcome := {
  resulting_path : string;
  resulting_mime : string;
  intermediate_h264_file : option string;
}.

(** Step 2, the final transcoding logic (lines 513-697). *)
Definition final_transcoding_stage (E : Env) (p : MediaProcessor)
    (safe_base : string) (inp : encode_input) : M encode_outcome :=
  let final_output_path := safe_base +:+ target_extension p in
  if final_transcode_needed p (ext_for_final_encode inp) (codec_for_final_encode inp)
     && enable_transcoding p
  then
    r <- final_transcode_cascade E p safe_base final_output_path
           (path_for_final_encode inp) (codec_for_final_encode inp) ;;
    let '(final_encode_success, inter) := r in
    if final_encode_success then
      ret {| resulting_path := final_output_path;
             resulting_mime := target_mime_type p;
             intermediate_h264_file := inter |}
    else
      path <- rename_to (path_for_final_encode inp) final_output_path ;;
      ret {| resulting_path := path;
             resulting_mime := mime_for_final_encode inp;
             intermediate_h264_file := inter |}
  else
    path <- rename_to (path_for_final_encode inp) final_output_path ;;
    ret {| resulting_path := path;
           resulting_mime := mime_for_final_encode inp;
           intermediate_h264_file := None |}.

(** Step 5, clean-up and return (lines 700-734). *)
Definition cleanup_and_return (p : MediaProcessor) (page_num annot_index : Z)
    (pdf_rect : rect) (initial_absolute_temp_path : string)
    (scaled_path : option string) (out : encode_outcome) : M (option media_item) :=
  match intermediate_h264_file out with
  | Some f => remove_if_exists f
  | None => ret tt
  end ;;;
  (if negb (String.eqb initial_absolute_temp_path (resulting_path out))
   then remove_if_exists initial_absolute_temp_path else ret tt) ;;;
  match scaled_path with
  | Some s =>
      if negb (String.eqb s (resulting_path out)) then remove_if_exists s else ret tt
  | None => ret tt
  end ;;;
  ex <- os_path_exists (resulting_path out) ;;
  if negb ex then ret None
  else
    let resulting_filename := resulting_path out in
    let relative_path :=
      replace_backslash
        (os_path_join (MEDIA_OUTPUT_DIR_NAME (config p)) resulting_filename) in
    ret (Some {| pageIndex := page_num; annotIndex := annot_index;
                 outputPath := relative_path;
                 absolutePath := resulting_path out;
                 contentTypeDetected := resulting_mime out;
                 pdfRect := pdf_rect |}).

(** Steps 4 and 5: the final stage, then the clean-up. *)
Definition final_stage_and_return (E : Env) (p : MediaProcessor)
    (page_num annot_index : Z) (pdf_rect : rect)
    (safe_base initial_absolute_temp_path : string) (inp : encode_input)
    : M (option media_item) :=
  out <- final_transcoding_stage E p safe_base inp ;;
  cleanup_and_return p page_num annot_index pdf_rect initial_absolute_temp_path
    (scaled_intermediate_path inp) out.

(** Steps 3 to 5 for a video item. *)
Definition transcode_and_finish (E : Env) (p : MediaProcessor)
    (page_num annot_index : Z) (pdf_rect : rect)
    (safe_base initial_absolute_temp_path current_path : string)
    (source_codec : option string) (detected_mime : string)
    : M (option media_item) :=
  inp <- scaling_stage E p safe_base initial_absolute_temp_path current_path
           source_codec detected_mime ;;
  final_stage_and_return E p page_num annot_index pdf_rect safe_base
    initial_absolute_temp_path inp.

(** What the identification step knows about the extracted file. *)
Record identified := {
  current_path : string;
  source_codec : option string;
  detected_mime : string;
}.

(** Step 2, pre-resize and identification (lines 425-470). *)
Definition identify (E : Env) (p : MediaProcessor)
    (safe_base initial_absolute_temp_path content_type_pdf : string) : M identified :=
  info <- _get_video_info E p initial_absolute_temp_path ;;
  rz <- _perform_pre_resize E p initial_absolute_temp_path info ;;
  let '(resized, path) := rz in
  info <- (if resized then _get_video_info E p path else ret info) ;;
  mime <- detect_mime E p path content_type_pdf ;;
  emit (EvDetected mime) ;;;
  let final_extension := _get_file_extension_from_mime p mime in
  let final_path_initial_guess := safe_base +:+ final_extension in
  path <- rename_to path final_path_initial_guess ;;
  info <- (if negb (bool_decide (is_Some info)) || resized
           then _get_video_info E p path else ret info) ;;
  ret {| current_path := path;
         source_codec := codec_name <$> info;
         detected_mime := mime |}.

(** [process_annotation] *)
Definition process_annotation (E : Env) (p : MediaProcessor)
    (page_num annot_index : Z) (stream_ref : StreamRef) (pdf_rect : rect)
    (content_type_pdf : string) : M (option media_item) :=
  match read_bytes stream_ref with
  | Raise _ => ret None
  | Ok [] => ret None
  | Ok stream_bytes =>
      let safe_base := safe_base_of page_num annot_index stream_ref in
      let initial_absolute_temp_path := safe_base +:+ ".tmp.bin" in
      written <- try_except
                   (write_file initial_absolute_temp_path stream_bytes ;;; ret true)
                   is_OSError (ret false) ;;
      if negb written then ret None
      else
        idn <- identify E p safe_base initial_absolute_temp_path content_type_pdf ;;
        if negb (startswith (detected_mime idn) "video/") then
          ex <- os_path_exists initial_absolute_temp_path ;;
          when (negb (String.eqb initial_absolute_temp_path (current_path idn)) && ex)
               (try_remove initial_absolute_temp_path) ;;;
          ret None
        else
          transcode_and_finish E p page_num annot_index pdf_rect safe_base
            initial_absolute_temp_path (current_path idn) (source_codec idn)
            (detected_mime idn)
  end.

(** ** main.py: the VAAPI check and the page loop *)

(** The VAAPI feasibility check of [main] (lines 201-230): the flag handed
    to [MediaProcessor].  [ffmpeg] and [ffprobe] are the entries of
    [utils.check_dependencies()], a path or [None]; [dev_dri] is what
    [os.listdir('/dev/dri/')] gives. *)
Definition main_vaapi_check (cfg : Config) (ffmpeg ffprobe : option string)
    (on_linux : bool) (codec_choice_arg : string) (dev_dri : Res (list string))
    (use_vaapi_arg : bool) : bool :=
  if use_vaapi_arg then
    let vaapi_possible :=
      if negb (opt_str_truthy ffmpeg) then false
      else if negb on_linux then false
      else if negb (dict_contains (FFMPEG_CODEC_OPTIONS_VAAPI cfg) codec_choice_arg)
      then false
      else if negb (opt_str_truthy ffprobe) then true
      else match dev_dri with
           | Ok _ => true
           | Raise FileNotFoundError => false
           | Raise _ => true
           end in
    if negb vaapi_possible then false else use_vaapi_arg
  else use_vaapi_arg.

(** The processor [main] builds (lines 312-320), for a scaling factor that
    passed the range check of lines 150-154 and a codec among the choices of
    the [--codec] option. *)
Definition main_media_processor (media_dir_abs : string)
    (ffmpeg ffprobe : option string) (on_linux magic_ok : bool)
    (scaling_factor_arg : option Z) (codec_choice_arg : string)
    (dev_dri : Res (list string)) (use_vaapi_arg : bool) : Res MediaProcessor :=
  MediaProcessor_init config_py media_dir_abs ffmpeg ffprobe scaling_factor_arg
    (main_vaapi_check config_py ffmpeg ffprobe on_linux codec_choice_arg dev_dri
       use_vaapi_arg)
    (Some codec_choice_arg) on_linux magic_ok.

(** One dictionary of [find_media_annotations], as [main] reads it: a field
    is [None] when the key is missing or its value is falsy. *)
Record annot_info := {
  ann_stream_ref : option StreamRef;
  ann_rect : option rect;
  ann_content_type : option string;
}.

(** One dictionary of [all_page_data]: a processed media item with the
    dimensions of its page ([hasVideo] true), or the placeholder of a page
    without one ([hasVideo] false).  The dimensions are of a type [D] that
    the page loop only passes on. *)
Inductive page_entry (D : Type) :=
  | VideoEntry (item : media_item) (pageDimensions : D)
  | PlaceholderEntry (page_index : Z) (pageDimensions : D).
Arguments VideoEntry {D} item pageDimensions.
Arguments PlaceholderEntry {D} page_index pageDimensions.

(** [item.get('pageIndex', -1)] *)
Definition entry_page {D} (e : page_entry D) : Z :=
  match e with
  | VideoEntry item _ => pageIndex item
  | PlaceholderEntry i _ => i
  end.

(** The loop over the media annotations of a page (lines 342-365): the
    entries appended for the annotations from index [annot_index] on. *)
Fixpoint process_media_annotations {D} (E : Env) (p : MediaProcessor)
    (page_num : Z) (page_dims : D) (annot_index : Z)
    (media_annotations : list annot_info) : M (list (page_entry D)) :=
  match media_annotations with
  | [] => ret []
  | annot :: rest =>
      here <-
        match ann_stream_ref annot, ann_rect annot with
        | Some stream_ref, Some pdf_rect =>
            processed_media_info <-
              process_annotation E p page_num annot_index stream_ref pdf_rect
                (default octet_stream (ann_content_type annot)) ;;
            match processed_media_info with
            | Some item => ret [VideoEntry item page_dims]
            | None => ret []
            end
        | _, _ => ret []
        end ;;
      more <- process_media_annotations E p page_num page_dims (annot_index + 1) rest ;;
      ret (here ++ more)
  end.

(** What the PDF analysis gives for one page: the entry of the dimensions
    map, [None] when it is missing or [None], and the media annotations. *)
Record page_input (D : Type) := {
  dims_found : option D;
  media_annotations : list annot_info;
}.
Arguments dims_found {D} _.
Arguments media_annotations {D} _.

(** Lines 326-334: the dimensions of the page, or the fallback of config.py
    when they are missing or fail the check [valid]. *)
Definition page_dims_or_fallback {D} (fallback : D) (valid : D -> bool)
    (found : option D) : D :=
  match found with
  | Some d => if valid d then d else fallback
  | None => fallback
  end.

(** The loop over the pages (lines 323-374): the entries appended for the
    pages from [page_num] on. *)
Fixpoint process_pages {D} (E : Env) (p : MediaProcessor)
    (fallback : D) (valid : D -> bool) (page_num : Z)
    (pages : list (page_input D)) : M (list (page_entry D)) :=
  match pages with
  | [] => ret []
  | page :: rest =>
      let page_dims := page_dims_or_fallback fallback valid (dims_found page) in
      videos <- process_media_annotations E p page_num page_dims 0
                  (media_annotations page) ;;
      let entries :=
        if list_truthy videos then videos
        else [PlaceholderEntry page_num page_dims] in
      more <- process_pages E p fallback valid (page_num + 1) rest ;;
      ret (entries ++ more)
  end.

(** [all_page_data.sort(key=lambda item: item.get('pageIndex', -1))]: a
    stable sort, entries with the same page index keep their order. *)
Fixpoint insert_by_page {D} (e : page_entry D) (l : list (page_entry D))
    : list (page_entry D) :=
  match l with
  | [] => [e]
  | x :: l' =>
      if (entry_page e <=? entry_page x)%Z then e :: x :: l'
      else x :: insert_by_page e l'
  end.

Definition sort_by_page {D} (l : list (page_entry D)) : list (page_entry D) :=
  foldr insert_by_page [] l.

(** Step 1 of [main] (lines 322-378): [all_page_data] after the sort. *)
Definition collect_page_data {D} (E : Env) (p : MediaProcessor)
    (fallback : D) (valid : D -> bool) (pages : list (page_input D))
    : M (list (page_entry D)) :=
  all_page_data <- process_pages E p fallback valid 0 pages ;;
  ret (sort_by_page all_page_data).

(** * Specification vocabulary *)

Definition output_good (rc : Z) (fs : gmap string bytes) (p : string) : bool :=
  (rc =? 0)%Z &&
  match fs !! p with
  | Some c => (0 <? Z.of_nat (length c))%Z
  | None => false
  end.

Definition encode_to_post (cmd : list string) (out : string) (w : World) (r : bool) (w' : World) : Prop :=
  w_log w' = w_log w ++ [EvEncoder cmd] /\
  w_ntmp w' = w_ntmp w /\
  if r then exists c, c <> [] /\ w_fs w' = <[out := c]> (w_fs w)
  else w_fs w' = delete out (w_fs w).

Definition has_options (d : pydict (list string)) (k : string) : bool :=
  match dict_get d k with
  | Some opts => list_truthy opts
  | None => false
  end.

Definition encoder_profile (p : MediaProcessor) (target_codec : string) (use_vaapi_for_encode_attempt : bool) : bool :=
  if use_vaapi_for_encode_attempt
  then has_options (FFMPEG_CODEC_OPTIONS_VAAPI (config p)) target_codec
  else has_options (FFMPEG_CODEC_OPTIONS_CPU (config p)) target_codec.

Definition final_temp_prefix (final_output_path : string) (use_vaapi_for_encode_attempt : bool) : string :=
  (os_path_splitext final_output_path).1 +:+ "_final_"
  +:+ (if use_vaapi_for_encode_attempt then "vaapi" else "cpu") +:+ "_".

Definition final_step_post (p : MediaProcessor) (input F tc : string) (sc : option string)
    (d e : bool) (w : World) (r : bool) (w' : World) : Prop :=
  (exists pre, w_log w' = w_log w ++ pre ++ [EvFinalEncode input sc d e r] /\
     (pre = [] /\ r = false \/
      exists t cmd, pre = [EvTemp t; EvEncoder cmd] /\ w_fs w !! t = None /\
        (exists rnd, t = final_temp_prefix F e +:+ rnd +:+ (os_path_splitext F).2) /\
        final_encode_command p input F tc sc d e t = Ok cmd)) /\
  (if r then exists c, c <> [] /\ w_fs w' = <[F := c]> (w_fs w)
   else w_fs w' = w_fs w).

Definition probe_log (p : MediaProcessor) (path : string) (l : list event) : Prop :=
  l = [] \/ l = [EvProbe (ffprobe_command p path)].

Definition pre_resize_temp_prefix (input_path : string) : string :=
  (os_path_splitext input_path).1 +:+ "_".

Definition pre_resize_post (p : MediaProcessor) (input : string) (w : World)
    (r : bool) (w' : World) : Prop :=
  (exists l, w_log w' = w_log w ++ l /\
     (l = [] /\ r = false \/
      opt_str_truthy (ffmpeg_path p) = true /\
      (l = [EvPreResize input false] /\ r = false \/
       exists t, l = [EvTemp t; EvEncoder (pre_resize_command p input t); EvPreResize input r] /\
         w_fs w !! t = None /\
         exists rnd, t = pre_resize_temp_prefix input +:+ rnd +:+ ".preresize.mp4"))) /\
  (if r then exists c, c <> [] /\ w_fs w' = <[input := c]> (w_fs w)
   else w_fs w' = w_fs w).

Definition aux_encode_post (active : bool) (cmd : list string)
    (done_event : bool -> event) (out : string)
    (w : World) (r : bool) (w' : World) : Prop :=
  exists pre, w_log w' = w_log w ++ pre ++ [done_event r] /\
    if active then
      pre = [EvEncoder cmd] /\
      if r then exists c, c <> [] /\ w_fs w' = <[out := c]> (w_fs w)
      else w_fs w' = delete out (w_fs w)
    else pre = [] /\ r = false /\ w_fs w' = w_fs w.

Definition scaling_active (p : MediaProcessor) : bool :=
  match scaling_factor p with
  | Some _ => opt_str_truthy (ffmpeg_path p)
  | None => false
  end.

(** String vocabulary *)
Definition is_dot (c : ascii) : bool := Ascii.eqb c ".".
Definition no_dot (s : string) : bool := str_forallb (fun c => negb (is_dot c)) s.
Definition safe_name_char (c : ascii) : bool :=
  isalnum c || Ascii.eqb c "_" || Ascii.eqb c "-".
Definition ext_char (c : ascii) : bool :=
  isalnum c || Ascii.eqb c "-" || Ascii.eqb c "+".

Definition temp_like (sb t : string) : bool :=
  String.prefix (sb +:+ "_") t || String.prefix (sb +:+ ".tmp_") t.

Definition is_attempt (ev : event) : bool :=
  match ev with
  | EvIntermediate _ _ _ | EvFinalEncode _ _ _ _ _ => true
  | _ => false
  end.

Definition attempts (l : list event) : list event := List.filter is_attempt l.

Definition inter_name (sb : string) : string := sb +:+ ".inter_h264.mp4".

(** What the cascade may write to the log. *)
Definition cascade_event_ok (p : MediaProcessor) (sb F P : string) (ev : event) : Prop :=
  match ev with
  | EvTemp t => temp_like sb t = true
  | EvEncoder cmd =>
      cmd = intermediate_h264_command p P (inter_name sb) \/
      exists i sc d e t, final_encode_command p i F (target_codec p) sc d e t = Ok cmd
  | EvIntermediate _ _ _ | EvFinalEncode _ _ _ _ _ => True
  | _ => False
  end.

Definition casc_rel (p : MediaProcessor) (sb F P : string) (w w' : World)
    (tr : list event) : Prop :=
  exists l, w_log w' = w_log w ++ l /\
    attempts l = tr /\
    Forall (cascade_event_ok p sb F P) l /\
    (forall t, EvTemp t ∈ l -> w_fs w' !! t = None) /\
    (forall q, q <> F -> q <> inter_name sb -> w_fs w' !! q = w_fs w !! q).

(** The failed direct attempt that precedes the intermediate encode, when the
    direct pipeline was possible. *)
Definition direct_prefix (p : MediaProcessor) (P : string) (codec : option string)
    : list event :=
  if decode_vaapi_possible p codec
  then [EvFinalEncode P codec true true false] else [].

(** Whether the CPU fallback from the original input asks for VAAPI decode
    (line 633). *)
Definition cpu_attempt_decode (p : MediaProcessor) (codec : option string) : bool :=
  if bool_decide (codec = Some "h264") then true else decode_vaapi_possible p codec.

(** The orders in which the cascade can run its attempts: the attempt events
    logged, the overall success flag and the intermediate named. *)
Inductive cascade_shape (p : MediaProcessor) (P : string) (codec : option string)
    (inter : string) : list event -> bool -> option string -> Prop :=
  | shape_direct :
      encode_vaapi_possible p = true ->
      decode_vaapi_possible p codec = true ->
      cascade_shape p P codec inter
        [EvFinalEncode P codec true true true] true None
  | shape_from_intermediate :
      encode_vaapi_possible p = true ->
      cascade_shape p P codec inter
        (direct_prefix p P codec ++
         [EvIntermediate P inter true;
          EvFinalEncode inter (Some "h264") true true true])
        true (Some inter)
  | shape_cpu_from_intermediate r :
      encode_vaapi_possible p = true ->
      cascade_shape p P codec inter
        (direct_prefix p P codec ++
         [EvIntermediate P inter true;
          EvFinalEncode inter (Some "h264") true true false;
          EvFinalEncode inter (Some "h264") true false r])
        r (Some inter)
  | shape_cpu_after_failed_intermediate r :
      encode_vaapi_possible p = true ->
      cascade_shape p P codec inter
        (direct_prefix p P codec ++
         [EvIntermediate P inter false;
          EvFinalEncode P codec (cpu_attempt_decode p codec) false r])
        r (Some inter)
  | shape_cpu_only r :
      encode_vaapi_possible p = false ->
      cascade_shape p P codec inter
        [EvFinalEncode P codec (cpu_attempt_decode p codec) false r] r None.

Definition cascade_post (p : MediaProcessor) (sb F P : string) (codec : option string)
    (w : World) (r : bool) (io : option string) (w' : World) : Prop :=
  exists tr, casc_rel p sb F P w w' tr /\
    cascade_shape p P codec (inter_name sb) tr r io /\
    (if r then exists c, c <> [] /\ w_fs w' !! F = Some c
     else w_fs w' !! F = w_fs w !! F) /\
    (io = None -> w_fs w' !! inter_name sb = w_fs w !! inter_name sb).

(** The three target formats of config.py. *)
Definition standard_target (p : MediaProcessor) : Prop :=
  (target_codec p = "h264" /\ target_extension p = ".mp4" /\ target_mime_type p = "video/mp4") \/
  (target_codec p = "vp9" /\ target_extension p = ".webm" /\ target_mime_type p = "video/webm") \/
  (target_codec p = "av1" /\ target_extension p = ".webm" /\ target_mime_type p = "video/webm").

(** A processor as [MediaProcessor(config, ...)] builds it from config.py. *)
Record built_from_config_py (p : MediaProcessor) : Prop := {
  built_config : config p = config_py;
  built_enable : enable_transcoding p = opt_str_truthy (ffmpeg_path p);
  built_vaapi : use_vaapi p = true -> opt_str_truthy (ffmpeg_path p) = true;
  built_target : standard_target p;
}.

(** Names built on a safe base. *)
Definition safe_base (sb : string) : Prop :=
  (exists rest, sb = String "s" rest) /\ str_forallb safe_name_char sb = true.

(** Extensions as [_get_file_extension_from_mime] makes them: a dot, then
    letters, digits, ['-'] or ['+']. *)
Definition plain_ext (e : string) : Prop :=
  exists s, e = String "." s /\ str_forallb ext_char s = true.

Definition scaled_name (sb : string) : string := sb +:+ ".scale_hq_inter.mp4".
Definition initial_name (sb : string) : string := sb +:+ ".tmp.bin".
Definition final_name (p : MediaProcessor) (sb : string) : string :=
  sb +:+ target_extension p.

(** The events a computation added to the log. *)
Definition new_events (w w' : World) : list event :=
  drop (length (w_log w)) (w_log w').

(** The directory after the clean-up (lines 702-719). *)
Definition cleanup_fs (init : string) (scaled : option string) (out : encode_outcome)
    (fs : gmap string bytes) : gmap string bytes :=
  let fs1 := match intermediate_h264_file out with
             | Some f => delete f fs
             | None => fs
             end in
  let fs2 := if negb (String.eqb init (resulting_path out)) then delete init fs1 else fs1 in
  match scaled with
  | Some s => if negb (String.eqb s (resulting_path out)) then delete s fs2 else fs2
  | None => fs2
  end.

(** The dictionary returned for the file the final stage settled on. *)
Definition item_of (p : MediaProcessor) (page_num annot_index : Z) (pdf_rect : rect)
    (path mime : string) : media_item :=
  {| pageIndex := page_num; annotIndex := annot_index;
     outputPath := replace_backslash (os_path_join (MEDIA_OUTPUT_DIR_NAME (config p)) path);
     absolutePath := path;
     contentTypeDetected := mime;
     pdfRect := pdf_rect |}.

(** The output file [out] exists in [fs] with a size above zero. *)
Definition nonempty_file (fs : gmap string bytes) (out : string) : Prop :=
  exists c, fs !! out = Some c /\ (0 < length c)%nat.

(** The audio options a command line can carry. *)
Definition aac_128k : list string := ["-c:a"; "aac"; "-b:a"; "128k"].
Definition audio_copy : list string := ["-c:a"; "copy"].

(** The parts of an encoder command line
    [ffmpeg <input options> -i <input> <output options> <output>]:
    what follows the input file. *)
Fixpoint after_input (args : list string) : list string :=
  match args with
  | [] => []
  | a :: rest => if String.eqb a "-i" then tl rest else after_input rest
  end.

(** The output options stand between the input file and the output file. *)
Definition output_options (cmd : list string) : list string :=
  removelast (after_input (tl cmd)).

(** The values given to one of the options [opts], in order. *)
Fixpoint option_values (opts : list string) (args : list string) : list string :=
  match args with
  | [] => []
  | a :: rest =>
      (if str_in a opts then match rest with v :: _ => [v] | [] => [] end else [])
      ++ option_values opts rest
  end.

(** The spellings ffmpeg accepts for the audio codec, alone or with every
    other stream, and for the audio bit rate. *)
Definition audio_codec_options : list string :=
  ["-c:a"; "-codec:a"; "-acodec"; "-c"; "-codec"].
Definition audio_bitrate_options : list string := ["-b:a"; "-ab"].

(** What a command line asks for the audio track: the codecs and the bit
    rates among its output options. *)
Definition audio_request (cmd : list string) : list string * list string :=
  (option_values audio_codec_options (output_options cmd),
   option_values audio_bitrate_options (output_options cmd)).

Definition audio_copied : list string * list string := (["copy"], []).

(** The audio request of the final encode for a container extension. *)
Definition audio_reencoded (ext : string) : list string * list string :=
  if String.eqb ext ".webm" then (["libopus"], ["96k"]) else (["aac"], ["128k"]).

(** What the identification step may write to the log; encoder runs and
    temporary files need the encoder. *)
Definition identify_event_ok (p : MediaProcessor) (sb mime : string) (ev : event) : Prop :=
  match ev with
  | EvProbe _ => True
  | EvDetected m => m = mime
  | EvTemp t => temp_like sb t = true /\ opt_str_truthy (ffmpeg_path p) = true
  | EvEncoder _ | EvPreResize _ _ => opt_str_truthy (ffmpeg_path p) = true
  | _ => False
  end.

(** What the scaling stage may write to the log. *)
Definition scaling_event_ok (p : MediaProcessor) (sb : string) (ev : event) : Prop :=
  match ev with
  | EvEncoder _ => enable_transcoding p = true
  | EvScaling _ o _ => o = scaled_name sb /\ enable_transcoding p = true
  | _ => False
  end.

(** The input of the final stage when no scaled intermediate is used. *)
Definition unscaled_input (cur : string) (sc : option string) (mime : string)
    : encode_input :=
  {| scaled_intermediate_path := None;
     path_for_final_encode := cur;
     codec_for_final_encode := sc;
     ext_for_final_encode := lower (os_path_splitext cur).2;
     mime_for_final_encode := mime |}.

(** The input of the final stage after a successful scaling. *)
Definition scaled_input (sb : string) : encode_input :=
  {| scaled_intermediate_path := Some (scaled_name sb);
     path_for_final_encode := scaled_name sb;
     codec_for_final_encode := Some "h264";
     ext_for_final_encode := ".mp4";
     mime_for_final_encode := "video/mp4" |}.

(** What the final stage leaves behind, in terms of the world before it. *)
Record final_stage_post (p : MediaProcessor) (sb : string) (inp : encode_input)
    (cP : bytes) (w : World) (out : encode_outcome) (w' : World) (l : list event)
    : Prop := {
  fsp_path : resulting_path out = final_name p sb;
  fsp_log : w_log w' = w_log w ++ l;
  fsp_events :
    Forall (cascade_event_ok p sb (final_name p sb) (path_for_final_encode inp)) l;
  fsp_temps : forall t, EvTemp t ∈ l -> w_fs w' !! t = None;
  fsp_file : is_Some (w_fs w' !! final_name p sb);
  fsp_frame : forall q, q <> final_name p sb -> q <> inter_name sb ->
                q <> path_for_final_encode inp -> w_fs w' !! q = w_fs w !! q;
  fsp_inter_named :
    intermediate_h264_file out = None \/ intermediate_h264_file out = Some (inter_name sb);
  fsp_inter_ran : forall i o ok, EvIntermediate i o ok ∈ l ->
                    o = inter_name sb /\ intermediate_h264_file out = Some (inter_name sb);
  fsp_success : (exists i sc d e, EvFinalEncode i sc d e true ∈ l) ->
                  resulting_mime out = target_mime_type p;
  fsp_failure : (forall i sc d e, EvFinalEncode i sc d e true ∉ l) ->
                  resulting_mime out = mime_for_final_encode inp /\
                  w_fs w' !! final_name p sb = Some cP;
  fsp_disabled : enable_transcoding p = false -> l = [];
}.

(** What steps 3 to 5 leave behind for a video item whose file is [cur]. *)
Record finish_post (p : MediaProcessor) (sb cur mime : string) (c : bytes)
    (w w' : World) (m : string) (l_sc l_fin : list event) : Prop := {
  fin_log : w_log w' = w_log w ++ l_sc ++ l_fin;
  fin_scaling : Forall (scaling_event_ok p sb) l_sc;
  fin_cascade : exists P, Forall (cascade_event_ok p sb (final_name p sb) P) l_fin;
  fin_file : is_Some (w_fs w' !! final_name p sb);
  fin_initial : w_fs w' !! initial_name sb = None;
  fin_temps : forall t, EvTemp t ∈ l_fin -> w_fs w' !! t = None;
  fin_old_temps : forall q, temp_like sb q = true -> w_fs w !! q = None ->
                    w_fs w' !! q = None;
  fin_scaled : forall i o ok, EvScaling i o ok ∈ l_sc -> w_fs w' !! o = None;
  fin_inter : forall i o ok, EvIntermediate i o ok ∈ l_fin -> w_fs w' !! o = None;
  fin_success : (exists i sc d e, EvFinalEncode i sc d e true ∈ l_fin) ->
                  m = target_mime_type p;
  fin_disabled : enable_transcoding p = false ->
                   l_sc = [] /\ l_fin = [] /\ m = mime /\
                   w_fs w' !! final_name p sb = Some c;
}.

(** What a whole run leaves behind when the stream was read and is a video. *)
Record video_run_post (p : MediaProcessor) (sb : string) (b : bytes)
    (fs : gmap string bytes) (w' : World) (mime m : string)
    (l_id l_sc l_fin : list event) : Prop := {
  vr_log : w_log w' = l_id ++ l_sc ++ l_fin;
  vr_identify : Forall (identify_event_ok p sb mime) l_id;
  vr_detected : EvDetected mime ∈ l_id;
  vr_temps_id : forall t, EvTemp t ∈ l_id -> w_fs w' !! t = None;
  vr_finish : exists c w2,
      finish_post p sb (sb +:+ _get_file_extension_from_mime p mime) mime c w2 w' m l_sc l_fin /\
      (opt_str_truthy (ffmpeg_path p) = false -> c = b);
}.

(** Events that need no encoder: prober runs and the detected content type. *)
Definition passive_event (ev : event) : Prop :=
  match ev with
  | EvProbe _ | EvDetected _ => True
  | _ => False
  end.

(** The ways a probe fails: the probing tool is missing, the input file is
    missing, the tool cannot be run, it exits with a non-zero status, its
    output is not JSON, or the report has no video stream. *)
Definition probe_failure (E : Env) (p : MediaProcessor) (input_path : string)
    (fs : gmap string bytes) : Prop :=
  opt_str_truthy (ffprobe_path p) = false \/
  fs !! input_path = None \/
  (exists e, ffprobe_run E (ffprobe_command p input_path) fs = ProbeRaises e) \/
  (exists rc out, ffprobe_run E (ffprobe_command p input_path) fs = ProbeCompleted rc out /\
                  rc <> 0%Z) \/
  ffprobe_run E (ffprobe_command p input_path) fs = ProbeCompleted 0 StdoutUnparseable \/
  ffprobe_run E (ffprobe_command p input_path) fs = ProbeCompleted 0 (StdoutReport None) \/
  ffprobe_run E (ffprobe_command p input_path) fs = ProbeCompleted 0 (StdoutReport (Some [])).

(** A processor as [__init__] leaves it; construction does not fail for the
    arguments used below. *)
Definition constructed (r : Res MediaProcessor) : MediaProcessor :=
  match r with
  | Ok p => p
  | Raise _ => Build_MediaProcessor config_py "" None None false None None "" "" "" [] false false
  end.

(** VAAPI requested on Linux, H.264 asked for explicitly. *)
Definition vaapi_processor : MediaProcessor :=
  constructed (MediaProcessor_init config_py "out/videos" (Some "/usr/bin/ffmpeg")
                 (Some "/usr/bin/ffprobe") None true (Some "h264") true true).

(** CPU only, no codec asked for. *)
Definition cpu_processor : MediaProcessor :=
  constructed (MediaProcessor_init config_py "out/videos" (Some "/usr/bin/ffmpeg")
                 (Some "/usr/bin/ffprobe") None false None true true).

(** No encoder installed. *)
Definition bare_processor : MediaProcessor :=
  constructed (MediaProcessor_init config_py "out/videos" None
                 (Some "/usr/bin/ffprobe") None false (Some "h264") true true).

(** CPU only, VP9 asked for; the second one scales to 50 percent. *)
Definition vp9_processor : MediaProcessor :=
  constructed (MediaProcessor_init config_py "out/videos" (Some "/usr/bin/ffmpeg")
                 (Some "/usr/bin/ffprobe") None false (Some "vp9") true true).

Definition vp9_half_size_processor : MediaProcessor :=
  constructed (MediaProcessor_init config_py "out/videos" (Some "/usr/bin/ffmpeg")
                 (Some "/usr/bin/ffprobe") (Some 50%Z) false (Some "vp9") true true).

Definition vp8_report : probe_stdout :=
  StdoutReport (Some [ {| st_width := Some 640%Z; st_height := Some 480%Z;
                          st_codec_name := Some "vp8" |} ]).

Definition h264_report : probe_stdout :=
  StdoutReport (Some [ {| st_width := Some 640%Z; st_height := Some 480%Z;
                          st_codec_name := Some "h264" |} ]).

(** A WebM/VP8 clip and an encoder that always works. *)
Definition webm_env : Env := {|
  ffmpeg_run := fun _ _ => Completed 0 (OutWrite [Byte.x2a]);
  ffprobe_run := fun _ _ => ProbeCompleted 0 vp8_report;
  magic_from_file := fun _ _ => Ok "video/webm";
  tmp_names := fun _ => ["k3x9"];
|}.

(** The same clip with an encoder that always exits with status 1. *)
Definition failing_env : Env := {|
  ffmpeg_run := fun _ _ => Completed 1 OutKeep;
  ffprobe_run := fun _ _ => ProbeCompleted 0 vp8_report;
  magic_from_file := fun _ _ => Ok "video/webm";
  tmp_names := fun _ => ["k3x9"];
|}.

(** A QuickTime/H.264 clip. *)
Definition quicktime_env : Env := {|
  ffmpeg_run := fun _ _ => Completed 0 (OutWrite [Byte.x2a]);
  ffprobe_run := fun _ _ => ProbeCompleted 0 h264_report;
  magic_from_file := fun _ _ => Ok "video/quicktime";
  tmp_names := fun _ => ["k3x9"];
|}.

(** An MP4/H.264 clip. *)
Definition mp4_env : Env := {|
  ffmpeg_run := fun _ _ => Completed 0 (OutWrite [Byte.x2a]);
  ffprobe_run := fun _ _ => ProbeCompleted 0 h264_report;
  magic_from_file := fun _ _ => Ok "video/mp4";
  tmp_names := fun _ => ["k3x9"];
|}.

(** An embedded PNG image. *)
Definition png_env : Env := {|
  ffmpeg_run := fun _ _ => Completed 0 (OutWrite [Byte.x2a]);
  ffprobe_run := fun _ _ => ProbeCompleted 1 StdoutUnparseable;
  magic_from_file := fun _ _ => Ok "image/png";
  tmp_names := fun _ => ["k3x9"];
|}.

Definition clip_bytes : bytes := [Byte.x00; Byte.x01; Byte.x02].

Definition clip_stream : StreamRef :=
  {| read_bytes := Ok clip_bytes; objgen := Some (12%Z, 0%Z) |}.

Definition clip_base : string := safe_base_of 0 0 clip_stream.

Definition empty_dir : World := mkWorld ∅ [] 0.

(** The WebM clip as the final stage receives it. *)
Definition webm_input : encode_input :=
  {| scaled_intermediate_path := None;
     path_for_final_encode := clip_base +:+ ".webm";
     codec_for_final_encode := Some "vp8";
     ext_for_final_encode := ".webm";
     mime_for_final_encode := "video/webm" |}.

(** The MP4 clip as the final stage receives it. *)
Definition mp4_input : encode_input :=
  {| scaled_intermediate_path := None;
     path_for_final_encode := clip_base +:+ ".mp4";
     codec_for_final_encode := Some "h264";
     ext_for_final_encode := ".mp4";
     mime_for_final_encode := "video/mp4" |}.

Definition webm_dir : World := mkWorld {[ clip_base +:+ ".webm" := clip_bytes ]} [] 0.
Definition mp4_dir : World := mkWorld {[ clip_base +:+ ".mp4" := clip_bytes ]} [] 0.

(** The encoder command lines of a run, in order. *)
Definition encoder_commands (l : list event) : list (list string) :=
  omap (fun ev => match ev with EvEncoder cmd => Some cmd | _ => None end) l.

(** The codec [_determine_target_format] settles on for config.py. *)
Definition effective_codec (codec_choice : option string) : string :=
  match codec_choice with
  | Some c => if str_in c (ALLOWED_VIDEO_CODECS config_py) then c else "h264"
  | None => "h264"
  end.

(** A content type that says something. *)
Definition informative (mime : string) : Prop := mime <> "" /\ mime <> octet_stream.

(** What python-magic says about the file, when it can be asked. *)
Definition magic_says (E : Env) (p : MediaProcessor) (path : string)
    (fs : gmap string bytes) (mime : string) : Prop :=
  magic_available p = true /\ magic_from_file E path fs = Ok mime /\ informative mime.

Definition is_final_attempt (ev : event) : bool :=
  match ev with EvFinalEncode _ _ _ _ _ => true | _ => false end.

Definition is_intermediate_encode (ev : event) : bool :=
  match ev with EvIntermediate _ _ _ => true | _ => false end.

(** The final encode attempts and the intermediate encodes among the events
    of a run. *)
Definition final_attempts (l : list event) : list event :=
  List.filter is_final_attempt l.

Definition intermediate_encodes (l : list event) : list event :=
  List.filter is_intermediate_encode l.

(** How the command of a final encode attempt with VAAPI decode begins, for
    config.py, which names no VAAPI device. *)
Definition vaapi_decode_prefix (p : MediaProcessor) (input_path : string) : list string :=
  [default "" (ffmpeg_path p); "-y";
   "-init_hw_device"; "vaapi=va"; "-filter_hw_device"; "va";
   "-hwaccel"; "vaapi"; "-hwaccel_device"; "va"; "-hwaccel_output_format"; "vaapi";
   "-i"; in_media_dir p input_path].

(** The names a run on the safe base [sb] may write or delete, temporary
    files apart; [cur] is the name after the identification step. *)
Definition own_names (p : MediaProcessor) (sb cur : string) : list string :=
  [initial_name sb; cur; scaled_name sb; inter_name sb; final_name p sb].

(** The characters of a decimal numeral. *)
Definition dec_char (c : ascii) : bool := isdigit c || Ascii.eqb c "-".

(** The entries one page contributes: its placeholder, or at least one
    processed media item of that page. *)
Definition page_block {D} (k : Z) (blk : list (page_entry D)) : Prop :=
  (exists d, blk = [PlaceholderEntry k d]) \/
  (blk <> [] /\
   Forall (fun e => exists item d, e = VideoEntry item d /\ pageIndex item = k) blk).

(** The entries of [n] consecutive pages from page [k] on. *)
Inductive page_blocks {D} : Z -> nat -> list (page_entry D) -> Prop :=
  | blocks_nil k : page_blocks k 0 []
  | blocks_cons k n blk rest :
      page_block k blk -> page_blocks (k + 1) n rest ->
      page_blocks k (S n) (blk ++ rest).

Definition page_le {D} (a b : page_entry D) : Prop := (entry_page a <= entry_page b)%Z.

(** A document of two pages: a clip embedded on the first, nothing on the
    second. *)
Definition two_pages : list (page_input (Z * Z)) :=
  [ {| dims_found := Some (960, 540)%Z;
       media_annotations := [ {| ann_stream_ref := Some clip_stream;
                                 ann_rect := Some [10; 10; 200; 120]%Z;
                                 ann_content_type := Some "video/webm" |} ] |};
    {| dims_found := None; media_annotations := [] |} ].

(** * Properties *)

Lemma bind_ok {A B} (m : M A) (f : A -> M B) w a w' :
  m w = (Ok a, w') -> bind m f w = f a w'.
Proof. intros H. unfold bind. by rewrite H. Qed.

Lemma bind_raise {A B} (m : M A) (f : A -> M B) w e w' :
  m w = (Raise e, w') -> bind m f w = (Raise e, w').
Proof. intros H. unfold bind. by rewrite H. Qed.

Lemma try_except_ok {A} (m : M A) c h w a w' :
  m w = (Ok a, w') -> try_except m c h w = (Ok a, w').
Proof. intros H. unfold try_except. by rewrite H. Qed.

Lemma try_except_caught {A} (m : M A) c h w e w' :
  m w = (Raise e, w') -> c e = true -> try_except m c h w = h w'.
Proof. intros H Hc. unfold try_except. by rewrite H, Hc. Qed.

Lemma remove_if_exists_run p w :
  remove_if_exists p w = (Ok tt, set_fs (delete p) w).
Proof.
  unfold remove_if_exists, bind, os_path_exists, when, try_remove, try_except, os_remove, set_fs, ret.
  case_bool_decide as Hex.
  - destruct Hex as [c Hc]. by rewrite Hc.
  - apply eq_None_not_Some in Hex. rewrite delete_id by done. by destruct w.
Qed.

Lemma produced_output_run rc p w :
  produced_output rc p w = (Ok (output_good rc (w_fs w) p), w).
Proof.
  unfold produced_output, output_good, bind, os_path_exists, os_path_getsize, ret.
  destruct (rc =? 0)%Z; [|done]. cbv beta.
  destruct (w_fs w !! p) as [c|] eqn:Hc.
  - rewrite bool_decide_true by eauto. simpl. by rewrite Hc.
  - rewrite bool_decide_false; [done|]. by intros [? ?].
Qed.

Lemma output_good_some rc fs p :
  output_good rc fs p = true -> rc = 0%Z /\ exists c, fs !! p = Some c /\ c <> [].
Proof.
  unfold output_good. intros [H1 H2]%andb_prop. split; [by apply Z.eqb_eq|].
  destruct (fs !! p) as [c|]; [|done]. exists c. split; [done|].
  by intros ->.
Qed.

Lemma first_fresh_spec fs pre suf cands n :
  first_fresh fs pre suf cands = Some n ->
  fs !! n = None /\ exists r, n = pre +:+ r +:+ suf.
Proof.
  induction cands as [|r cs IH]; simpl; [done|].
  case_bool_decide as Hex; [done|].
  intros [= <-]. split; [by apply eq_None_not_Some|by exists r].
Qed.

(** The effect of an encoder run on the directory touches the output only. *)
Lemma apply_effect_other out eff fs q :
  q <> out -> apply_effect out eff fs !! q = fs !! q.
Proof.
  intros Hne. destruct eff; simpl; [done| |].
  - by rewrite lookup_insert_ne.
  - by rewrite lookup_delete_ne.
Qed.

Lemma delete_apply_effect out eff fs :
  delete out (apply_effect out eff fs) = delete out fs.
Proof.
  destruct eff; simpl; [done| |].
  - by rewrite delete_insert_eq.
  - by rewrite delete_delete_eq.
Qed.

Lemma insert_apply_effect out eff fs c :
  <[out := c]> (apply_effect out eff fs) = <[out := c]> fs.
Proof.
  destruct eff; simpl; [done| |].
  - by rewrite insert_insert_eq.
  - by rewrite insert_delete_eq.
Qed.

Lemma encode_to_spec E cmd out w :
  exists r w', encode_to E cmd out w = (Ok r, w') /\ encode_to_post cmd out w r w'.
Proof.
  unfold encode_to, try_except, bind, run_encoder.
  destruct (ffmpeg_run E cmd (w_fs w)) as [rc eff|e] eqn:Hrun.
  - rewrite produced_output_run. simpl.
    destruct (output_good rc _ out) eqn:Hgood; simpl.
    + eexists true, _. split; [done|]. split; [done|]. split; [done|].
      apply output_good_some in Hgood as (_ & c & Hc & Hne).
      exists c. split; [done|]. simpl.
      rewrite <-(insert_apply_effect out eff (w_fs w) c). symmetry. by apply insert_id.
    + rewrite remove_if_exists_run. simpl.
      eexists false, _. split; [done|]. split; [done|]. split; [done|].
      simpl. apply delete_apply_effect.
  - simpl. rewrite remove_if_exists_run.
    eexists false, _. split; [done|]. by split.
Qed.

Lemma final_encode_command_ok p input F tc sc d e t :
  encoder_profile p tc e = true ->
  exists cmd, final_encode_command p input F tc sc d e t = Ok cmd.
Proof.
  unfold encoder_profile, has_options, final_encode_command, final_video_args.
  intros H. destruct e.
  - destruct (dict_get _ tc) as [opts|]; [|done]. rewrite H. eauto.
  - destruct (dict_get _ tc) as [opts|]; [|done]. rewrite H. eauto.
Qed.

Lemma named_temporary_file_run E pre suf w :
  named_temporary_file E pre suf w =
    match first_fresh (w_fs w) pre suf (tmp_names E (w_ntmp w)) with
    | Some n => (Ok n, mkWorld (<[n := []]> (w_fs w)) (w_log w ++ [EvTemp n]) (S (w_ntmp w)))
    | None => (Raise FileExistsError, mkWorld (w_fs w) (w_log w) (S (w_ntmp w)))
    end.
Proof. done. Qed.

Lemma delete_insert_fresh (fs : gmap string (list Byte.byte)) t c :
  fs !! t = None -> delete t (<[t := c]> fs) = fs.
Proof. intros H. rewrite delete_insert_eq. by apply delete_id. Qed.

Lemma bind_run {A B} (m : M A) (f : A -> M B) w :
  bind m f w = match m w with
               | (Ok a, w') => f a w'
               | (Raise e, w') => (Raise e, w')
               end.
Proof. done. Qed.

Lemma try_except_run {A} (m : M A) c h w :
  try_except m c h w = match m w with
                       | (Raise e, w') => if c e then h w' else (Raise e, w')
                       | r => r
                       end.
Proof. done. Qed.

Lemma ret_run {A} (a : A) w : ret a w = (Ok a, w).
Proof. done. Qed.

Lemma run_encoder_run E cmd out w :
  run_encoder E cmd out w =
    match ffmpeg_run E cmd (w_fs w) with
    | Completed rc eff => (Ok rc, set_fs (apply_effect out eff) (add_log (EvEncoder cmd) w))
    | RunRaises e => (Raise e, add_log (EvEncoder cmd) w)
    end.
Proof. done. Qed.

Lemma shutil_move_run src dst w c :
  w_fs w !! src = Some c ->
  shutil_move src dst w = (Ok tt, set_fs (fun fs => <[dst := c]> (delete src fs)) w).
Proof. intros H. unfold shutil_move. by rewrite H. Qed.

Tactic Notation "mrun" uconstr(L) := rewrite bind_run, L; cbv beta iota.

(* The body of the try block shared by the final encode and the pre-resize: run, check, move. *)
Lemma encode_and_move_spec E cmd t dst w0 c0 :
  let w := mkWorld (<[t := c0]> (w_fs w0)) (w_log w0 ++ [EvTemp t]) (S (w_ntmp w0)) in
  w_fs w0 !! t = None ->
  exists r w',
    (ok <- try_except
            (rc <- run_encoder E cmd t ;;
             good <- produced_output rc t ;;
             if good then shutil_move t dst ;;; ret true else ret false)
            catch_all (ret false) ;;
     when (negb ok) (remove_if_exists t) ;;;
     ret ok) w = (Ok r, w') /\
    w_log w' = w_log w0 ++ [EvTemp t; EvEncoder cmd] /\
    (if r then exists c, c <> [] /\ w_fs w' = <[dst := c]> (w_fs w0)
     else w_fs w' = w_fs w0).
Proof.
  intros w Hfresh.
  rewrite bind_run, try_except_run, bind_run, run_encoder_run.
  destruct (ffmpeg_run E cmd (w_fs w)) as [rc eff|ex] eqn:Hrun; cbv beta iota.
  - mrun produced_output_run.
    destruct (output_good rc _ t) eqn:Hgood.
    + apply output_good_some in Hgood as (_ & c & Hc & Hne).
      mrun (shutil_move_run t dst _ c Hc). rewrite ret_run. cbv beta iota.
      unfold when, negb. mrun ret_run. rewrite ret_run.
      eexists true, _. split; [done|]. cbn. split.
      { by rewrite <-app_assoc. }
      exists c. split; [done|].
      rewrite delete_apply_effect. by rewrite delete_insert_fresh.
    + rewrite ret_run. cbv beta iota. unfold when, negb.
      mrun remove_if_exists_run. rewrite ret_run.
      eexists false, _. split; [done|]. cbn. split.
      { by rewrite <-app_assoc. }
      rewrite delete_apply_effect. by rewrite delete_insert_fresh.
  - unfold catch_all. rewrite ret_run. cbv beta iota. unfold when, negb.
    mrun remove_if_exists_run. rewrite ret_run.
    eexists false, _. split; [done|]. cbn. split.
    { by rewrite <-app_assoc. }
    by rewrite delete_insert_fresh.
Qed.

Lemma final_step_spec E p input F tc sc d e w :
  encoder_profile p tc e = true ->
  exists r w', _perform_final_encode_step E p input F tc sc d e w = (Ok r, w') /\
    final_step_post p input F tc sc d e w r w'.
Proof.
  intros Hprof. unfold _perform_final_encode_step.
  destruct (opt_str_truthy (ffmpeg_path p)); cbn [negb].
  2:{ eexists false, _. split; [done|]. split; [|done].
      exists []. cbn. split; [done|]. by left. }
  rewrite (surjective_pairing (os_path_splitext F)).
  fold (final_temp_prefix F e).
  unfold bind at 1. unfold bind at 1. unfold try_except at 1. unfold bind at 1.
  rewrite named_temporary_file_run.
  destruct (first_fresh _ _ _ _) as [t|] eqn:Hfresh.
  2:{ cbn. eexists false, _. split; [done|]. split; [|done].
      exists []. cbn. split; [done|]. by left. }
  apply first_fresh_spec in Hfresh as [Hnone Hname].
  cbn [ret].
  destruct (final_encode_command_ok p input F tc sc d e t Hprof) as [cmd Hcmd].
  rewrite Hcmd.
  destruct (encode_and_move_spec E cmd t F w []  Hnone) as (r & w' & Hrun & Hlog & Hfs).
  rewrite Hrun. cbn.
  eexists r, _. split; [done|]. split.
  - exists [EvTemp t; EvEncoder cmd]. cbn. split.
    { rewrite Hlog. by rewrite <-app_assoc. }
    right. eauto 10.
  - cbn. done.
Qed.

Lemma os_path_exists_run p w :
  os_path_exists p w = (Ok (bool_decide (is_Some (w_fs w !! p))), w).
Proof. done. Qed.

Lemma try_remove_run p w : try_remove p w = (Ok tt, set_fs (delete p) w).
Proof.
  unfold try_remove, try_except, os_remove.
  destruct (w_fs w !! p) as [c|] eqn:Hc; [done|].
  cbn. unfold ret, set_fs. rewrite delete_id by done. by destruct w.
Qed.

(** [if cond and os.path.exists(p): try: os.remove(p) except OSError: pass] *)
Lemma guarded_remove_run (cond : bool) p w :
  when (cond && bool_decide (is_Some (w_fs w !! p))) (try_remove p) w
  = (Ok tt, if cond then set_fs (delete p) w else w).
Proof.
  destruct cond; cbn [andb]; [|done].
  case_bool_decide as Hex; unfold when; [apply try_remove_run|].
  apply eq_None_not_Some in Hex. rewrite ret_run. unfold set_fs.
  rewrite delete_id by done. by destruct w.
Qed.

Lemma emit_run e w : emit e w = (Ok tt, add_log e w).
Proof. done. Qed.

Lemma rename_to_run src dst w :
  rename_to src dst w =
    if String.eqb src dst then (Ok src, w)
    else match w_fs w !! src with
         | Some c => (Ok dst, set_fs (fun fs => <[dst := c]> (delete src fs)) w)
         | None => (Ok src, set_fs (delete dst) w)
         end.
Proof.
  unfold rename_to. destruct (String.eqb_spec src dst) as [->|Hne]; [done|].
  rewrite try_except_run. mrun os_path_exists_run.
  assert (Hstep : (when (bool_decide (is_Some (w_fs w !! dst))) (os_remove dst)) w
                  = (Ok tt, set_fs (delete dst) w)).
  { unfold when. case_bool_decide as Hex.
    - destruct Hex as [c Hc]. unfold os_remove. by rewrite Hc.
    - apply eq_None_not_Some in Hex. rewrite ret_run. unfold set_fs.
      rewrite delete_id by done. by destruct w. }
  mrun Hstep.
  rewrite bind_run. unfold shutil_move. cbn [w_fs set_fs].
  rewrite lookup_delete_ne by done.
  destruct (w_fs w !! src) as [c|] eqn:Hsrc; cbv beta iota.
  - rewrite ret_run. unfold set_fs. cbn. do 2 f_equal.
    apply map_eq. intros q.
    destruct (decide (q = dst)) as [->|Hq].
    { by rewrite !lookup_insert_eq. }
    rewrite !lookup_insert_ne by done.
    destruct (decide (q = src)) as [->|Hq'].
    { by rewrite !lookup_delete_eq. }
    rewrite !lookup_delete_ne by done. done.
  - done.
Qed.

Lemma detect_mime_spec E p path ct w :
  exists m, detect_mime E p path ct w = (Ok m, w).
Proof.
  unfold detect_mime. destruct (magic_available p); [|by eexists].
  rewrite try_except_run, bind_run.
  destruct (magic_from_file E path (w_fs w)) as [m|e]; cbv beta iota.
  - destruct (_ && _); by eexists.
  - unfold catch_all. by eexists.
Qed.

Lemma run_prober_run E cmd w :
  run_prober E cmd w =
    match ffprobe_run E cmd (w_fs w) with
    | ProbeCompleted rc out =>
        if (rc =? 0)%Z then (Ok out, add_log (EvProbe cmd) w)
        else (Raise CalledProcessError, add_log (EvProbe cmd) w)
    | ProbeRaises e => (Raise e, add_log (EvProbe cmd) w)
    end.
Proof. done. Qed.

Lemma get_video_info_spec E p path w :
  exists r l, _get_video_info E p path w
              = (Ok r, mkWorld (w_fs w) (w_log w ++ l) (w_ntmp w)) /\
              probe_log p path l.
Proof.
  unfold _get_video_info, probe_log.
  destruct (opt_str_truthy (ffprobe_path p)); cbn [negb].
  2:{ exists None, []. rewrite app_nil_r. rewrite ret_run. by destruct w; auto. }
  mrun os_path_exists_run.
  destruct (bool_decide _); cbn [negb].
  2:{ exists None, []. rewrite app_nil_r. rewrite ret_run. by destruct w; auto. }
  rewrite try_except_run, try_except_run, bind_run, run_prober_run.
  destruct (ffprobe_run E _ (w_fs w)) as [rc out|e]; cbv beta iota.
  - destruct (rc =? 0)%Z; cbv beta iota.
    + destruct out as [|streams]; unfold json_loads.
      * rewrite bind_run. unfold raise. cbv beta iota. rewrite ret_run.
        exists None, [EvProbe (ffprobe_command p path)]. auto.
      * mrun ret_run.
        destruct streams as [[|st l]|]; try (rewrite ret_run; eexists None, [_]; by auto).
        destruct (st_width st), (st_height st), (st_codec_name st);
          try (rewrite ret_run; eexists None, [_]; by auto).
        destruct (_ && _); rewrite ret_run; eexists _, [_]; by auto.
    + rewrite ret_run. exists None, [EvProbe (ffprobe_command p path)]. auto.
  - destruct e; unfold catch_all; rewrite ret_run;
      exists None, [EvProbe (ffprobe_command p path)]; auto.
Qed.

Lemma pre_resize_spec E p input info w :
  exists r w', _perform_pre_resize E p input info w = (Ok (r, input), w') /\
    pre_resize_post p input w r w'.
Proof.
  unfold _perform_pre_resize, pre_resize_post.
  destruct info as [vi|].
  2:{ exists false, w. split; [done|]. split; [|done]. exists []. rewrite app_nil_r. auto. }
  destruct (opt_str_truthy (ffmpeg_path p)); cbn [negb].
  2:{ exists false, w. split; [done|]. split; [|done]. exists []. rewrite app_nil_r. auto. }
  destruct (_ || _).
  { exists false, w. split; [done|]. split; [|done]. exists []. rewrite app_nil_r. auto. }
  fold (pre_resize_temp_prefix input).
  rewrite bind_run, try_except_run, bind_run, named_temporary_file_run.
  destruct (first_fresh _ _ _ _) as [t|] eqn:Hfresh; cbv beta iota.
  - apply first_fresh_spec in Hfresh as [Hnone Hname].
    rewrite ret_run. cbv beta iota. rewrite bind_run.
    destruct (encode_and_move_spec E (pre_resize_command p input t) t input w [] Hnone)
      as (r & w' & Hrun & Hlog & Hfs).
    cbv zeta in Hrun. rewrite Hrun. cbv beta iota.
    mrun emit_run. rewrite ret_run.
    eexists r, _. split; [done|]. cbn. split; [|done].
    eexists. split; [by rewrite Hlog, <-app_assoc|]. right. split; [done|]. right. eauto.
  - unfold catch_all. rewrite ret_run. cbv beta iota.
    mrun ret_run. mrun emit_run. rewrite ret_run.
    eexists false, _. split; [done|]. cbn. split; [|done].
    eexists. split; [done|]. auto.
Qed.

Lemma intermediate_spec E p input out w :
  exists r w', _perform_intermediate_h264_encode E p input out w = (Ok r, w') /\
    aux_encode_post (opt_str_truthy (ffmpeg_path p))
      (intermediate_h264_command p input out)
      (EvIntermediate input out) out w r w'.
Proof.
  unfold _perform_intermediate_h264_encode, aux_encode_post.
  rewrite bind_run.
  destruct (opt_str_truthy (ffmpeg_path p)); cbn [negb].
  - destruct (encode_to_spec E (intermediate_h264_command p input out) out w)
      as (r & w' & Hrun & Hlog & _ & Hfs).
    rewrite Hrun. cbv beta iota. mrun emit_run. rewrite ret_run.
    eexists r, _. split; [done|]. exists [EvEncoder (intermediate_h264_command p input out)].
    cbn. split; [by rewrite Hlog, <-app_assoc|]. done.
  - rewrite ret_run. cbv beta iota. mrun emit_run. rewrite ret_run.
    eexists false, _. split; [done|]. exists []. cbn. auto.
Qed.

Lemma scaling_step_spec E p input out w :
  exists r w' cmd, _perform_scaling_step E p input out w = (Ok r, w') /\
    aux_encode_post (scaling_active p) cmd (EvScaling input out) out w r w'.
Proof.
  unfold _perform_scaling_step, aux_encode_post, scaling_active.
  rewrite bind_run.
  destruct (scaling_factor p) as [factor|].
  2:{ rewrite ret_run. cbv beta iota. mrun emit_run. rewrite ret_run.
      eexists false, _, []. split; [done|]. exists []. cbn. auto. }
  destruct (opt_str_truthy (ffmpeg_path p)); cbn [negb].
  - destruct (encode_to_spec E (scaling_command p factor input out) out w)
      as (r & w' & Hrun & Hlog & _ & Hfs).
    rewrite Hrun. cbv beta iota. mrun emit_run. rewrite ret_run.
    eexists r, _, _. split; [done|]. exists [EvEncoder (scaling_command p factor input out)].
    cbn. split; [by rewrite Hlog, <-app_assoc|]. done.
  - rewrite ret_run. cbv beta iota. mrun emit_run. rewrite ret_run.
    eexists false, _, []. split; [done|]. exists []. cbn. auto.
Qed.

Lemma app_cons c s t : String c s +:+ t = String c (s +:+ t).
Proof. done. Qed.

Lemma app_nil_l_str t : "" +:+ t = t.
Proof. done. Qed.

Lemma str_app_assoc a b c : (a +:+ b) +:+ c = a +:+ b +:+ c.
Proof. induction a as [|x a IH]; [done|]. rewrite !app_cons. by rewrite IH. Qed.

Lemma prefix_app a b c : String.prefix (a +:+ b) (a +:+ c) = String.prefix b c.
Proof.
  induction a as [|x a IH]; [done|]. rewrite !app_cons. simpl.
  destruct (ascii_dec x x); [done|congruence].
Qed.

Lemma prefix_app_r b c : String.prefix b (b +:+ c) = true.
Proof.
  induction b as [|x b IH]; [by destruct c|]. rewrite app_cons. simpl.
  destruct (ascii_dec x x); [done|congruence].
Qed.

Lemma str_forallb_app f a b :
  str_forallb f (a +:+ b) = str_forallb f a && str_forallb f b.
Proof.
  induction a as [|x a IH]; [done|]. rewrite app_cons. simpl. rewrite IH.
  by rewrite andb_assoc.
Qed.

Lemma str_forallb_map f g s :
  (forall c, f (g c) = true) -> str_forallb f (str_map g s) = true.
Proof. intros H. induction s as [|c s IH]; [done|]. simpl. by rewrite H, IH. Qed.

Lemma str_forallb_filter f s : str_forallb f (str_filter f s) = true.
Proof.
  induction s as [|c s IH]; [done|]. simpl.
  destruct (f c) eqn:Hc; [|done]. simpl. by rewrite Hc, IH.
Qed.

Lemma str_forallb_impl (f g : ascii -> bool) s :
  (forall c, f c = true -> g c = true) ->
  str_forallb f s = true -> str_forallb g s = true.
Proof.
  intros H. induction s as [|c s IH]; [done|]. simpl.
  intros [Hc Hs]%andb_prop. rewrite (H _ Hc). by apply IH.
Qed.

Lemma safe_char_safe c : safe_name_char (safe_char c) = true.
Proof.
  unfold safe_char. fold (safe_name_char c).
  destruct (safe_name_char c) eqn:H; [done|]. done.
Qed.

Lemma safe_name_char_no_dot c : safe_name_char c = true -> negb (is_dot c) = true.
Proof.
  unfold is_dot. destruct (Ascii.eqb_spec c ".") as [->|]; [|done].
  by vm_compute.
Qed.

Lemma ext_char_no_dot c : ext_char c = true -> negb (is_dot c) = true.
Proof.
  unfold is_dot. destruct (Ascii.eqb_spec c ".") as [->|]; [|done].
  by vm_compute.
Qed.

Lemma rsplit_dot_none s : no_dot s = true -> rsplit_dot s = None.
Proof.
  induction s as [|c s IH]; [done|]. unfold no_dot. simpl.
  intros [Hc Hs]%andb_prop. rewrite (IH Hs).
  unfold is_dot in Hc. by destruct (Ascii.eqb c ".").
Qed.

Lemma rsplit_dot_app a s :
  no_dot s = true -> rsplit_dot (a +:+ "." +:+ s) = Some (a, "." +:+ s).
Proof.
  intros Hs. induction a as [|c a IH].
  - rewrite app_nil_l_str, app_cons, app_nil_l_str. simpl.
    by rewrite (rsplit_dot_none _ Hs).
  - rewrite app_cons. simpl. by rewrite IH.
Qed.

(** [os.path.splitext] of a name whose last dot follows a part that is not
    made of dots only. *)
Lemma splitext_app a s :
  no_dot s = true -> str_forallb is_dot a = false ->
  os_path_splitext (a +:+ "." +:+ s) = (a, "." +:+ s).
Proof.
  intros Hs Ha. unfold os_path_splitext. rewrite (rsplit_dot_app _ _ Hs).
  fold is_dot. by rewrite Ha.
Qed.

Lemma safe_base_of_shape pn ai sr :
  exists rest, safe_base_of pn ai sr = String "s" rest /\
    str_forallb safe_name_char (safe_base_of pn ai sr) = true.
Proof.
  unfold safe_base_of. split_and?.
  eexists. split.
  - rewrite !app_cons. simpl. done.
  - apply str_forallb_map, safe_char_safe.
Qed.

Lemma temp_like_neq sb t q : temp_like sb t = true -> temp_like sb q = false -> t <> q.
Proof. intros H1 H2 ->. congruence. Qed.

Lemma temp_like_inter sb : temp_like sb (inter_name sb) = false.
Proof. unfold temp_like, inter_name. by rewrite !prefix_app. Qed.

Lemma casc_rel_refl p sb F P w : casc_rel p sb F P w w [].
Proof.
  exists []. rewrite app_nil_r. split_and!; try done.
  intros t Ht. by apply elem_of_nil in Ht.
Qed.

Lemma casc_rel_trans p sb F P w w' w'' tr tr' :
  temp_like sb F = false ->
  casc_rel p sb F P w w' tr -> casc_rel p sb F P w' w'' tr' ->
  casc_rel p sb F P w w'' (tr ++ tr').
Proof.
  intros HF (l & Hl & Htr & Hok & Htmp & Hfr) (l' & Hl' & Htr' & Hok' & Htmp' & Hfr').
  exists (l ++ l'). split_and!.
  - by rewrite Hl', Hl, <-app_assoc.
  - unfold attempts in *. by rewrite List.filter_app, Htr, Htr'.
  - by apply Forall_app.
  - intros t [Ht|Ht]%elem_of_app; [|by apply Htmp'].
    assert (Htl : temp_like sb t = true).
    { rewrite Forall_forall in Hok. by apply (Hok (EvTemp t)). }
    rewrite Hfr'; [by apply Htmp| |].
    + by apply (temp_like_neq sb).
    + apply (temp_like_neq sb); [done|apply temp_like_inter].
  - intros q H1 H2. by rewrite Hfr', Hfr.
Qed.

Lemma final_temp_like sb F e rnd :
  (os_path_splitext F).1 = sb ->
  temp_like sb (final_temp_prefix F e +:+ rnd +:+ (os_path_splitext F).2) = true.
Proof.
  intros <-. unfold temp_like, final_temp_prefix.
  rewrite !str_app_assoc.
  replace ("_final_" +:+ (if e then "vaapi" else "cpu") +:+ "_" +:+ rnd +:+ (os_path_splitext F).2)
    with ("_" +:+ ("final_" +:+ (if e then "vaapi" else "cpu") +:+ "_" +:+ rnd +:+ (os_path_splitext F).2)) by done.
  rewrite <-str_app_assoc. by rewrite prefix_app_r.
Qed.

(** A final encode attempt inside the cascade. *)
Lemma final_step_in_cascade E p sb F P input sc d e w :
  encoder_profile p (target_codec p) e = true ->
  (os_path_splitext F).1 = sb ->
  temp_like sb F = false ->
  exists r w',
    _perform_final_encode_step E p input F (target_codec p) sc d e w = (Ok r, w') /\
    casc_rel p sb F P w w' [EvFinalEncode input sc d e r] /\
    (if r then exists c, c <> [] /\ w_fs w' = <[F := c]> (w_fs w)
     else w_fs w' = w_fs w).
Proof.
  intros Hprof Hsb HF.
  destruct (final_step_spec E p input F (target_codec p) sc d e w Hprof)
    as (r & w' & Hrun & (pre & Hlog & Hpre) & Hfs).
  exists r, w'. split; [done|]. split; [|done].
  exists (pre ++ [EvFinalEncode input sc d e r]). split; [done|].
  assert (Hframe : forall q, q <> F -> w_fs w' !! q = w_fs w !! q).
  { intros q Hq. destruct r.
    - destruct Hfs as (c & _ & ->). by rewrite lookup_insert_ne.
    - by rewrite Hfs. }
  destruct Hpre as [[-> ->]|(t & cmd & -> & Hnone & [rnd Hname] & Hcmd)].
  - split_and!; try done.
    + cbn. apply Forall_cons; split; [exact I|constructor].
    + intros t Ht. apply list_elem_of_singleton in Ht. done.
    + intros q Hq _. by apply Hframe.
  - assert (Htl : temp_like sb t = true) by (rewrite Hname; by apply final_temp_like).
    split_and!; try done.
    + cbn. apply Forall_cons; split; [exact Htl|].
      apply Forall_cons; split; [right; eauto 10|].
      apply Forall_cons; split; [exact I|constructor].
    + intros t' Ht'. cbn in Ht'.
      apply elem_of_cons in Ht' as [[= ->]|Ht'].
      * rewrite Hframe; [done|]. by apply (temp_like_neq sb).
      * apply elem_of_cons in Ht' as [?|Ht']; [done|].
        apply list_elem_of_singleton in Ht'. done.
    + intros q Hq _. by apply Hframe.
Qed.

Lemma intermediate_in_cascade E p sb F P w :
  opt_str_truthy (ffmpeg_path p) = true ->
  exists r w',
    _perform_intermediate_h264_encode E p P (inter_name sb) w = (Ok r, w') /\
    casc_rel p sb F P w w' [EvIntermediate P (inter_name sb) r] /\
    (if r then exists c, c <> [] /\ w_fs w' = <[inter_name sb := c]> (w_fs w)
     else w_fs w' = delete (inter_name sb) (w_fs w)).
Proof.
  intros Hff.
  destruct (intermediate_spec E p P (inter_name sb) w)
    as (r & w' & Hrun & pre & Hlog & Hpre).
  exists r, w'. split; [done|].
  rewrite Hff in Hpre. destruct Hpre as [-> Hfs].
  split; [|done].
  exists ([EvEncoder (intermediate_h264_command p P (inter_name sb))]
          ++ [EvIntermediate P (inter_name sb) r]).
  split_and!; try done.
  - cbn. apply Forall_cons; split; [by left|].
    apply Forall_cons; split; [exact I|constructor].
  - intros t Ht. cbn in Ht. apply elem_of_cons in Ht as [?|Ht]; [done|].
    apply list_elem_of_singleton in Ht. done.
  - intros q _ Hq. destruct r.
    + destruct Hfs as (c & _ & ->). by rewrite lookup_insert_ne.
    + rewrite Hfs. by rewrite lookup_delete_ne.
Qed.

Lemma casc_rel_frame p sb F P w w' tr q :
  casc_rel p sb F P w w' tr -> q <> F -> q <> inter_name sb ->
  w_fs w' !! q = w_fs w !! q.
Proof. intros (l & _ & _ & _ & _ & H). apply H. Qed.

Section cascade.
Context (E : Env) (p : MediaProcessor) (sb F P : string) (codec : option string).
Hypothesis Hff : opt_str_truthy (ffmpeg_path p) = true.
Hypothesis Hprof : forall e, encoder_profile p (target_codec p) e = true.
Hypothesis Hsb : (os_path_splitext F).1 = sb.
Hypothesis HF : temp_like sb F = false.
Hypothesis HFi : F <> inter_name sb.
Hypothesis HPi : P <> inter_name sb.

(** The CPU fallback after the VAAPI phase left [(false, io)]. *)
Lemma cpu_fallback_spec (io : option string) (w : World) :
  let inter_exists :=
    match io with Some f => bool_decide (is_Some (w_fs w !! f)) | None => false end in
  let cpu_input_path :=
    match io with
    | Some f => if inter_exists then f else P
    | None => P
    end in
  let cpu_source_codec :=
    if bool_decide (Some cpu_input_path = io) then Some "h264" else codec in
  let cpu_dec :=
    if bool_decide (cpu_source_codec = Some "h264") then true
    else decode_vaapi_possible p codec in
  exists r w',
    (inter_exists <-
       match io with
       | Some f => os_path_exists f
       | None => ret false
       end ;;
     let cpu_input_path :=
       match io with
       | Some f => if inter_exists then f else P
       | None => P
       end in
     let cpu_source_codec :=
       if bool_decide (Some cpu_input_path = io) then Some "h264"
       else codec in
     let cpu_attempt_decode :=
       if bool_decide (cpu_source_codec = Some "h264") then true
       else decode_vaapi_possible p codec in
     success_cpu <-
       _perform_final_encode_step E p cpu_input_path F
         (target_codec p) cpu_source_codec cpu_attempt_decode false ;;
     ret (success_cpu, io)) w = (Ok (r, io), w') /\
    casc_rel p sb F P w w' [EvFinalEncode cpu_input_path cpu_source_codec cpu_dec false r] /\
    (if r then exists c, c <> [] /\ w_fs w' = <[F := c]> (w_fs w)
     else w_fs w' = w_fs w).
Proof.
  intros inter_exists cpu_input_path cpu_source_codec cpu_dec.
  assert (Hex : match io with
                | Some f => os_path_exists f
                | None => ret false
                end w = (Ok inter_exists, w)).
  { unfold inter_exists. by destruct io. }
  mrun Hex. cbv zeta. fold cpu_input_path. fold cpu_source_codec. fold cpu_dec.
  destruct (final_step_in_cascade E p sb F P cpu_input_path cpu_source_codec
              cpu_dec false w (Hprof false) Hsb HF) as (r & w' & Hrun & Hrel & Hfs).
  mrun Hrun. rewrite ret_run. eauto.
Qed.

Lemma cascade_spec w :
  exists r io w',
    final_transcode_cascade E p sb F P codec w = (Ok (r, io), w') /\
    cascade_post p sb F P codec w r io w'.
Proof.
  unfold final_transcode_cascade. fold (inter_name sb).
  rewrite bind_run.
  destruct (encode_vaapi_possible p) eqn:Henc.
  2:{ (* CPU only *)
    rewrite ret_run. cbv beta iota. cbn [negb].
    destruct (cpu_fallback_spec None w) as (r & w' & Hrun & Hrel & Hfs).
    cbv zeta in Hrun. rewrite Hrun. exists r, None, w'. split; [done|].
    eexists. split; [exact Hrel|]. split.
    { cbn. rewrite bool_decide_false by done.
      fold (cpu_attempt_decode p codec). by constructor. }
    split.
    - destruct r.
      + destruct Hfs as (c & Hc & ->). exists c. by rewrite lookup_insert_eq.
      + by rewrite Hfs.
    - intros _. destruct r.
      + destruct Hfs as (c & Hc & ->). by rewrite lookup_insert_ne.
      + by rewrite Hfs. }
  (* VAAPI encode possible: the direct attempt *)
  rewrite bind_run.
  assert (Hdirect : exists r1 w1,
    (if decode_vaapi_possible p codec
     then _perform_final_encode_step E p P F (target_codec p) codec true true
     else ret false) w = (Ok r1, w1) /\
    casc_rel p sb F P w w1
      (if r1 then [EvFinalEncode P codec true true true] else direct_prefix p P codec) /\
    (if r1 then decode_vaapi_possible p codec = true /\
                exists c, c <> [] /\ w_fs w1 = <[F := c]> (w_fs w)
     else w_fs w1 = w_fs w)).
  { unfold direct_prefix. destruct (decode_vaapi_possible p codec).
    - destruct (final_step_in_cascade E p sb F P P codec true true w (Hprof true) Hsb HF)
        as (r1 & w1 & Hrun & Hrel & Hfs).
      exists r1, w1. split; [done|]. destruct r1; auto.
    - exists false, w. split; [done|]. split; [apply casc_rel_refl|done]. }
  destruct Hdirect as (r1 & w1 & Hrun1 & Hrel1 & Hfs1).
  rewrite Hrun1. cbv beta iota.
  destruct r1; cbn [negb].
  { (* direct success *)
    rewrite ret_run. cbv beta iota. cbn [negb]. rewrite ret_run.
    destruct Hfs1 as (Hdec & c & Hc & Hfs1).
    exists true, None, w1. split; [done|].
    eexists. split; [exact Hrel1|]. split; [by constructor|]. split.
    - exists c. by rewrite Hfs1, lookup_insert_eq.
    - intros _. by rewrite Hfs1, lookup_insert_ne. }
  (* the intermediate *)
  destruct (intermediate_in_cascade E p sb F P w1 Hff) as (ri & w2 & Hrun2 & Hrel2 & Hfs2).
  mrun Hrun2.
  pose proof (casc_rel_trans _ _ _ _ _ _ _ _ _ HF Hrel1 Hrel2) as Hrel12.
  destruct ri.
  - (* VAAPI from the intermediate *)
    destruct Hfs2 as (ci & Hci & Hfs2).
    destruct (final_step_in_cascade E p sb F P (inter_name sb) (Some "h264") true true
                w2 (Hprof true) Hsb HF) as (r2 & w3 & Hrun3 & Hrel3 & Hfs3).
    mrun Hrun3. rewrite ret_run. cbv beta iota.
    pose proof (casc_rel_trans _ _ _ _ _ _ _ _ _ HF Hrel12 Hrel3) as Hrel123.
    rewrite <-app_assoc in Hrel123. cbn [app] in Hrel123.
    destruct r2; cbn [negb].
    + rewrite ret_run. destruct Hfs3 as (c & Hc & Hfs3).
      exists true, (Some (inter_name sb)), w3. split; [done|].
      eexists. split; [exact Hrel123|]. split; [by constructor|]. split; [|done].
      exists c. by rewrite Hfs3, lookup_insert_eq.
    + destruct (cpu_fallback_spec (Some (inter_name sb)) w3) as (r & w4 & Hrun4 & Hrel4 & Hfs4).
      cbv zeta in Hrun4. rewrite Hrun4.
      assert (Hex : bool_decide (is_Some (w_fs w3 !! inter_name sb)) = true).
      { apply bool_decide_eq_true. rewrite Hfs3, Hfs2, lookup_insert_eq. eauto. }
      rewrite Hex in Hrel4. rewrite bool_decide_true in Hrel4 by done.
      rewrite bool_decide_true in Hrel4 by done.
      pose proof (casc_rel_trans _ _ _ _ _ _ _ _ _ HF Hrel123 Hrel4) as Hrel.
      rewrite <-app_assoc in Hrel. cbn [app] in Hrel.
      exists r, (Some (inter_name sb)), w4. split; [done|].
      eexists. split; [exact Hrel|]. split; [by constructor|]. split; [|done].
      destruct r.
      * destruct Hfs4 as (c & Hc & ->). exists c. by rewrite lookup_insert_eq.
      * rewrite Hfs4, Hfs3, Hfs2, Hfs1. by rewrite lookup_insert_ne.
  - (* the intermediate failed: CPU fallback from the original input *)
    rewrite ret_run. cbv beta iota. cbn [negb].
    destruct (cpu_fallback_spec (Some (inter_name sb)) w2) as (r & w4 & Hrun4 & Hrel4 & Hfs4).
    cbv zeta in Hrun4. rewrite Hrun4.
    assert (Hex : bool_decide (is_Some (w_fs w2 !! inter_name sb)) = false).
    { apply bool_decide_eq_false. rewrite Hfs2, lookup_delete_eq. by intros [? ?]. }
    rewrite Hex in Hrel4.
    rewrite (bool_decide_false (Some P = Some (inter_name sb))) in Hrel4 by congruence.
    fold (cpu_attempt_decode p codec) in Hrel4.
    pose proof (casc_rel_trans _ _ _ _ _ _ _ _ _ HF Hrel12 Hrel4) as Hrel.
    rewrite <-app_assoc in Hrel. cbn [app] in Hrel.
    exists r, (Some (inter_name sb)), w4. split; [done|].
    eexists. split; [exact Hrel|]. split; [by constructor|]. split; [|done].
    destruct r.
    + destruct Hfs4 as (c & Hc & ->). exists c. by rewrite lookup_insert_eq.
    + rewrite Hfs4, Hfs2, Hfs1. by rewrite lookup_delete_ne.
Qed.
End cascade.

Lemma determine_target_format_py cc :
  exists c e m o, _determine_target_format config_py cc = Ok (c, e, m, o) /\
    ((c = "h264" /\ e = ".mp4" /\ m = "video/mp4") \/
     (c = "vp9" /\ e = ".webm" /\ m = "video/webm") \/
     (c = "av1" /\ e = ".webm" /\ m = "video/webm")).
Proof.
  destruct cc as [s|]; [|vm_compute; eauto 10].
  unfold _determine_target_format. cbn [ALLOWED_VIDEO_CODECS config_py str_in].
  destruct (String.eqb_spec s "h264") as [->|_]; [vm_compute; eauto 10|].
  destruct (String.eqb_spec s "vp9") as [->|_]; [vm_compute; eauto 10|].
  destruct (String.eqb_spec s "av1") as [->|_]; [vm_compute; eauto 10|].
  vm_compute; eauto 10.
Qed.

Lemma init_py_built dir ffmpeg ffprobe sf uv cc lin mg p :
  MediaProcessor_init config_py dir ffmpeg ffprobe sf uv cc lin mg = Ok p ->
  built_from_config_py p /\ ffmpeg_path p = ffmpeg /\ ffprobe_path p = ffprobe /\
  user_codec_choice p = cc /\ scaling_factor p = _validate_and_set_scaling sf /\
  magic_available p = mg /\ media_output_dir p = dir.
Proof.
  unfold MediaProcessor_init.
  destruct (determine_target_format_py cc) as (c & e & m & o & -> & Hcases).
  intros [= <-]. cbn. split_and!; try done.
  split; cbn; try done.
  unfold _validate_vaapi_request.
  destruct uv; [|done]. cbn [negb]. by destruct (opt_str_truthy ffmpeg).
Qed.

Section built.
Context (p : MediaProcessor) (Hp : built_from_config_py p).

Lemma built_profile e : encoder_profile p (target_codec p) e = true.
Proof.
  unfold encoder_profile. rewrite (built_config p Hp).
  destruct (built_target p Hp) as [(-> & _)|[(-> & _)|(-> & _)]]; by destruct e.
Qed.

Lemma built_encode_vaapi : encode_vaapi_possible p = use_vaapi p.
Proof.
  unfold encode_vaapi_possible. rewrite (built_config p Hp).
  destruct (built_target p Hp) as [(-> & _)|[(-> & _)|(-> & _)]];
    by destruct (use_vaapi p).
Qed.

Lemma built_ext : target_extension p = ".mp4" \/ target_extension p = ".webm".
Proof. destruct (built_target p Hp) as [(_ & -> & _)|[(_ & -> & _)|(_ & -> & _)]]; auto. Qed.
End built.

Lemma safe_base_of_safe pn ai sr : safe_base (safe_base_of pn ai sr).
Proof. destruct (safe_base_of_shape pn ai sr) as (rest & H1 & H2). split; eauto. Qed.

Lemma safe_base_not_dots sb : safe_base sb -> str_forallb is_dot sb = false.
Proof. intros [[rest ->] _]. done. Qed.

Lemma splitext_safe sb s :
  safe_base sb -> no_dot s = true ->
  os_path_splitext (sb +:+ String "." s) = (sb, String "." s).
Proof.
  intros Hsb Hs. change (String "." s) with ("." +:+ s).
  apply splitext_app; [done|by apply safe_base_not_dots].
Qed.

Lemma app_neq sb x y : x <> y -> sb +:+ x <> sb +:+ y.
Proof. intros Hne Heq. by apply (inj (String.app sb)) in Heq. Qed.

Lemma not_temp_like sb x :
  String.prefix "_" x = false -> String.prefix ".tmp_" x = false ->
  temp_like sb (sb +:+ x) = false.
Proof. intros H1 H2. unfold temp_like. by rewrite !prefix_app, H1, H2. Qed.

Lemma first_ext_elem l mime e :
  first_ext_for_mime l mime = Some e ->
  exists fi, fi ∈ l /\ e = default ".bin" (fi_ext fi).
Proof.
  induction l as [|fi l IH]; [done|]. simpl.
  destruct (fi_mime fi) as [m|].
  - destruct (String.eqb m mime).
    + intros [= <-]. exists fi. split; [constructor|done].
    + intros (fi' & ? & ?)%IH. exists fi'. split; [by constructor|done].
  - intros (fi' & ? & ?)%IH. exists fi'. split; [by constructor|done].
Qed.

Lemma dict_get_elem {V} (d : pydict V) k v : dict_get d k = Some v -> exists k', (k', v) ∈ d.
Proof.
  induction d as [|[k' v'] d IH]; [done|]. simpl.
  destruct (String.eqb k' k).
  - intros [= <-]. exists k'. constructor.
  - intros [k'' ?]%IH. exists k''. by constructor.
Qed.

Ltac plain_ext_const := eexists; split; [reflexivity|by vm_compute].

Lemma first_ext_py mime e :
  first_ext_for_mime (dict_values (CODEC_FORMAT_MAP config_py)) mime = Some e ->
  plain_ext e.
Proof.
  intros (fi & Hin & ->)%first_ext_elem.
  change (dict_values (CODEC_FORMAT_MAP config_py)) with
    (map snd (CODEC_FORMAT_MAP config_py)) in Hin.
  cbn [CODEC_FORMAT_MAP config_py map snd] in Hin.
  repeat (apply elem_of_cons in Hin as [->|Hin]; [plain_ext_const|]).
  by apply elem_of_nil in Hin.
Qed.

Lemma common_ext mime e : dict_get common_mime_map mime = Some e -> plain_ext e.
Proof.
  intros [k Hin]%dict_get_elem. unfold common_mime_map in Hin.
  repeat (apply elem_of_cons in Hin as [[= _ ->]|Hin]; [plain_ext_const|]).
  by apply elem_of_nil in Hin.
Qed.

Lemma mime_ext_plain p mime :
  config p = config_py -> plain_ext (_get_file_extension_from_mime p mime).
Proof.
  intros Hcfg. unfold _get_file_extension_from_mime. rewrite Hcfg.
  assert (Hbin : plain_ext ".bin") by plain_ext_const.
  destruct (contains_char "/" mime); cbn [negb]; [|done].
  destruct (first_ext_for_mime _ mime) as [e|] eqn:He1; [by apply (first_ext_py mime)|].
  destruct (dict_get common_mime_map mime) as [e|] eqn:He2; [by apply (common_ext mime)|].
  destruct (str_truthy _) eqn:Ht; [|done].
  eexists. split; [done|]. apply str_forallb_filter.
Qed.

Lemma plain_ext_no_dot e s : e = String "." s -> str_forallb ext_char s = true -> no_dot s = true.
Proof.
  intros _ H. unfold no_dot. eapply str_forallb_impl; [|exact H].
  apply ext_char_no_dot.
Qed.

Lemma prefix_split a s : String.prefix a s = true -> exists r, s = a +:+ r.
Proof.
  revert s. induction a as [|c a IH]; intros s; [by exists s|].
  destruct s as [|c' s]; [done|]. simpl.
  destruct (ascii_dec c c') as [<-|]; [|done].
  intros [r ->]%IH. by exists r.
Qed.

Lemma plain_ext_not_temp sb e : plain_ext e -> temp_like sb (sb +:+ e) = false.
Proof.
  intros (s & -> & Hs). apply not_temp_like; [done|].
  destruct (String.prefix ".tmp_" (String "." s)) eqn:Hpre; [|done].
  apply prefix_split in Hpre as [r Hr].
  rewrite !app_cons, app_nil_l_str in Hr. injection Hr as ->.
  by cbn in Hs.
Qed.

Lemma plain_ext_neq e s' :
  plain_ext e -> str_forallb ext_char s' = false -> e <> String "." s'.
Proof. intros (s & -> & Hs) Hx [= ->]. congruence. Qed.

Section names.
Context (p : MediaProcessor) (Hp : built_from_config_py p).
Context (sb : string) (Hsb : safe_base sb).

Lemma final_splitext : (os_path_splitext (final_name p sb)).1 = sb.
Proof.
  unfold final_name.
  destruct (built_ext p Hp) as [-> | ->]; by rewrite splitext_safe.
Qed.

Lemma final_not_temp : temp_like sb (final_name p sb) = false.
Proof.
  unfold final_name. destruct (built_ext p Hp) as [-> | ->]; by apply not_temp_like.
Qed.

Lemma final_neq_inter : final_name p sb <> inter_name sb.
Proof.
  unfold final_name, inter_name.
  destruct (built_ext p Hp) as [-> | ->]; by apply app_neq.
Qed.

Lemma final_neq_scaled : final_name p sb <> scaled_name sb.
Proof.
  unfold final_name, scaled_name.
  destruct (built_ext p Hp) as [-> | ->]; by apply app_neq.
Qed.

Lemma final_neq_initial : final_name p sb <> initial_name sb.
Proof.
  unfold final_name, initial_name.
  destruct (built_ext p Hp) as [-> | ->]; by apply app_neq.
Qed.
End names.

Lemma final_stage_run E p sb inp w :
  final_transcoding_stage E p sb inp w =
    if final_transcode_needed p (ext_for_final_encode inp) (codec_for_final_encode inp)
       && enable_transcoding p
    then
      match final_transcode_cascade E p sb (final_name p sb)
              (path_for_final_encode inp) (codec_for_final_encode inp) w with
      | (Ok (true, io), w1) =>
          (Ok {| resulting_path := final_name p sb;
                 resulting_mime := target_mime_type p;
                 intermediate_h264_file := io |}, w1)
      | (Ok (false, io), w1) =>
          match rename_to (path_for_final_encode inp) (final_name p sb) w1 with
          | (Ok path, w2) =>
              (Ok {| resulting_path := path;
                     resulting_mime := mime_for_final_encode inp;
                     intermediate_h264_file := io |}, w2)
          | (Raise e, w2) => (Raise e, w2)
          end
      | (Raise e, w1) => (Raise e, w1)
      end
    else
      match rename_to (path_for_final_encode inp) (final_name p sb) w with
      | (Ok path, w2) =>
          (Ok {| resulting_path := path;
                 resulting_mime := mime_for_final_encode inp;
                 intermediate_h264_file := None |}, w2)
      | (Raise e, w2) => (Raise e, w2)
      end.
Proof.
  unfold final_transcoding_stage. fold (final_name p sb).
  destruct (_ && _); [|done].
  rewrite bind_run.
  destruct (final_transcode_cascade _ _ _ _ _ _ _) as [[[[] io]|e] w1]; done.
Qed.

(** Consequences of the order of the cascade. *)
Ltac in_inv H :=
  repeat (apply elem_of_cons in H as [H|H]; [simplify_eq|]);
  try (apply elem_of_nil in H; destruct H).

Ltac in_solve := apply list_elem_of_In; cbn; eauto 10.

Ltac shape_cases Hshape p codec :=
  destruct Hshape; unfold direct_prefix in *;
  try destruct (decode_vaapi_possible p codec) eqn:?; cbn [app] in *.


Lemma shape_intermediate_input p P codec inter tr r io :
  cascade_shape p P codec inter tr r io ->
  forall i o ok, EvIntermediate i o ok ∈ tr -> i = P /\ o = inter.
Proof.
  intros Hshape i o ok Hin.
  shape_cases Hshape p codec; in_inv Hin; done.
Qed.


Lemma shape_success p P codec inter tr r io :
  cascade_shape p P codec inter tr r io ->
  (r = true <-> exists i c d e, EvFinalEncode i c d e true ∈ tr).
Proof.
  intros Hshape.
  shape_cases Hshape p codec; try destruct r; split; try done;
    try (intros _; do 4 eexists; in_solve);
    try (intros (?&?&?&?&Hin); in_inv Hin).
Qed.

Lemma shape_intermediate_named p P codec inter tr r io :
  cascade_shape p P codec inter tr r io ->
  (io = Some inter <-> exists i o ok, EvIntermediate i o ok ∈ tr) /\
  (io = None \/ io = Some inter).
Proof.
  intros Hshape.
  shape_cases Hshape p codec; (split; [split|]); try done; eauto;
    try (intros _; do 3 eexists; in_solve);
    try (intros (?&?&?&Hin); in_inv Hin).
Qed.

Lemma new_events_app w w' l : w_log w' = w_log w ++ l -> new_events w w' = l.
Proof. intros H. unfold new_events. rewrite H. by rewrite drop_app_length. Qed.

Lemma cleanup_run p pn ai rc init scaled out w :
  cleanup_and_return p pn ai rc init scaled out w =
    (Ok (if bool_decide (is_Some (cleanup_fs init scaled out (w_fs w) !! resulting_path out))
         then Some (item_of p pn ai rc (resulting_path out) (resulting_mime out))
         else None),
     set_fs (cleanup_fs init scaled out) w).
Proof.
  unfold cleanup_and_return, cleanup_fs.
  assert (H1 : match intermediate_h264_file out with
               | Some f => remove_if_exists f
               | None => ret tt
               end w
               = (Ok tt, set_fs (fun fs => match intermediate_h264_file out with
                                           | Some f => delete f fs
                                           | None => fs
                                           end) w)).
  { destruct (intermediate_h264_file out); [apply remove_if_exists_run|].
    rewrite ret_run. by destruct w. }
  mrun H1.
  set (w1 := set_fs _ w).
  assert (H2 : (if negb (String.eqb init (resulting_path out))
                then remove_if_exists init else ret tt) w1
               = (Ok tt, set_fs (fun fs => if negb (String.eqb init (resulting_path out))
                                           then delete init fs else fs) w1)).
  { destruct (negb (String.eqb init (resulting_path out)));
      [apply remove_if_exists_run|]. rewrite ret_run. by destruct w1. }
  mrun H2.
  set (w2 := set_fs _ w1).
  assert (H3 : match scaled with
               | Some s => if negb (String.eqb s (resulting_path out))
                           then remove_if_exists s else ret tt
               | None => ret tt
               end w2
               = (Ok tt, set_fs (fun fs => match scaled with
                                           | Some s => if negb (String.eqb s (resulting_path out))
                                                       then delete s fs else fs
                                           | None => fs
                                           end) w2)).
  { destruct scaled as [s|]; [|rewrite ret_run; by destruct w2].
    destruct (negb (String.eqb s (resulting_path out)));
      [apply remove_if_exists_run|]. rewrite ret_run. by destruct w2. }
  mrun H3. mrun os_path_exists_run.
  unfold w2, w1, set_fs. cbn [w_fs w_log w_ntmp].
  destruct scaled as [s|]; destruct (negb (String.eqb init _));
    try destruct (negb (String.eqb s _)); destruct (bool_decide _); done.
Qed.

Ltac cleanup_cases init scaled out q :=
  unfold cleanup_fs;
  destruct scaled as [?s|];
  destruct (intermediate_h264_file out) as [?f|];
  destruct (String.eqb_spec init (resulting_path out));
  try match goal with
      | s : string |- context [String.eqb ?s (resulting_path out)] =>
          destruct (String.eqb_spec s (resulting_path out))
      end;
  cbn [negb];
  repeat match goal with
         | |- context [delete ?x _ !! q] =>
             destruct (decide (x = q));
             [subst; rewrite ?lookup_delete_eq|rewrite (lookup_delete_ne _ x q) by done]
         end.

Lemma cleanup_fs_delete_only init scaled out fs q :
  fs !! q = None -> cleanup_fs init scaled out fs !! q = None.
Proof. intros H. cleanup_cases init scaled out q; done. Qed.

Lemma cleanup_fs_keeps init scaled out fs q :
  intermediate_h264_file out <> Some q ->
  (q = resulting_path out \/ (q <> init /\ scaled <> Some q)) ->
  cleanup_fs init scaled out fs !! q = fs !! q.
Proof.
  intros Hi Hq. cleanup_cases init scaled out q; try done;
    destruct Hq as [?|[? ?]]; congruence.
Qed.

Lemma cleanup_fs_initial init scaled out fs :
  init <> resulting_path out -> cleanup_fs init scaled out fs !! init = None.
Proof. intros Hne. cleanup_cases init scaled out init; done. Qed.

Lemma cleanup_fs_inter init scaled out fs f :
  intermediate_h264_file out = Some f -> cleanup_fs init scaled out fs !! f = None.
Proof. intros Hf. cleanup_cases init scaled out f; congruence. Qed.

Lemma cleanup_fs_scaled init out fs s :
  s <> resulting_path out -> cleanup_fs init (Some s) out fs !! s = None.
Proof.
  intros Hne. unfold cleanup_fs.
  destruct (String.eqb_spec s (resulting_path out)); [done|]. cbn [negb].
  by rewrite lookup_delete_eq.
Qed.

Lemma rename_to_spec src dst w c :
  w_fs w !! src = Some c ->
  exists w', rename_to src dst w = (Ok dst, w') /\
    w_log w' = w_log w /\
    w_fs w' !! dst = Some c /\
    (src <> dst -> w_fs w' !! src = None) /\
    (forall q, q <> src -> q <> dst -> w_fs w' !! q = w_fs w !! q).
Proof.
  intros Hc. rewrite rename_to_run.
  destruct (String.eqb_spec src dst) as [->|Hne].
  - exists w. split_and!; try done.
  - rewrite Hc. eexists. split; [done|]. cbn. split_and!; try done.
    + by rewrite lookup_insert_eq.
    + intros _. rewrite lookup_insert_ne by done. by rewrite lookup_delete_eq.
    + intros q H1 H2. rewrite lookup_insert_ne by done. by rewrite lookup_delete_ne.
Qed.

Lemma rename_to_total src dst w :
  exists path w', rename_to src dst w = (Ok path, w') /\ w_log w' = w_log w /\
    (path = src \/ path = dst) /\
    (forall q, q <> src -> q <> dst -> w_fs w' !! q = w_fs w !! q).
Proof.
  rewrite rename_to_run.
  destruct (String.eqb_spec src dst) as [->|Hne]; [by eauto 10|].
  destruct (w_fs w !! src) as [c|]; eexists _, _; (split; [done|]); cbn;
    split_and!; auto.
  - intros q H1 H2. rewrite lookup_insert_ne by done. by rewrite lookup_delete_ne.
  - intros q H1 H2. by rewrite lookup_delete_ne.
Qed.

Lemma explicit_change_none p ext codec :
  opt_str_truthy (user_codec_choice p) = false -> explicit_change p ext codec = false.
Proof.
  unfold explicit_change, opt_str_truthy.
  destruct (user_codec_choice p) as [choice|]; [|done]. by intros ->.
Qed.

(** C2. When the extension and codec the final stage receives are in the
    preferred-formats table and no codec was asked for, the stage runs no
    encoder (it logs nothing): the current file is moved to the canonical
    output name with its bytes unchanged, and the record carries the MIME type
    detected before. *)
Theorem preferred_format_is_only_renamed E p pn ai rc sb init inp c w :
  is_preferred_format p (ext_for_final_encode inp) (codec_for_final_encode inp) = true ->
  opt_str_truthy (user_codec_choice p) = false ->
  w_fs w !! path_for_final_encode inp = Some c ->
  exists w',
    final_stage_and_return E p pn ai rc sb init inp w
    = (Ok (Some (item_of p pn ai rc (final_name p sb) (mime_for_final_encode inp))), w') /\
    w_log w' = w_log w /\
    w_fs w' !! final_name p sb = Some c /\
    (path_for_final_encode inp <> final_name p sb ->
     w_fs w' !! path_for_final_encode inp = None).
Proof.
  intros Hpref Hchoice Hc.
  unfold final_stage_and_return. rewrite bind_run, final_stage_run.
  unfold final_transcode_needed. rewrite Hpref, (explicit_change_none _ _ _ Hchoice).
  cbn [negb orb andb].
  destruct (rename_to_spec _ (final_name p sb) w c Hc) as (w1 & -> & Hlog & HF & HP & _).
  rewrite cleanup_run. cbn [resulting_path resulting_mime].
  set (out := {| resulting_path := final_name p sb |}).
  assert (HF' : cleanup_fs init (scaled_intermediate_path inp) out (w_fs w1) !! final_name p sb = Some c).
  { rewrite cleanup_fs_keeps; [done|done|by left]. }
  rewrite HF'. rewrite bool_decide_true by eauto.
  eexists. split; [done|]. cbn. split_and!; try done.
  intros Hne. apply cleanup_fs_delete_only. by apply HP.
Qed.

Lemma elem_of_attempts ev l : ev ∈ attempts l -> ev ∈ l.
Proof.
  unfold attempts. rewrite !list_elem_of_In. intros H%List.filter_In. tauto.
Qed.

Lemma attempts_elem ev l : ev ∈ l -> is_attempt ev = true -> ev ∈ attempts l.
Proof.
  unfold attempts. rewrite !list_elem_of_In. intros. by apply List.filter_In.
Qed.

Section stage.
Context (E : Env) (p : MediaProcessor) (Hp : built_from_config_py p).
Context (sb : string) (Hsb : safe_base sb).

(** The final stage when a transcode is required and enabled. *)
Lemma final_stage_transcode inp w :
  final_transcode_needed p (ext_for_final_encode inp) (codec_for_final_encode inp) = true ->
  enable_transcoding p = true ->
  path_for_final_encode inp <> inter_name sb ->
  exists r io w1,
    final_transcode_cascade E p sb (final_name p sb) (path_for_final_encode inp)
      (codec_for_final_encode inp) w = (Ok (r, io), w1) /\
    cascade_post p sb (final_name p sb) (path_for_final_encode inp)
      (codec_for_final_encode inp) w r io w1 /\
    final_transcoding_stage E p sb inp w =
      if r then (Ok {| resulting_path := final_name p sb;
                       resulting_mime := target_mime_type p;
                       intermediate_h264_file := io |}, w1)
      else match rename_to (path_for_final_encode inp) (final_name p sb) w1 with
           | (Ok path, w2) =>
               (Ok {| resulting_path := path;
                      resulting_mime := mime_for_final_encode inp;
                      intermediate_h264_file := io |}, w2)
           | (Raise e, w2) => (Raise e, w2)
           end.
Proof.
  intros Hneed Hen HP.
  assert (Hff : opt_str_truthy (ffmpeg_path p) = true).
  { by rewrite <-(built_enable p Hp). }
  destruct (cascade_spec E p sb (final_name p sb) (path_for_final_encode inp)
              (codec_for_final_encode inp) Hff (built_profile p Hp)
              (final_splitext p Hp sb Hsb) (final_not_temp p Hp sb)
              (final_neq_inter p Hp sb) HP w) as (r & io & w1 & Hrun & Hpost).
  exists r, io, w1. split; [done|]. split; [done|].
  rewrite final_stage_run, Hneed, Hen. cbn [andb]. rewrite Hrun. by destruct r.
Qed.
End stage.

Lemma casc_rel_log p sb F P w w' tr :
  casc_rel p sb F P w w' tr -> attempts (new_events w w') = tr.
Proof. intros (l & Hl & Htr & _). by rewrite (new_events_app _ _ _ Hl). Qed.

Lemma new_events_same_log w w1 w2 :
  w_log w2 = w_log w1 -> new_events w w2 = new_events w w1.
Proof. unfold new_events. by intros ->. Qed.


(** C4. When a final transcode is required and no attempt of the cascade
    succeeds, the stage keeps its input file: it is moved to the canonical
    output name with its bytes unchanged, and the record returned for the
    item carries the MIME type the file had before the cascade. *)
Theorem exhausted_cascade_keeps_input E dir ffmpeg ffprobe sf uv cc lin mg p
    pn ai sr rc init inp c w :
  MediaProcessor_init config_py dir ffmpeg ffprobe sf uv cc lin mg = Ok p ->
  let sb := safe_base_of pn ai sr in
  let P := path_for_final_encode inp in
  final_transcode_needed p (ext_for_final_encode inp) (codec_for_final_encode inp) = true ->
  enable_transcoding p = true ->
  P <> inter_name sb ->
  w_fs w !! P = Some c ->
  let run := final_stage_and_return E p pn ai rc sb init inp w in
  (forall i sc d e, EvFinalEncode i sc d e true ∉ new_events w run.2) ->
  run.1 = Ok (Some (item_of p pn ai rc (final_name p sb) (mime_for_final_encode inp))) /\
  w_fs run.2 !! final_name p sb = Some c.
Proof.
  intros Hinit sb P Hneed Hen HP Hc run.
  destruct (init_py_built _ _ _ _ _ _ _ _ _ Hinit) as (Hp & _).
  pose proof (safe_base_of_safe pn ai sr) as Hsb. fold sb in Hsb.
  destruct (final_stage_transcode E p Hp sb Hsb inp w Hneed Hen HP)
    as (r & io & w1 & Hrun & (tr & Hrel & Hshape & HF & _) & Hstage).
  pose proof (casc_rel_log _ _ _ _ _ _ _ Hrel) as Htr.
  unfold run, final_stage_and_return. rewrite bind_run, Hstage.
  destruct r.
  { (* a success contradicts the hypothesis *)
    rewrite cleanup_run. cbn [fst snd]. intros Hnone. exfalso.
    destruct (shape_success _ _ _ _ _ _ _ Hshape) as [Hs _].
    destruct (Hs eq_refl) as (i & sc & d & e & Hin).
    apply (Hnone i sc d e).
    unfold new_events, set_fs. cbn [w_log].
    rewrite <-Htr in Hin. by apply elem_of_attempts in Hin. }
  (* the input is still in place *)
  assert (HP1 : w_fs w1 !! P = Some c).
  { destruct (decide (P = final_name p sb)) as [Heq|Hne].
    - rewrite Heq in *. by rewrite HF.
    - rewrite (casc_rel_frame _ _ _ _ _ _ _ _ Hrel); done. }
  destruct (rename_to_spec P (final_name p sb) w1 c HP1) as (w2 & Hren & Hlog & HF2 & _).
  fold P. rewrite Hren. rewrite cleanup_run. cbn [fst snd resulting_path resulting_mime].
  intros _.
  set (out := {| resulting_path := final_name p sb;
                 resulting_mime := mime_for_final_encode inp;
                 intermediate_h264_file := io |}).
  assert (HF' : cleanup_fs init (scaled_intermediate_path inp) out (w_fs w2) !! final_name p sb = Some c).
  { rewrite cleanup_fs_keeps; [exact HF2| |left; reflexivity].
    subst out. cbn [intermediate_h264_file].
    destruct (shape_intermediate_named _ _ _ _ _ _ _ Hshape) as [_ [-> | ->]]; [done|].
    intros Heq%(inj Some). by apply (final_neq_inter p Hp sb). }
  rewrite HF'. rewrite bool_decide_true by eauto. done.
Qed.

Lemma output_good_iff rc fs out :
  output_good rc fs out = true <-> rc = 0%Z /\ nonempty_file fs out.
Proof.
  unfold output_good, nonempty_file. split.
  - intros [H1 H2]%andb_prop. split; [by apply Z.eqb_eq|].
    destruct (fs !! out) as [c|]; [|done]. exists c. split; [done|].
    apply Z.ltb_lt in H2. lia.
  - intros [-> (c & -> & Hc)]. cbn. apply Z.ltb_lt. lia.
Qed.

Lemma encode_to_verdict E cmd out w rc eff :
  ffmpeg_run E cmd (w_fs w) = Completed rc eff ->
  (encode_to E cmd out w).1 = Ok (output_good rc (apply_effect out eff (w_fs w)) out).
Proof.
  intros Hrun. unfold encode_to.
  rewrite try_except_run, bind_run, run_encoder_run, Hrun. cbv beta iota.
  mrun produced_output_run. cbn [w_fs set_fs add_log].
  destruct (output_good _ _ _); [done|].
  mrun remove_if_exists_run. done.
Qed.

(** C5. With an encoder installed, an intermediate H.264 encode, a scaling
    encode and a final encode attempt whose encoder run completes each report
    success exactly when the exit status is 0 and the output file of the
    attempt exists with more than zero bytes. *)
Theorem attempt_succeeds_iff_encoder_output_good E p w :
  opt_str_truthy (ffmpeg_path p) = true ->
  (* the intermediate H.264 encode *)
  (forall input out rc eff,
     ffmpeg_run E (intermediate_h264_command p input out) (w_fs w) = Completed rc eff ->
     exists ok, (_perform_intermediate_h264_encode E p input out w).1 = Ok ok /\
       (ok = true <-> rc = 0%Z /\ nonempty_file (apply_effect out eff (w_fs w)) out)) /\
  (* the scaling encode *)
  (forall factor input out rc eff,
     scaling_factor p = Some factor ->
     ffmpeg_run E (scaling_command p factor input out) (w_fs w) = Completed rc eff ->
     exists ok, (_perform_scaling_step E p input out w).1 = Ok ok /\
       (ok = true <-> rc = 0%Z /\ nonempty_file (apply_effect out eff (w_fs w)) out)) /\
  (* a final encode attempt, whose output is its temporary file *)
  (forall input F tc sc d e temp cmd rc eff,
     first_fresh (w_fs w) (final_temp_prefix F e) (os_path_splitext F).2
       (tmp_names E (w_ntmp w)) = Some temp ->
     final_encode_command p input F tc sc d e temp = Ok cmd ->
     ffmpeg_run E cmd (<[temp := []]> (w_fs w)) = Completed rc eff ->
     exists ok, (_perform_final_encode_step E p input F tc sc d e w).1 = Ok ok /\
       (ok = true <->
        rc = 0%Z /\ nonempty_file (apply_effect temp eff (<[temp := []]> (w_fs w))) temp)).
Proof.
  intros Hff. split_and!.
  - intros input out rc eff Hrun. eexists. split; [|apply output_good_iff].
    unfold _perform_intermediate_h264_encode. rewrite Hff. cbn [negb].
    rewrite bind_run.
    pose proof (encode_to_verdict E _ out w rc eff Hrun) as Hv.
    destruct (encode_to E _ out w) as [[ok|ex] w1]; cbn in Hv; [|done].
    injection Hv as ->. by mrun emit_run.
  - intros factor input out rc eff Hf Hrun. eexists. split; [|apply output_good_iff].
    unfold _perform_scaling_step. rewrite Hf, Hff. cbn [negb].
    rewrite bind_run.
    pose proof (encode_to_verdict E _ out w rc eff Hrun) as Hv.
    destruct (encode_to E _ out w) as [[ok|ex] w1]; cbn in Hv; [|done].
    injection Hv as ->. by mrun emit_run.
  - intros input F tc sc d e temp cmd rc eff Hfresh Hcmd Hrun.
    eexists. split; [|apply output_good_iff].
    unfold _perform_final_encode_step. rewrite Hff. cbn [negb].
    rewrite (surjective_pairing (os_path_splitext F)).
    fold (final_temp_prefix F e).
    rewrite bind_run, bind_run, try_except_run, bind_run, named_temporary_file_run, Hfresh.
    cbv beta iota. rewrite ret_run. cbv beta iota. rewrite Hcmd.
    rewrite bind_run, try_except_run, bind_run, run_encoder_run.
    cbn [w_fs]. rewrite Hrun. cbv beta iota.
    mrun produced_output_run. cbn [w_fs set_fs add_log].
    destruct (output_good _ _ _) eqn:Hgood.
    + apply output_good_some in Hgood as (_ & c & Hc & _).
      rewrite bind_run. rewrite (shutil_move_run temp F _ c) by exact Hc.
      cbv beta iota. rewrite ret_run. cbv beta iota.
      unfold when, negb. mrun ret_run. rewrite ret_run. cbv beta iota.
      by mrun emit_run.
    + rewrite ret_run. cbv beta iota. unfold when, negb.
      mrun remove_if_exists_run. rewrite ret_run. cbv beta iota.
      by mrun emit_run.
Qed.

Lemma maybe_probe_spec E p (b : bool) path info w :
  exists r l,
    (if b then _get_video_info E p path else ret info) w
    = (Ok r, mkWorld (w_fs w) (w_log w ++ l) (w_ntmp w)) /\
    Forall (fun ev => exists cmd, ev = EvProbe cmd) l.
Proof.
  destruct b.
  - destruct (get_video_info_spec E p path w) as (r & l & Hrun & [-> | ->]).
    + exists r, []. split; [done|constructor].
    + exists r, [EvProbe (ffprobe_command p path)]. split; [done|].
      apply Forall_cons; split; [by eexists|constructor].
  - exists info, []. rewrite ret_run, app_nil_r. split; [by destruct w|constructor].
Qed.

Lemma initial_splitext sb :
  safe_base sb -> (os_path_splitext (initial_name sb)).1 = sb +:+ ".tmp".
Proof.
  intros [[rest ->] _]. unfold initial_name.
  change ".tmp.bin" with (".tmp" +:+ "." +:+ "bin").
  rewrite <-str_app_assoc. by rewrite splitext_app.
Qed.

Lemma pre_resize_temp_like sb rnd :
  safe_base sb ->
  temp_like sb (pre_resize_temp_prefix (initial_name sb) +:+ rnd +:+ ".preresize.mp4") = true.
Proof.
  intros Hsb. unfold temp_like, pre_resize_temp_prefix.
  rewrite (initial_splitext sb Hsb).
  rewrite !str_app_assoc.
  change (".tmp" +:+ "_" +:+ rnd +:+ ".preresize.mp4")
    with (".tmp_" +:+ (rnd +:+ ".preresize.mp4")).
  rewrite <-(str_app_assoc sb ".tmp_"). rewrite prefix_app_r. apply orb_true_r.
Qed.

Lemma probes_identify p sb mime l :
  Forall (fun ev => exists cmd, ev = EvProbe cmd) l ->
  Forall (identify_event_ok p sb mime) l.
Proof. intros H. eapply Forall_impl; [exact H|]. by intros ev [cmd ->]. Qed.

Lemma probes_no_temp l t :
  Forall (fun ev => exists cmd, ev = EvProbe cmd) l -> EvTemp t ∉ l.
Proof.
  intros Hall Hin. rewrite Forall_forall in Hall.
  by destruct (Hall _ Hin) as [cmd ?].
Qed.

Section identify.
Context (E : Env) (p : MediaProcessor) (Hcfg : config p = config_py).
Context (sb : string) (Hsb : safe_base sb).

Lemma guess_neq_initial mime :
  sb +:+ _get_file_extension_from_mime p mime <> initial_name sb.
Proof.
  unfold initial_name. apply app_neq.
  apply plain_ext_neq; [by apply mime_ext_plain|done].
Qed.

Lemma guess_not_temp mime :
  temp_like sb (sb +:+ _get_file_extension_from_mime p mime) = false.
Proof. apply plain_ext_not_temp. by apply mime_ext_plain. Qed.

Lemma identify_spec ct w b :
  w_fs w !! initial_name sb = Some b ->
  exists idn w',
    identify E p sb (initial_name sb) ct w = (Ok idn, w') /\
    let guess := sb +:+ _get_file_extension_from_mime p (detected_mime idn) in
    current_path idn = guess /\
    (exists l, w_log w' = w_log w ++ l /\
       Forall (identify_event_ok p sb (detected_mime idn)) l /\
       EvDetected (detected_mime idn) ∈ l /\
       (forall t, EvTemp t ∈ l -> w_fs w' !! t = None)) /\
    (exists c, w_fs w' = <[guess := c]> (delete (initial_name sb) (w_fs w)) /\
       (opt_str_truthy (ffmpeg_path p) = false -> c = b)).
Proof.
  intros Hb. unfold identify.
  (* first probe *)
  destruct (maybe_probe_spec E p true (initial_name sb) None w) as (info1 & l1 & Hrun1 & Hl1).
  cbv iota in Hrun1. mrun Hrun1.
  (* pre-resize *)
  set (w1 := mkWorld _ _ _).
  destruct (pre_resize_spec E p (initial_name sb) info1 w1)
    as (resized & w2 & Hrun2 & (l2 & Hlog2 & Hl2) & Hfs2).
  mrun Hrun2.
  (* second probe *)
  destruct (maybe_probe_spec E p resized (initial_name sb) info1 w2)
    as (info2 & l3 & Hrun3 & Hl3).
  mrun Hrun3.
  set (w3 := mkWorld _ _ _).
  (* detection *)
  destruct (detect_mime_spec E p (initial_name sb) ct w3) as (mime & Hrun4).
  mrun Hrun4. mrun emit_run.
  (* renaming *)
  set (guess := sb +:+ _get_file_extension_from_mime p mime).
  assert (Hinit2 : exists c, w_fs w2 !! initial_name sb = Some c /\
            w_fs w2 = (if resized then <[initial_name sb := c]> (w_fs w) else w_fs w) /\
            (opt_str_truthy (ffmpeg_path p) = false -> c = b)).
  { destruct resized.
    - destruct Hfs2 as (c & _ & Hfs2). exists c. rewrite Hfs2, lookup_insert_eq.
      split_and!; try done. intros Hff.
      destruct Hl2 as [[_ ?]|[Hff' _]]; [done|congruence].
    - exists b. rewrite Hfs2. by split_and!. }
  destruct Hinit2 as (c & Hc & Hfsw2 & Hcb).
  rewrite bind_run, rename_to_run.
  destruct (String.eqb_spec (initial_name sb) guess) as [Heq|Hne].
  { exfalso. by apply (guess_neq_initial mime). }
  unfold w3. cbn [w_fs add_log]. rewrite Hc. cbv beta iota.
  (* third probe *)
  set (w4 := set_fs _ _).
  destruct (maybe_probe_spec E p (negb (bool_decide (is_Some info2)) || resized) guess info2 w4)
    as (info3 & l4 & Hrun5 & Hl4).
  mrun Hrun5. rewrite ret_run.
  eexists _, _. split; [done|]. cbn [current_path detected_mime w_fs w_log].
  fold guess. split; [done|]. split.
  - exists (l1 ++ l2 ++ l3 ++ [EvDetected mime] ++ l4).
    assert (Hl2' : Forall (identify_event_ok p sb mime) l2 /\
                   forall t, EvTemp t ∈ l2 -> w_fs w !! t = None /\ temp_like sb t = true).
    { destruct Hl2 as [[-> _]|[Hff [[-> _]|(t & -> & Hnone & rnd & Hname)]]].
      - split; [constructor|]. intros t Ht. by apply elem_of_nil in Ht.
      - split; [apply Forall_cons; split; [exact Hff|constructor]|].
        intros t Ht. in_inv Ht.
      - assert (Htl : temp_like sb t = true).
        { rewrite Hname. by apply pre_resize_temp_like. }
        split.
        + apply Forall_cons; split; [done|].
          apply Forall_cons; split; [done|].
          apply Forall_cons; split; [done|constructor].
        + intros t' Ht'. in_inv Ht'. done. }
    destruct Hl2' as [Hl2ok Hl2tmp].
    split_and!.
    + unfold w4, set_fs. cbn [w_log add_log]. rewrite Hlog2. unfold w1. cbn [w_log].
      by rewrite <-!app_assoc.
    + repeat (apply Forall_app; split); try by apply probes_identify.
      * done.
      * apply Forall_cons; split; [done|constructor].
    + rewrite !elem_of_app. right. right. right. left. by apply list_elem_of_singleton.
    + intros t Ht. unfold w4, set_fs. cbn [w_fs].
      assert (Ht2 : EvTemp t ∈ l2).
      { rewrite !elem_of_app in Ht.
        destruct Ht as [Ht|[Ht|[Ht|[Ht|Ht]]]]; try done.
        - by apply probes_no_temp in Ht.
        - by apply probes_no_temp in Ht.
        - by apply list_elem_of_singleton in Ht.
        - by apply probes_no_temp in Ht. }
      destruct (Hl2tmp t Ht2) as [Hnone Htl].
      rewrite lookup_insert_ne.
      2:{ intros <-. unfold guess in Htl. by rewrite guess_not_temp in Htl. }
      rewrite lookup_delete_ne.
      2:{ intros <-. unfold w1 in Hnone. cbn in Hnone. congruence. }
      cbn [w_fs add_log]. rewrite Hfsw2. destruct resized; [|done].
      rewrite lookup_insert_ne; [done|].
      intros <-. unfold w1 in Hnone. cbn in Hnone. congruence.
  - exists c. split; [|done]. unfold w4, set_fs. cbn [w_fs add_log].
    rewrite Hfsw2. destruct resized; [|done]. by rewrite delete_insert_eq.
Qed.
End identify.

Section scaling.
Context (E : Env) (p : MediaProcessor) (Hp : built_from_config_py p).
Context (sb : string).

Lemma scaling_stage_spec init cur sc mime w :
  exists inp w' l,
    scaling_stage E p sb init cur sc mime w = (Ok inp, w') /\
    w_log w' = w_log w ++ l /\
    Forall (scaling_event_ok p sb) l /\
    ((inp = unscaled_input cur sc mime /\
      (l = [] /\ w_fs w' = w_fs w \/ w_fs w' = delete (scaled_name sb) (w_fs w))) \/
     (inp = scaled_input sb /\ enable_transcoding p = true /\
      exists c, c <> [] /\
        w_fs w' = (if negb (String.eqb cur init) then delete cur else id)
                    (<[scaled_name sb := c]> (w_fs w)))).
Proof.
  unfold scaling_stage. fold (unscaled_input cur sc mime). fold (scaled_name sb).
  destruct (needs_scaling p && enable_transcoding p) eqn:Hact.
  2:{ exists (unscaled_input cur sc mime), w, []. rewrite app_nil_r.
      split; [by rewrite ret_run|]. split; [done|]. split; [constructor|].
      left. split; [done|]. by left. }
  apply andb_prop in Hact as [Hneeds Hen].
  assert (Hactive : scaling_active p = true).
  { unfold scaling_active. unfold needs_scaling in Hneeds.
    destruct (scaling_factor p); [|done]. by rewrite <-(built_enable p Hp). }
  destruct (scaling_step_spec E p cur (scaled_name sb) w)
    as (ok & w1 & cmd & Hrun & pre & Hlog & Hpost).
  rewrite Hactive in Hpost. destruct Hpost as [-> Hfs].
  assert (Hev : Forall (scaling_event_ok p sb)
                  ([EvEncoder cmd] ++ [EvScaling cur (scaled_name sb) ok])).
  { cbn. apply Forall_cons; split; [done|].
    apply Forall_cons; split; [done|constructor]. }
  mrun Hrun. destruct ok.
  - destruct Hfs as (c & Hc & Hfs).
    mrun os_path_exists_run.
    mrun guarded_remove_run. rewrite ret_run. fold (scaled_input sb).
    eexists (scaled_input sb), _, _. split; [done|].
    split; [by destruct (negb (String.eqb cur init))|].
    split; [exact Hev|]. right. split; [done|]. split; [done|].
    exists c. split; [done|].
    destruct (negb (String.eqb cur init)); cbn [w_fs set_fs]; by rewrite Hfs.
  - mrun remove_if_exists_run. rewrite ret_run.
    eexists (unscaled_input cur sc mime), _, _. split; [done|]. cbn [w_log w_fs set_fs].
    split; [exact Hlog|]. split; [exact Hev|]. left. split; [done|]. right.
    rewrite Hfs. by rewrite delete_delete_eq.
Qed.
End scaling.

(** The extraction step and the branch on the content type. *)
Lemma process_annotation_run E p pn ai sr rc ct w b :
  read_bytes sr = Ok b -> b <> [] ->
  let sb := safe_base_of pn ai sr in
  process_annotation E p pn ai sr rc ct w =
    match identify E p sb (initial_name sb) ct (set_fs (<[initial_name sb := b]>) w) with
    | (Ok idn, w2) =>
        if negb (startswith (detected_mime idn) "video/") then
          (Ok None,
           if negb (String.eqb (initial_name sb) (current_path idn))
           then set_fs (delete (initial_name sb)) w2 else w2)
        else
          transcode_and_finish E p pn ai rc sb (initial_name sb)
            (current_path idn) (source_codec idn) (detected_mime idn) w2
    | (Raise e, w2) => (Raise e, w2)
    end.
Proof.
  intros Hread Hb sb. unfold process_annotation. rewrite Hread.
  destruct b as [|x b]; [done|]. fold sb. fold (initial_name sb).
  rewrite bind_run, try_except_run, bind_run. unfold write_file. cbv beta iota.
  rewrite ret_run. cbv beta iota. cbn [negb]. rewrite bind_run.
  destruct (identify _ _ _ _ _ _) as [[idn|e] w2]; [|done].
  destruct (negb (startswith _ _)); [|done].
  mrun os_path_exists_run. mrun guarded_remove_run. rewrite ret_run.
  by destruct (negb (String.eqb (initial_name sb) (current_path idn))).
Qed.

Lemma process_annotation_no_stream E p pn ai sr rc ct w :
  (forall b, read_bytes sr = Ok b -> b = []) ->
  process_annotation E p pn ai sr rc ct w = (Ok None, w).
Proof.
  intros H. unfold process_annotation.
  destruct (read_bytes sr) as [[|x b]|e]; try done.
  by specialize (H _ eq_refl).
Qed.

Section final_stage.
Context (E : Env) (p : MediaProcessor) (Hp : built_from_config_py p).
Context (sb : string) (Hsb : safe_base sb).

Lemma final_stage_spec inp cP w :
  w_fs w !! path_for_final_encode inp = Some cP ->
  path_for_final_encode inp <> inter_name sb ->
  exists out w' l,
    final_transcoding_stage E p sb inp w = (Ok out, w') /\
    final_stage_post p sb inp cP w out w' l.
Proof.
  intros HcP HPi.
  destruct (final_transcode_needed p (ext_for_final_encode inp) (codec_for_final_encode inp)
            && enable_transcoding p) eqn:Hact.
  - (* the cascade runs *)
    apply andb_prop in Hact as [Hneed Hen].
    destruct (final_stage_transcode E p Hp sb Hsb inp w Hneed Hen HPi)
      as (r & io & w1 & Hrun & (tr & Hrel & Hshape & HF & Hio) & Hstage).
    pose proof Hrel as (l & Hlog & Htr & Hev & Htmp & Hframe).
    destruct (shape_intermediate_named _ _ _ _ _ _ _ Hshape) as [Hnamed Hcases].
    assert (Hinter : forall i o ok, EvIntermediate i o ok ∈ l ->
              o = inter_name sb /\ io = Some (inter_name sb)).
    { intros i o ok Hin.
      assert (Hin' : EvIntermediate i o ok ∈ tr).
      { rewrite <-Htr. by apply attempts_elem. }
      split; [by apply (shape_intermediate_input _ _ _ _ _ _ _ Hshape i o ok)|].
      apply Hnamed. eauto. }
    assert (Hsucc : r = true <-> exists i sc d e, EvFinalEncode i sc d e true ∈ l).
    { rewrite (shape_success _ _ _ _ _ _ _ Hshape). rewrite <-Htr.
      split; intros (i & sc & d & e & Hin); exists i, sc, d, e.
      - by apply elem_of_attempts.
      - by apply attempts_elem. }
    destruct r.
    + destruct HF as (c & Hc & HF).
      eexists _, w1, l. split; [exact Hstage|].
      split; cbn [resulting_path resulting_mime intermediate_h264_file].
      * done.
      * done.
      * done.
      * done.
      * by rewrite HF.
      * intros q H1 H2 _. by apply Hframe.
      * done.
      * done.
      * done.
      * intros Hnone. exfalso. destruct Hsucc as [Hs _].
        destruct (Hs eq_refl) as (i & sc & d & e & Hin). by apply (Hnone i sc d e).
      * intros Hdis. congruence.
    + assert (HP1 : w_fs w1 !! (path_for_final_encode inp) = Some cP).
      { destruct (decide ((path_for_final_encode inp) = (final_name p sb))) as [Heq|Hne].
        - rewrite Heq in *. by rewrite HF.
        - by rewrite Hframe. }
      destruct (rename_to_spec (path_for_final_encode inp) (final_name p sb) w1 cP HP1) as (w2 & Hren & Hlog2 & HF2 & _ & Hfr2).
      rewrite Hren in Hstage.
      eexists _, w2, l. split; [exact Hstage|].
      split; cbn [resulting_path resulting_mime intermediate_h264_file].
      * done.
      * by rewrite Hlog2.
      * done.
      * intros t Ht. destruct (decide (t = (final_name p sb))) as [->|HtF].
        { exfalso. rewrite Forall_forall in Hev. specialize (Hev _ Ht). cbn in Hev.
          pose proof (final_not_temp p Hp sb). congruence. }
        destruct (decide (t = (path_for_final_encode inp))) as [->|HtP].
        { exfalso. specialize (Htmp _ Ht). congruence. }
        rewrite Hfr2 by done. by apply Htmp.
      * by rewrite HF2.
      * intros q H1 H2 H3. by rewrite Hfr2, Hframe.
      * done.
      * done.
      * intros Hs. apply Hsucc in Hs. done.
      * done.
      * intros Hdis. congruence.
  - (* no transcode: the file is renamed *)
    destruct (rename_to_spec (path_for_final_encode inp) (final_name p sb) w cP HcP) as (w2 & Hren & Hlog2 & HF2 & _ & Hfr2).
    eexists _, w2, []. split.
    { rewrite final_stage_run. by rewrite Hact, Hren. }
    split; cbn [resulting_path resulting_mime intermediate_h264_file].
    + done.
    + by rewrite app_nil_r.
    + constructor.
    + intros t Ht. by apply elem_of_nil in Ht.
    + by rewrite HF2.
    + intros q H1 H2 H3. by rewrite Hfr2.
    + by left.
    + intros i o ok Hin. by apply elem_of_nil in Hin.
    + intros (i & sc & d & e & Hin). by apply elem_of_nil in Hin.
    + done.
    + done.
Qed.
End final_stage.

Lemma scaling_events_disabled p sb l :
  Forall (scaling_event_ok p sb) l -> enable_transcoding p = false -> l = [].
Proof.
  intros Hall Hdis. destruct l as [|ev l]; [done|].
  apply Forall_cons in Hall as [Hev _].
  destruct ev; cbn in Hev; try done; try congruence.
  destruct Hev. congruence.
Qed.

Lemma scaled_neq_inter sb : scaled_name sb <> inter_name sb.
Proof. unfold scaled_name, inter_name. by apply app_neq. Qed.

Lemma scaled_not_temp sb : temp_like sb (scaled_name sb) = false.
Proof. unfold scaled_name. by apply not_temp_like. Qed.

Lemma initial_not_temp sb : temp_like sb (initial_name sb) = false.
Proof. unfold initial_name. by apply not_temp_like. Qed.

Section finish.
Context (E : Env) (p : MediaProcessor) (Hp : built_from_config_py p).
Context (sb : string) (Hsb : safe_base sb).

Lemma transcode_and_finish_spec pn ai rc cur sc mime c w :
  w_fs w !! cur = Some c ->
  cur <> inter_name sb -> cur <> scaled_name sb -> temp_like sb cur = false ->
  exists m w' l_sc l_fin,
    transcode_and_finish E p pn ai rc sb (initial_name sb) cur sc mime w
    = (Ok (Some (item_of p pn ai rc (final_name p sb) m)), w') /\
    finish_post p sb cur mime c w w' m l_sc l_fin.
Proof.
  intros Hc Hci Hcs Hct.
  unfold transcode_and_finish. rewrite bind_run.
  destruct (scaling_stage_spec E p Hp sb (initial_name sb) cur sc mime w)
    as (inp & w1 & l_sc & Hrun1 & Hlog1 & Hev1 & Hcases).
  rewrite Hrun1. cbv beta iota.
  (* the input of the final stage is there *)
  assert (Hin : exists cP, w_fs w1 !! path_for_final_encode inp = Some cP /\
            path_for_final_encode inp <> inter_name sb /\
            temp_like sb (path_for_final_encode inp) = false /\
            (enable_transcoding p = false -> cP = c /\ mime_for_final_encode inp = mime) /\
            (forall q, temp_like sb q = true -> w_fs w !! q = None -> w_fs w1 !! q = None) /\
            (forall i o ok, EvScaling i o ok ∈ l_sc ->
               o = scaled_name sb /\
               (scaled_intermediate_path inp = Some (scaled_name sb) \/
                w_fs w1 !! scaled_name sb = None /\
                path_for_final_encode inp <> scaled_name sb)) /\
            (scaled_intermediate_path inp = None \/
             scaled_intermediate_path inp = Some (scaled_name sb))).
  { destruct Hcases as [[-> Hfs]|(-> & Hen & c' & Hc' & Hfs)].
    - exists c. cbn [path_for_final_encode unscaled_input mime_for_final_encode
                     scaled_intermediate_path].
      split_and!; try done.
      + destruct Hfs as [[_ ->]| ->]; [done|]. by rewrite lookup_delete_ne.
      + intros q _ Hq. destruct Hfs as [[_ ->]| ->]; [done|].
        rewrite lookup_delete; by case_decide.
      + intros i o ok Hin. rewrite Forall_forall in Hev1.
        destruct (Hev1 _ Hin) as [-> _]. split; [done|]. right.
        destruct Hfs as [[-> _]| ->]; [by apply elem_of_nil in Hin|].
        by rewrite lookup_delete_eq.
      + by left.
    - exists c'. cbn [path_for_final_encode scaled_input mime_for_final_encode
                      scaled_intermediate_path].
      split_and!; try done.
      + rewrite Hfs. destruct (negb _); cbn [id].
        * rewrite lookup_delete_ne by done. by rewrite lookup_insert_eq.
        * by rewrite lookup_insert_eq.
      + apply scaled_neq_inter.
      + apply scaled_not_temp.
      + intros Hdis. congruence.
      + intros q Hq Hnone. rewrite Hfs.
        assert (q <> scaled_name sb).
        { intros ->. by rewrite scaled_not_temp in Hq. }
        destruct (negb _); cbn [id].
        * rewrite lookup_delete; case_decide; [done|]. by rewrite lookup_insert_ne.
        * by rewrite lookup_insert_ne.
      + intros i o ok Hin. rewrite Forall_forall in Hev1.
        destruct (Hev1 _ Hin) as [-> _]. split; [done|]. by left.
      + by right. }
  destruct Hin as (cP & HcP & HPi & HPt & Hdis & Hold & Hscaled & Hsp).
  unfold final_stage_and_return. rewrite bind_run.
  destruct (final_stage_spec E p Hp sb Hsb inp cP w1 HcP HPi)
    as (out & w2 & l_fin & Hrun2 & Hpost).
  rewrite Hrun2. cbv beta iota. rewrite cleanup_run.
  destruct Hpost as [Hpath Hlog2 Hev2 Htmp2 Hfile2 Hframe2 Hnamed2 Hinter2 Hsucc2 Hfail2 Hdis2].
  assert (Hio : intermediate_h264_file out <> Some (final_name p sb)).
  { destruct Hnamed2 as [-> | ->]; [done|].
    intros Heq%(inj Some). by apply (final_neq_inter p Hp sb). }
  assert (HF3 : cleanup_fs (initial_name sb) (scaled_intermediate_path inp) out (w_fs w2)
                  !! final_name p sb = w_fs w2 !! final_name p sb).
  { apply cleanup_fs_keeps; [done|]. left. by rewrite Hpath. }
  rewrite Hpath, HF3. rewrite bool_decide_true by done.
  exists (resulting_mime out). eexists _, l_sc, l_fin. split; [done|].
  split; cbn [w_fs w_log set_fs].
  - by rewrite Hlog2, Hlog1, <-app_assoc.
  - done.
  - eauto.
  - by rewrite HF3.
  - apply cleanup_fs_initial. rewrite Hpath.
    intros Heq. by apply (final_neq_initial p Hp sb).
  - intros t Ht. apply cleanup_fs_delete_only. by apply Htmp2.
  - intros q Hq Hnone. apply cleanup_fs_delete_only.
    rewrite Hframe2.
    + by apply Hold.
    + intros ->. by rewrite (final_not_temp p Hp sb) in Hq.
    + intros ->. by rewrite temp_like_inter in Hq.
    + intros ->. congruence.
  - intros i o ok Hin. destruct (Hscaled i o ok Hin) as [-> [Hs|[Hnone Hne]]].
    + rewrite Hs. apply cleanup_fs_scaled. rewrite Hpath.
      intros Heq. by apply (final_neq_scaled p Hp sb).
    + apply cleanup_fs_delete_only. rewrite Hframe2; [done| | |done].
      * intros Heq. by apply (final_neq_scaled p Hp sb).
      * apply scaled_neq_inter.
  - intros i o ok Hin. destruct (Hinter2 i o ok Hin) as [-> Hio2].
    by apply cleanup_fs_inter.
  - done.
  - intros Hoff. destruct (Hdis Hoff) as [-> Hm].
    specialize (Hdis2 Hoff). subst l_fin.
    destruct Hfail2 as [Hmime HF2].
    { intros i sc' d e Hin. by apply elem_of_nil in Hin. }
    split_and!; try done.
    + by apply (scaling_events_disabled p sb).
    + by rewrite Hmime.
    + by rewrite HF3.
Qed.
End finish.

Section run.
Context (E : Env) (p : MediaProcessor) (Hp : built_from_config_py p).

Lemma guess_neq_inter sb mime :
  sb +:+ _get_file_extension_from_mime p mime <> inter_name sb.
Proof.
  unfold inter_name. apply app_neq.
  apply plain_ext_neq; [apply mime_ext_plain, (built_config p Hp)|done].
Qed.

Lemma guess_neq_scaled sb mime :
  sb +:+ _get_file_extension_from_mime p mime <> scaled_name sb.
Proof.
  unfold scaled_name. apply app_neq.
  apply plain_ext_neq; [apply mime_ext_plain, (built_config p Hp)|done].
Qed.

(** A run either ends without a record before the final stages (no stream,
    or content that is not a video), or goes through steps 3 to 5. *)
Lemma process_annotation_spec pn ai sr rc ct fs n :
  let sb := safe_base_of pn ai sr in
  let run := process_annotation E p pn ai sr rc ct (mkWorld fs [] n) in
  (* no stream *)
  (run = (Ok None, mkWorld fs [] n) /\ forall b, read_bytes sr = Ok b -> b = []) \/
  exists b, read_bytes sr = Ok b /\ b <> [] /\
    ((* not a video *)
     (exists mime c,
        startswith mime "video/" = false /\
        run.1 = Ok None /\
        Forall (identify_event_ok p sb mime) (w_log run.2) /\
        EvDetected mime ∈ w_log run.2 /\
        w_fs run.2 !! (sb +:+ _get_file_extension_from_mime p mime) = Some c /\
        w_fs run.2 !! initial_name sb = None /\
        (forall t, EvTemp t ∈ w_log run.2 -> w_fs run.2 !! t = None)) \/
     (* a video *)
     (exists mime m l_id l_sc l_fin,
        startswith mime "video/" = true /\
        run.1 = Ok (Some (item_of p pn ai rc (final_name p sb) m)) /\
        video_run_post p sb b fs run.2 mime m l_id l_sc l_fin)).
Proof.
  intros sb run.
  destruct (read_bytes sr) as [b|e] eqn:Hread.
  2:{ left. split; [|done]. unfold run, process_annotation. by rewrite Hread. }
  destruct (decide (b = [])) as [->|Hb].
  { left. split; [|by intros ? [= <-]]. unfold run, process_annotation. by rewrite Hread. }
  right. exists b. split; [done|]. split; [done|].
  pose proof (safe_base_of_safe pn ai sr) as Hsb. fold sb in Hsb.
  unfold run. rewrite (process_annotation_run E p pn ai sr rc ct _ b Hread Hb).
  cbv zeta. fold sb.
  set (w1 := set_fs _ _).
  assert (Hinit : w_fs w1 !! initial_name sb = Some b).
  { unfold w1. cbn. by rewrite lookup_insert_eq. }
  destruct (identify_spec E p (built_config p Hp) sb Hsb ct w1 b Hinit)
    as (idn & w2 & Hrun & Hcur & (l_id & Hlog & Hev & Hdet & Htmp) & (c & Hfs & Hcb)).
  cbv zeta in Hcur. rewrite Hrun.
  set (mime := detected_mime idn) in *.
  set (guess := sb +:+ _get_file_extension_from_mime p mime) in *.
  assert (Hlog' : w_log w2 = l_id) by (by rewrite Hlog).
  destruct (startswith mime "video/") eqn:Hvideo; cbn [negb].
  - (* a video *)
    right.
    assert (Hc : w_fs w2 !! guess = Some c) by (by rewrite Hfs, lookup_insert_eq).
    destruct (transcode_and_finish_spec E p Hp sb Hsb pn ai rc guess (source_codec idn)
                mime c w2 Hc (guess_neq_inter sb mime) (guess_neq_scaled sb mime)
                (guess_not_temp p (built_config p Hp) sb mime))
      as (m & w3 & l_sc & l_fin & Hrun3 & Hpost).
    rewrite Hcur, Hrun3.
    exists mime, m, l_id, l_sc, l_fin. split; [done|]. split; [done|].
    cbn [fst snd]. split.
    + by rewrite (fin_log _ _ _ _ _ _ _ _ _ _ Hpost), Hlog'.
    + done.
    + done.
    + intros t Ht. rewrite Forall_forall in Hev.
      destruct (Hev _ Ht) as [Htl _].
      apply (fin_old_temps _ _ _ _ _ _ _ _ _ _ Hpost); [done|]. by apply Htmp.
    + eauto.
  - (* not a video *)
    left. exists mime, c. split; [done|].
    rewrite Hcur.
    destruct (String.eqb_spec (initial_name sb) guess) as [Heq|Hne].
    { exfalso. symmetry in Heq. by apply (guess_neq_initial p (built_config p Hp) sb mime). }
    cbn [negb fst snd set_fs w_fs w_log]. rewrite Hlog'.
    split_and!; try done.
    + rewrite Hfs. rewrite lookup_delete_ne by done. by rewrite lookup_insert_eq.
    + by rewrite lookup_delete_eq.
    + intros t Ht. rewrite lookup_delete; case_decide; [done|]. by apply Htmp.
Qed.
End run.

(** Where an event of a video run can come from. *)
Lemma video_run_event p sb b fs w' mime m l_id l_sc l_fin ev :
  video_run_post p sb b fs w' mime m l_id l_sc l_fin ->
  ev ∈ w_log w' ->
  (ev ∈ l_id /\ identify_event_ok p sb mime ev) \/
  (ev ∈ l_sc /\ scaling_event_ok p sb ev) \/
  (ev ∈ l_fin /\ exists P, cascade_event_ok p sb (final_name p sb) P ev).
Proof.
  intros [Hlog Hid _ _ (c & w2 & Hfin & _)] Hin.
  rewrite Hlog, !elem_of_app in Hin. destruct Hin as [Hin|[Hin|Hin]].
  - left. split; [done|]. rewrite Forall_forall in Hid. by apply Hid.
  - right. left. split; [done|].
    pose proof (fin_scaling _ _ _ _ _ _ _ _ _ _ Hfin) as Hsc.
    rewrite Forall_forall in Hsc. by apply Hsc.
  - right. right. split; [done|].
    destruct (fin_cascade _ _ _ _ _ _ _ _ _ _ Hfin) as [P HP].
    exists P. rewrite Forall_forall in HP. by apply HP.
Qed.

(** C10. When the detected content type does not start with [video/],
    [process_annotation] returns [None]; the extracted file is left under the
    safe base name with the MIME-derived extension and the initial [.tmp.bin]
    file is gone. *)
Theorem non_video_yields_no_record E dir ffmpeg ffprobe sf uv cc lin mg p
    pn ai sr rc ct fs n mime :
  MediaProcessor_init config_py dir ffmpeg ffprobe sf uv cc lin mg = Ok p ->
  let sb := safe_base_of pn ai sr in
  let run := process_annotation E p pn ai sr rc ct (mkWorld fs [] n) in
  EvDetected mime ∈ w_log run.2 ->
  startswith mime "video/" = false ->
  run.1 = Ok None /\
  is_Some (w_fs run.2 !! (sb +:+ _get_file_extension_from_mime p mime)) /\
  w_fs run.2 !! (sb +:+ ".tmp.bin") = None.
Proof.
  intros Hinit sb run Hdet Hnv.
  destruct (init_py_built _ _ _ _ _ _ _ _ _ Hinit) as (Hp & _).
  pose proof (process_annotation_spec E p Hp pn ai sr rc ct fs n) as Hspec.
  subst sb run. cbv zeta in Hspec.
  destruct Hspec as [[Hrun _]|(b & _ & _ & [Hcase|Hcase])].
  - rewrite Hrun in Hdet. by apply elem_of_nil in Hdet.
  - destruct Hcase as (mime0 & c & _ & Hres & Hev & _ & Hguess & Hinit0 & _).
    rewrite Forall_forall in Hev. specialize (Hev _ Hdet). cbn in Hev. subst mime0.
    split; [done|]. split; [by rewrite Hguess|done].
  - destruct Hcase as (mime0 & m & l_id & l_sc & l_fin & Hvideo & _ & Hpost).
    exfalso.
    destruct (video_run_event _ _ _ _ _ _ _ _ _ _ _ Hpost Hdet)
      as [[_ Hev]|[[_ Hev]|[_ [P Hev]]]]; cbn in Hev; try done.
    congruence.
Qed.

(** C7, amended. Without an encoder, a video item is returned as its
    extracted bytes under the canonical output name, safe base name and
    target extension, with the detected MIME type in the record; the run
    starts no encoder, only the prober and the content-type detection. *)
Theorem without_encoder_file_gets_target_name E dir ffmpeg ffprobe sf uv cc lin mg p
    pn ai sr rc ct fs n b mime :
  MediaProcessor_init config_py dir ffmpeg ffprobe sf uv cc lin mg = Ok p ->
  opt_str_truthy ffmpeg = false ->
  read_bytes sr = Ok b ->
  let sb := safe_base_of pn ai sr in
  let run := process_annotation E p pn ai sr rc ct (mkWorld fs [] n) in
  EvDetected mime ∈ w_log run.2 ->
  startswith mime "video/" = true ->
  run.1 = Ok (Some (item_of p pn ai rc (sb +:+ target_extension p) mime)) /\
  w_fs run.2 !! (sb +:+ target_extension p) = Some b /\
  Forall passive_event (w_log run.2).
Proof.
  intros Hinit Hff Hread sb run Hdet Hv.
  destruct (init_py_built _ _ _ _ _ _ _ _ _ Hinit) as (Hp & Hffp & _).
  assert (Hoff : enable_transcoding p = false).
  { by rewrite (built_enable p Hp), Hffp. }
  pose proof (process_annotation_spec E p Hp pn ai sr rc ct fs n) as Hspec.
  subst sb run. cbv zeta in Hspec.
  destruct Hspec as [[Hrun _]|(b' & Hread' & _ & [Hcase|Hcase])].
  - rewrite Hrun in Hdet. by apply elem_of_nil in Hdet.
  - destruct Hcase as (mime0 & c & Hnv & _ & Hev & _).
    rewrite Forall_forall in Hev. specialize (Hev _ Hdet). cbn in Hev. congruence.
  - destruct Hcase as (mime0 & m & l_id & l_sc & l_fin & _ & Hres & Hpost).
    assert (b' = b) as -> by congruence.
    pose proof Hpost as [Hlog Hid _ _ (c & w2 & Hfin & Hcb)].
    destruct (fin_disabled _ _ _ _ _ _ _ _ _ _ Hfin Hoff) as (-> & -> & -> & HF).
    rewrite !app_nil_r in Hlog.
    assert (mime = mime0) as <-.
    { rewrite Hlog in Hdet. rewrite Forall_forall in Hid. by apply (Hid _ Hdet). }
    rewrite Hffp in Hcb. rewrite (Hcb Hff) in HF.
    split; [done|]. split; [done|].
    rewrite Hlog. eapply Forall_impl; [exact Hid|].
    intros ev Hev. destruct ev; cbn in *; try done; try congruence.
    destruct Hev. congruence.
Qed.

(** What the clean-up does achieve.  When a run of [process_annotation]
    contains a successful final encode attempt, it returns the record of the
    canonical output path (safe base name and target extension), a file
    exists there, and none of these names is left: the initial [.tmp.bin]
    name, every temporary file created (pre-resize and per-attempt
    final-encode temporaries), the scaled intermediate and the H.264
    intermediate.  The extracted file under the name the identification step
    gave it is not among them. *)
Lemma successful_cascade_removes_temporaries E dir ffmpeg ffprobe sf uv cc lin mg p
    pn ai sr rc ct fs n :
  MediaProcessor_init config_py dir ffmpeg ffprobe sf uv cc lin mg = Ok p ->
  let sb := safe_base_of pn ai sr in
  let run := process_annotation E p pn ai sr rc ct (mkWorld fs [] n) in
  (exists i sc d e, EvFinalEncode i sc d e true ∈ w_log run.2) ->
  run.1 = Ok (Some (item_of p pn ai rc (sb +:+ target_extension p) (target_mime_type p))) /\
  is_Some (w_fs run.2 !! (sb +:+ target_extension p)) /\
  w_fs run.2 !! (sb +:+ ".tmp.bin") = None /\
  (forall t, EvTemp t ∈ w_log run.2 -> w_fs run.2 !! t = None) /\
  (forall i o ok, EvScaling i o ok ∈ w_log run.2 -> w_fs run.2 !! o = None) /\
  (forall i o ok, EvIntermediate i o ok ∈ w_log run.2 -> w_fs run.2 !! o = None).
Proof.
  intros Hinit sb run (i & sc & d & e & Hsucc).
  destruct (init_py_built _ _ _ _ _ _ _ _ _ Hinit) as (Hp & _).
  pose proof (process_annotation_spec E p Hp pn ai sr rc ct fs n) as Hspec.
  subst sb run. cbv zeta in Hspec.
  destruct Hspec as [[Hrun _]|(b & _ & _ & [Hcase|Hcase])].
  - rewrite Hrun in Hsucc. by apply elem_of_nil in Hsucc.
  - destruct Hcase as (mime0 & c & _ & _ & Hev & _).
    rewrite Forall_forall in Hev. by specialize (Hev _ Hsucc).
  - destruct Hcase as (mime & m & l_id & l_sc & l_fin & _ & Hres & Hpost).
    pose proof Hpost as [Hlog Hid _ Htmp_id (c & w2 & Hfin & _)].
    assert (Hm : m = target_mime_type p).
    { apply (fin_success _ _ _ _ _ _ _ _ _ _ Hfin). exists i, sc, d, e.
      destruct (video_run_event _ _ _ _ _ _ _ _ _ _ _ Hpost Hsucc)
        as [[_ Hev]|[[_ Hev]|[? _]]]; done. }
    subst m. split; [done|].
    split; [exact (fin_file _ _ _ _ _ _ _ _ _ _ Hfin)|].
    split; [exact (fin_initial _ _ _ _ _ _ _ _ _ _ Hfin)|].
    split_and!.
    + intros t Ht.
      destruct (video_run_event _ _ _ _ _ _ _ _ _ _ _ Hpost Ht)
        as [[Hin _]|[[_ Hev]|[Hin _]]]; [by apply Htmp_id|done|].
      by apply (fin_temps _ _ _ _ _ _ _ _ _ _ Hfin).
    + intros i' o ok Hin.
      destruct (video_run_event _ _ _ _ _ _ _ _ _ _ _ Hpost Hin)
        as [[_ Hev]|[[Hin' _]|[_ [P Hev]]]]; [done| |done].
      by apply (fin_scaled _ _ _ _ _ _ _ _ _ _ Hfin i' o ok).
    + intros i' o ok Hin.
      destruct (video_run_event _ _ _ _ _ _ _ _ _ _ _ Hpost Hin)
        as [[_ Hev]|[[_ Hev]|[Hin' _]]]; [done|done|].
      by apply (fin_inter _ _ _ _ _ _ _ _ _ _ Hfin i' o ok).
Qed.

Lemma get_video_info_failure E p path w :
  probe_failure E p path (w_fs w) ->
  exists w', _get_video_info E p path w = (Ok None, w') /\ w_fs w' = w_fs w.
Proof.
  intros Hfail. unfold _get_video_info.
  destruct (opt_str_truthy (ffprobe_path p)) eqn:Hprobe; cbn [negb]; [|by eexists].
  mrun os_path_exists_run.
  destruct (w_fs w !! path) as [c|] eqn:Hc.
  2:{ rewrite bool_decide_false by (by intros [? ?]). by eexists. }
  rewrite bool_decide_true by eauto. cbn [negb].
  rewrite try_except_run, try_except_run, bind_run, run_prober_run.
  destruct Hfail as [?|[?|[[e He]|[(rc & out & He & Hrc)|[He|[He|He]]]]]];
    try congruence; rewrite He; cbv beta iota.
  - destruct e; unfold catch_all; rewrite ret_run; by eexists.
  - apply Z.eqb_neq in Hrc. rewrite Hrc. rewrite ret_run. by eexists.
  - cbn [Z.eqb]. unfold json_loads. rewrite bind_run. unfold raise.
    cbv beta iota. rewrite ret_run. by eexists.
  - cbn [Z.eqb]. unfold json_loads. mrun ret_run. rewrite ret_run. by eexists.
  - cbn [Z.eqb]. unfold json_loads. mrun ret_run. rewrite ret_run. by eexists.
Qed.

(** C8. When the probe fails (see [probe_failure]), [_get_video_info]
    returns [None] without raising and without touching the directory; a
    [None] probe result makes [_perform_pre_resize] do nothing, and an unknown
    codec is not VAAPI-decodable: no attempt of the cascade asks for VAAPI
    decode of a file whose codec is unknown. *)
Theorem probe_failure_degrades_to_unknown E dir ffmpeg ffprobe sf uv cc lin mg p path w :
  MediaProcessor_init config_py dir ffmpeg ffprobe sf uv cc lin mg = Ok p ->
  probe_failure E p path (w_fs w) ->
  (* the probe returns None and leaves the directory alone *)
  (exists w', _get_video_info E p path w = (Ok None, w') /\ w_fs w' = w_fs w) /\
  (* without probe result there is no pre-resize *)
  (forall w1, _perform_pre_resize E p path None w1 = (Ok (false, path), w1)) /\
  (* an unknown codec is not VAAPI-decodable *)
  decode_vaapi_possible p None = false /\
  (* in the cascade, no attempt on a source of unknown codec asks for VAAPI
     decode, and there is no direct VAAPI attempt *)
  (forall pn ai sr inp w1,
     let sb := safe_base_of pn ai sr in
     codec_for_final_encode inp = None ->
     final_transcode_needed p (ext_for_final_encode inp) None = true ->
     enable_transcoding p = true ->
     path_for_final_encode inp <> inter_name sb ->
     let run := final_transcoding_stage E p sb inp w1 in
     forall i sc d e ok,
       EvFinalEncode i sc d e ok ∈ new_events w1 run.2 ->
       (sc = None -> d = false) /\
       (i = path_for_final_encode inp -> d = false)).
Proof.
  intros Hinit Hfail. split; [by apply get_video_info_failure|].
  split; [done|]. split; [unfold decode_vaapi_possible; by rewrite andb_false_r|].
  intros pn ai sr inp w1 sb Hcodec Hneed Hen HP run i sc d e ok Hin.
  destruct (init_py_built _ _ _ _ _ _ _ _ _ Hinit) as (Hp & _).
  rewrite <-Hcodec in Hneed.
  destruct (final_stage_transcode E p Hp sb (safe_base_of_safe pn ai sr) inp w1 Hneed Hen HP)
    as (r & io & w2 & Hrun & (tr & Hrel & Hshape & _) & Hstage).
  pose proof (casc_rel_log _ _ _ _ _ _ _ Hrel) as Htr.
  assert (Hlog : new_events w1 run.2 = new_events w1 w2).
  { unfold run. rewrite Hstage. destruct r; [done|].
    destruct (rename_to_total (path_for_final_encode inp) (final_name p sb) w2)
      as (path' & w3 & -> & Hlog & _).
    by apply new_events_same_log. }
  rewrite Hlog in Hin.
  assert (Hin' : EvFinalEncode i sc d e ok ∈ tr).
  { rewrite <-Htr. by apply attempts_elem. }
  rewrite Hcodec in Hshape.
  assert (Hdec : decode_vaapi_possible p None = false).
  { unfold decode_vaapi_possible. by rewrite andb_false_r. }
  assert (Hcpu : cpu_attempt_decode p None = false).
  { unfold cpu_attempt_decode. by rewrite Hdec. }
  clear -Hshape Hin' Hdec Hcpu HP.
  destruct Hshape; unfold direct_prefix in *; rewrite ?Hdec, ?Hcpu in *;
    cbn [app] in *; try done; in_inv Hin'; split; try done; congruence.
Qed.

Lemma final_splitext_ext p (Hp : built_from_config_py p) sb :
  safe_base sb -> (os_path_splitext (final_name p sb)).2 = target_extension p.
Proof.
  intros Hsb. unfold final_name.
  destruct (built_ext p Hp) as [-> | ->]; by rewrite splitext_safe.
Qed.

Lemma intermediate_audio_request p input out :
  audio_request (intermediate_h264_command p input out) = audio_copied.
Proof. reflexivity. Qed.

Lemma scaling_audio_request p f input out :
  audio_request (scaling_command p f input out) = audio_copied.
Proof. reflexivity. Qed.

Lemma pre_resize_audio_request p input t :
  config p = config_py ->
  audio_request (pre_resize_command p input t) = audio_copied.
Proof. intros Hc. unfold pre_resize_command. rewrite Hc. reflexivity. Qed.

Lemma final_encode_audio_request p input F sc d e t cmd :
  built_from_config_py p ->
  final_encode_command p input F (target_codec p) sc d e t = Ok cmd ->
  audio_request cmd = audio_reencoded (lower (os_path_splitext F).2).
Proof.
  intros Hp. unfold final_encode_command, final_video_args, final_output_args,
    audio_opts, audio_reencoded.
  rewrite (built_config p Hp).
  destruct (built_target p Hp) as [(-> & _)|[(-> & _)|(-> & _)]];
    destruct d, e, (vaapi_decodable sc), (String.eqb _ ".webm");
    intros [= <-]; reflexivity.
Qed.

Lemma pre_resize_encoder_command E p input info w cmd :
  EvEncoder cmd ∈ new_events w (_perform_pre_resize E p input info w).2 ->
  exists t, cmd = pre_resize_command p input t.
Proof.
  destruct (pre_resize_spec E p input info w) as (r & w' & -> & (l & Hlog & Hl) & _).
  cbn [snd]. rewrite (new_events_app _ _ _ Hlog). intros Hin.
  destruct Hl as [[-> _]|[_ [[-> _]|(t & -> & _)]]]; in_inv Hin. by exists t.
Qed.

Lemma scaling_step_encoder_command E p input out w cmd :
  EvEncoder cmd ∈ new_events w (_perform_scaling_step E p input out w).2 ->
  exists factor, scaling_factor p = Some factor /\
    cmd = scaling_command p factor input out.
Proof.
  unfold _perform_scaling_step. rewrite bind_run.
  destruct (scaling_factor p) as [factor|].
  2:{ rewrite ret_run. cbv beta iota. rewrite bind_run, emit_run. cbv beta iota.
      rewrite ret_run. cbn [snd].
      rewrite (new_events_app _ _ [EvScaling input out false]) by done.
      intros Hin. in_inv Hin. }
  destruct (opt_str_truthy (ffmpeg_path p)); cbn [negb].
  - destruct (encode_to_spec E (scaling_command p factor input out) out w)
      as (r & w' & Hrun & Hlog & _).
    rewrite Hrun. cbv beta iota. rewrite bind_run, emit_run. cbv beta iota.
    rewrite ret_run. cbn [snd].
    rewrite (new_events_app _ _ [EvEncoder (scaling_command p factor input out);
                                 EvScaling input out r]).
    2:{ cbn. by rewrite Hlog, <-app_assoc. }
    intros Hin. in_inv Hin. by exists factor.
  - rewrite ret_run. cbv beta iota. rewrite bind_run, emit_run. cbv beta iota.
    rewrite ret_run. cbn [snd].
    rewrite (new_events_app _ _ [EvScaling input out false]) by done.
    intros Hin. in_inv Hin.
Qed.

(** C6, amended. No final encode attempt copies the audio track.  The audio
    request of a final encode command depends on the extension of the final
    output path only: libopus at 96k for [.webm], aac at 128k for any other
    container.  Every encoder run of the final stage is either the H.264
    intermediate encode, which copies the audio, or a final encode attempt,
    which asks for the codec and bit rate of the target container, the same
    in all attempts.  The encodes before the final stage, pre-resize and
    scaling, copy the audio. *)
Theorem final_encode_audio_is_reencoded E dir ffmpeg ffprobe sf uv cc lin mg p
    pn ai sr inp w :
  MediaProcessor_init config_py dir ffmpeg ffprobe sf uv cc lin mg = Ok p ->
  let sb := safe_base_of pn ai sr in
  let P := path_for_final_encode inp in
  final_transcode_needed p (ext_for_final_encode inp) (codec_for_final_encode inp) = true ->
  enable_transcoding p = true ->
  P <> inter_name sb ->
  let run := final_transcoding_stage E p sb inp w in
  (* a final encode command: the container alone decides *)
  (forall input F sc d e t cmd,
     final_encode_command p input F (target_codec p) sc d e t = Ok cmd ->
     audio_request cmd = audio_reencoded (lower (os_path_splitext F).2)) /\
  (* the encoder runs of the final stage *)
  (forall cmd, EvEncoder cmd ∈ new_events w run.2 ->
     (* the intermediate H.264 encode *)
     cmd = intermediate_h264_command p P (inter_name sb) /\
     audio_request cmd = audio_copied \/
     (* a final encode attempt *)
     (exists input sc d e t,
        final_encode_command p input (final_name p sb) (target_codec p) sc d e t
          = Ok cmd) /\
     audio_request cmd = audio_reencoded (target_extension p)) /\
  (* the encoder runs of the pre-resize and of the scaling step *)
  (forall input info w0 cmd,
     EvEncoder cmd ∈ new_events w0 (_perform_pre_resize E p input info w0).2 ->
     audio_request cmd = audio_copied) /\
  (forall input out w0 cmd,
     EvEncoder cmd ∈ new_events w0 (_perform_scaling_step E p input out w0).2 ->
     audio_request cmd = audio_copied).
Proof.
  intros Hinit sb P Hneed Hen HP run.
  destruct (init_py_built _ _ _ _ _ _ _ _ _ Hinit) as (Hp & _).
  pose proof (safe_base_of_safe pn ai sr) as Hsb. fold sb in Hsb.
  split_and!.
  - intros input F sc d e t cmd. by apply final_encode_audio_request.
  - intros cmd Hin.
    destruct (final_stage_transcode E p Hp sb Hsb inp w Hneed Hen HP)
      as (r & io & w2 & Hrun & (tr & Hrel & _) & Hstage).
    assert (Hlog : new_events w run.2 = new_events w w2).
    { unfold run. rewrite Hstage. destruct r; [done|].
      destruct (rename_to_total (path_for_final_encode inp) (final_name p sb) w2)
        as (path' & w3 & -> & Hlog & _).
      by apply new_events_same_log. }
    rewrite Hlog in Hin.
    destruct Hrel as (l & Hl & _ & Hev & _).
    rewrite (new_events_app _ _ _ Hl) in Hin.
    rewrite Forall_forall in Hev. specialize (Hev _ Hin). cbn in Hev.
    destruct Hev as [->|(input & sc & d & e & t & Hcmd)]; [by left|right].
    split; [by eauto 10|].
    rewrite (final_encode_audio_request _ _ _ _ _ _ _ _ Hp Hcmd).
    rewrite (final_splitext_ext p Hp sb Hsb).
    by destruct (built_ext p Hp) as [-> | ->].
  - intros input info w0 cmd Hin.
    destruct (pre_resize_encoder_command _ _ _ _ _ _ Hin) as (t & ->).
    apply pre_resize_audio_request, (built_config p Hp).
  - intros input out w0 cmd Hin.
    destruct (scaling_step_encoder_command _ _ _ _ _ _ Hin) as (f & _ & ->).
    apply scaling_audio_request.
Qed.

(** C9. For a processor built by [MediaProcessor_init], no stage helper
    raises: each returns a value whatever the encoder or the prober do, the
    final encode command exists for the target codec with and without VAAPI
    encode (the ValueError branches are not taken), and [process_annotation]
    itself always returns. *)
Theorem no_exception_crosses_stage_boundary E dir ffmpeg ffprobe sf uv cc lin mg p :
  MediaProcessor_init config_py dir ffmpeg ffprobe sf uv cc lin mg = Ok p ->
  (forall path w, exists r w', _get_video_info E p path w = (Ok r, w')) /\
  (forall path info w, exists r w', _perform_pre_resize E p path info w = (Ok r, w')) /\
  (forall input out w, exists r w', _perform_scaling_step E p input out w = (Ok r, w')) /\
  (forall input out w,
     exists r w', _perform_intermediate_h264_encode E p input out w = (Ok r, w')) /\
  (forall input F sc d e temp,
     exists cmd, final_encode_command p input F (target_codec p) sc d e temp = Ok cmd) /\
  (forall input F sc d e w,
     exists r w',
       _perform_final_encode_step E p input F (target_codec p) sc d e w = (Ok r, w')) /\
  (forall pn ai sr rc ct fs n,
     exists r, (process_annotation E p pn ai sr rc ct (mkWorld fs [] n)).1 = Ok r).
Proof.
  intros Hinit.
  destruct (init_py_built _ _ _ _ _ _ _ _ _ Hinit) as (Hp & _).
  split_and!.
  - intros path w. destruct (get_video_info_spec E p path w) as (r & l & Hrun & _). eauto.
  - intros path info w. destruct (pre_resize_spec E p path info w) as (r & w' & Hrun & _).
    eauto.
  - intros input out w.
    destruct (scaling_step_spec E p input out w) as (r & w' & cmd & Hrun & _). eauto.
  - intros input out w.
    destruct (intermediate_spec E p input out w) as (r & w' & Hrun & _). eauto.
  - intros input F sc d e temp. apply final_encode_command_ok, (built_profile p Hp).
  - intros input F sc d e w.
    destruct (final_step_spec E p input F (target_codec p) sc d e w (built_profile p Hp e))
      as (r & w' & Hrun & _). eauto.
  - intros pn ai sr rc ct fs n.
    pose proof (process_annotation_spec E p Hp pn ai sr rc ct fs n) as Hspec.
    cbv zeta in Hspec.
    destruct Hspec as [[-> _]|(b & _ & _ & [Hcase|Hcase])].
    + by eexists.
    + destruct Hcase as (mime & c & _ & -> & _). by eexists.
    + destruct Hcase as (mime & m & l_id & l_sc & l_fin & _ & -> & _). by eexists.
Qed.

(** * Concrete runs *)

Ltac logged := apply list_elem_of_In; vm_compute; tauto.


Lemma preferred_format_is_only_renamed_witness :
  exists w',
    final_stage_and_return mp4_env cpu_processor 0 0 [] clip_base (clip_base +:+ ".tmp.bin")
      mp4_input mp4_dir
    = (Ok (Some (item_of cpu_processor 0 0 [] (clip_base +:+ ".mp4") "video/mp4")), w') /\
    w_log w' = [] /\
    w_fs w' !! (clip_base +:+ ".mp4") = Some clip_bytes.
Proof.
  destruct (preferred_format_is_only_renamed mp4_env cpu_processor 0 0 []
              clip_base (clip_base +:+ ".tmp.bin") mp4_input clip_bytes mp4_dir)
    as (w' & Hrun & Hlog & Hfile & _).
  - reflexivity.
  - reflexivity.
  - reflexivity.
  - exists w'. split; [exact Hrun|]. split; [exact Hlog | exact Hfile].
Defined.

Lemma exhausted_cascade_keeps_input_witness :
  let run := final_stage_and_return failing_env vaapi_processor 0 0 [] clip_base
               (clip_base +:+ ".tmp.bin") webm_input webm_dir in
  run.1 = Ok (Some (item_of vaapi_processor 0 0 [] (clip_base +:+ ".mp4") "video/webm")) /\
  w_fs run.2 !! (clip_base +:+ ".mp4") = Some clip_bytes.
Proof.
  apply (exhausted_cascade_keeps_input failing_env "out/videos"
           (Some "/usr/bin/ffmpeg") (Some "/usr/bin/ffprobe") None true (Some "h264")
           true true vaapi_processor 0 0 clip_stream [] (clip_base +:+ ".tmp.bin")
           webm_input clip_bytes webm_dir).
  - reflexivity.
  - reflexivity.
  - reflexivity.
  - vm_compute. discriminate.
  - reflexivity.
  - intros i sc d e Hin. apply list_elem_of_In in Hin. vm_compute in Hin.
    repeat (destruct Hin as [Hin|Hin]; [discriminate Hin|]). exact Hin.
Defined.

Lemma attempt_succeeds_iff_encoder_output_good_witness :
  (_perform_intermediate_h264_encode webm_env vaapi_processor (clip_base +:+ ".webm")
     (inter_name clip_base) webm_dir).1 = Ok true.
Proof.
  destruct (attempt_succeeds_iff_encoder_output_good webm_env vaapi_processor webm_dir)
    as (Hinter & _).
  - reflexivity.
  - destruct (Hinter (clip_base +:+ ".webm") (inter_name clip_base) 0%Z (OutWrite [Byte.x2a]))
      as (ok & Hrun & Hok).
    + reflexivity.
    + rewrite Hrun. f_equal. apply Hok. split; [reflexivity|].
      exists [Byte.x2a]. split; [reflexivity | vm_compute; lia].
Defined.

Lemma final_encode_audio_is_reencoded_witness :
  Forall (fun cmd => audio_request cmd = (["copy"], []) \/
                     audio_request cmd = (["aac"], ["128k"]))
    (encoder_commands
       (new_events webm_dir
          (final_transcoding_stage webm_env vaapi_processor clip_base webm_input
             webm_dir).2)).
Proof.
  destruct (final_encode_audio_is_reencoded webm_env "out/videos"
              (Some "/usr/bin/ffmpeg") (Some "/usr/bin/ffprobe") None true (Some "h264")
              true true vaapi_processor 0 0 clip_stream webm_input webm_dir)
    as (_ & Hstage & _).
  - reflexivity.
  - reflexivity.
  - reflexivity.
  - vm_compute. discriminate.
  - apply Forall_forall. intros cmd Hin.
    destruct (Hstage cmd) as [[_ H]|[_ H]]; [|left; exact H|right; exact H].
    apply list_elem_of_omap in Hin as (ev & Hev & Hcmd).
    destruct ev; try discriminate Hcmd. injection Hcmd as ->. exact Hev.
Defined.

Lemma without_encoder_file_gets_target_name_witness :
  let run := process_annotation quicktime_env bare_processor 0 0 clip_stream [] "video/webm"
               empty_dir in
  run.1 = Ok (Some (item_of bare_processor 0 0 [] (clip_base +:+ ".mp4") "video/quicktime")) /\
  w_fs run.2 !! (clip_base +:+ ".mp4") = Some clip_bytes /\
  Forall passive_event (w_log run.2).
Proof.
  apply (without_encoder_file_gets_target_name quicktime_env "out/videos" None
           (Some "/usr/bin/ffprobe") None false (Some "h264") true true bare_processor
           0 0 clip_stream [] "video/webm" ∅ 0 clip_bytes "video/quicktime").
  - reflexivity.
  - reflexivity.
  - reflexivity.
  - logged.
  - reflexivity.
Defined.

Lemma probe_failure_degrades_to_unknown_witness :
  exists w',
    _get_video_info png_env vaapi_processor (clip_base +:+ ".webm") webm_dir = (Ok None, w') /\
    w_fs w' = w_fs webm_dir.
Proof.
  destruct (probe_failure_degrades_to_unknown png_env "out/videos"
              (Some "/usr/bin/ffmpeg") (Some "/usr/bin/ffprobe") None true (Some "h264")
              true true vaapi_processor (clip_base +:+ ".webm") webm_dir)
    as (Hprobe & _).
  - reflexivity.
  - right. right. right. left. exists 1%Z, StdoutUnparseable.
    split; [reflexivity | lia].
  - exact Hprobe.
Defined.

Lemma no_exception_crosses_stage_boundary_witness :
  exists r,
    (process_annotation failing_env vaapi_processor 0 0 clip_stream [] "video/webm"
       empty_dir).1 = Ok r.
Proof.
  destruct (no_exception_crosses_stage_boundary failing_env "out/videos"
              (Some "/usr/bin/ffmpeg") (Some "/usr/bin/ffprobe") None true (Some "h264")
              true true vaapi_processor)
    as (_ & _ & _ & _ & _ & _ & Hrun).
  - reflexivity.
  - exact (Hrun 0%Z 0%Z clip_stream [] "video/webm" ∅ 0%nat).
Defined.

Lemma non_video_yields_no_record_witness :
  let run := process_annotation png_env vaapi_processor 0 0 clip_stream [] "video/webm"
               empty_dir in
  run.1 = Ok None /\
  is_Some (w_fs run.2 !! (clip_base +:+ ".png")) /\
  w_fs run.2 !! (clip_base +:+ ".tmp.bin") = None.
Proof.
  apply (non_video_yields_no_record png_env "out/videos"
           (Some "/usr/bin/ffmpeg") (Some "/usr/bin/ffprobe") None true (Some "h264")
           true true vaapi_processor 0 0 clip_stream [] "video/webm" ∅ 0 "image/png").
  - reflexivity.
  - logged.
  - reflexivity.
Defined.

(** C6 as stated fails: transcoding a QuickTime/H.264 clip to MP4 takes one
    encoder run, a final encode; its command line re-encodes the audio to AAC
    at 128k and asks for no stream copy, and no output name makes a final
    encode copy the audio. *)
Lemma final_encode_never_copies_audio :
  let run := process_annotation quicktime_env vaapi_processor 0 0 clip_stream [] "video/webm"
               empty_dir in
  EvFinalEncode (clip_base +:+ ".mov") (Some "h264") true true true ∈ w_log run.2 /\
  (exists video rest,
     encoder_commands (w_log run.2) = [video ++ aac_128k ++ rest] /\
     "copy" ∉ video ++ aac_128k ++ rest) /\
  ~ (exists F, audio_opts (lower (os_path_splitext F).2) = audio_copy).
Proof.
  split; [logged|]. split.
  - exists ["/usr/bin/ffmpeg"; "-y"; "-init_hw_device"; "vaapi=va";
            "-filter_hw_device"; "va"; "-hwaccel"; "vaapi";
            "-hwaccel_device"; "va"; "-hwaccel_output_format"; "vaapi"; "-i";
            "out/videos/slide_1_annot_1_12_0.mov"; "-map"; "0:v:0"; "-map";
            "0:a:0?"; "-vf"; "hwupload,scale_vaapi=w=iw:h=ih:format=nv12";
            "-c:v"; "h264_vaapi"; "-qp"; "23"; "-profile:v"; "high"],
           ["-map_metadata"; "0"; "-map_chapters"; "0"; "-threads"; "0";
            "-movflags"; "+faststart";
            "out/videos/slide_1_annot_1_12_0_final_vaapi_k3x9.mp4"].
    split; [by vm_compute|].
    intros Hin%list_elem_of_In. vm_compute in Hin.
    repeat (destruct Hin as [Hin|Hin]; [discriminate Hin|]). exact Hin.
  - intros [F HF]. unfold audio_opts in HF.
    by destruct (String.eqb _ ".webm").
Qed.

(** C7 as stated fails: without an encoder, a clip detected as
    video/quicktime, whose MIME-derived extension is .mov, ends under the
    target name with extension .mp4; no file with extension .mov is left. *)
Lemma without_encoder_name_is_not_mime_derived :
  let run := process_annotation quicktime_env bare_processor 0 0 clip_stream [] "video/webm"
               empty_dir in
  ffmpeg_path bare_processor = None /\
  EvDetected "video/quicktime" ∈ w_log run.2 /\
  _get_file_extension_from_mime bare_processor "video/quicktime" = ".mov" /\
  w_fs run.2 !! (clip_base +:+ ".mov") = None /\
  w_fs run.2 !! (clip_base +:+ ".mp4") = Some clip_bytes /\
  run.1 = Ok (Some (item_of bare_processor 0 0 [] (clip_base +:+ ".mp4") "video/quicktime")).
Proof.
  split_and!; try logged; by vm_compute.
Qed.

(** C3. The claim fails on the code.  A QuickTime/H.264 clip is transcoded
    to WebM/VP9 by a cascade whose CPU attempt succeeds.  When
    [process_annotation] returns, the directory holds two files: the output
    at the canonical path and the extracted stream, still there under the
    MIME-derived name [.mov] it was renamed to at line 463.  The clean-up of
    lines 708-711 looks for the [.tmp.bin] name, which the file no longer
    has.  With a scaling factor of 50 the scaling stage deletes the renamed
    file after its encode (lines 500-505), and the same clip leaves the
    output alone. *)
Theorem successful_cascade_leaves_extracted_file :
  let run := process_annotation quicktime_env vp9_processor 0 0 clip_stream []
               "video/quicktime" empty_dir in
  let scaled_run := process_annotation quicktime_env vp9_half_size_processor 0 0
                      clip_stream [] "video/quicktime" empty_dir in
  (* without scaling: one attempt, successful; the record; two files *)
  final_attempts (w_log run.2)
    = [EvFinalEncode (clip_base +:+ ".mov") (Some "h264") true false true] /\
  run.1 = Ok (Some (item_of vp9_processor 0 0 [] (clip_base +:+ ".webm") "video/webm")) /\
  size (w_fs run.2) = 2 /\
  w_fs run.2 !! (clip_base +:+ ".webm") = Some [Byte.x2a] /\
  w_fs run.2 !! (clip_base +:+ ".mov") = Some clip_bytes /\
  (* with scaling: one attempt, successful; the record; one file *)
  final_attempts (w_log scaled_run.2)
    = [EvFinalEncode (scaled_name clip_base) (Some "h264") true false true] /\
  scaled_run.1
    = Ok (Some (item_of vp9_half_size_processor 0 0 [] (clip_base +:+ ".webm")
                  "video/webm")) /\
  size (w_fs scaled_run.2) = 1 /\
  w_fs scaled_run.2 !! (clip_base +:+ ".webm") = Some [Byte.x2a].
Proof. vm_compute. by repeat split. Qed.

(** * Construction of the processor *)

Lemma str_in_elem s l : str_in s l = true <-> s ∈ l.
Proof.
  induction l as [|x l IH]; simpl.
  - split; [done|by intros ?%elem_of_nil].
  - rewrite orb_true_iff, IH, elem_of_cons.
    by destruct (String.eqb_spec s x); intuition.
Qed.

Lemma init_py_codec dir ffmpeg ffprobe sf uv cc lin mg :
  exists p,
    MediaProcessor_init config_py dir ffmpeg ffprobe sf uv cc lin mg = Ok p /\
    target_codec p = effective_codec cc /\
    dict_get (CODEC_FORMAT_MAP config_py) (target_codec p)
      = Some {| fi_ext := Some (target_extension p);
                fi_mime := Some (target_mime_type p);
                fi_container_opts := Some (target_container_opts p) |}.
Proof.
  unfold MediaProcessor_init, effective_codec.
  destruct cc as [c|]; [|by eexists].
  destruct (str_in c (ALLOWED_VIDEO_CODECS config_py)) eqn:Hin.
  - apply str_in_elem in Hin. cbn [ALLOWED_VIDEO_CODECS config_py] in Hin.
    repeat (apply elem_of_cons in Hin as [->|Hin]; [by eexists|]).
    by apply elem_of_nil in Hin.
  - unfold _determine_target_format. rewrite Hin. by eexists.
Qed.

(** X1. With config.py the constructor never raises, whatever codec is asked
    for: an allowed codec becomes the target codec, any other choice (or
    none) falls back to h264, and the target extension, MIME type and
    container options are those [CODEC_FORMAT_MAP] lists for the target
    codec. *)
Theorem construction_settles_on_allowed_codec dir ffmpeg ffprobe sf uv cc lin mg :
  exists p,
    MediaProcessor_init config_py dir ffmpeg ffprobe sf uv cc lin mg = Ok p /\
    target_codec p = effective_codec cc /\
    target_codec p ∈ ALLOWED_VIDEO_CODECS config_py /\
    dict_get (CODEC_FORMAT_MAP config_py) (target_codec p)
      = Some {| fi_ext := Some (target_extension p);
                fi_mime := Some (target_mime_type p);
                fi_container_opts := Some (target_container_opts p) |} /\
    user_codec_choice p = cc.
Proof.
  destruct (init_py_codec dir ffmpeg ffprobe sf uv cc lin mg) as (p & Hinit & Htc & Hmap).
  exists p. split_and!; try done.
  - rewrite Htc. unfold effective_codec.
    destruct cc as [c|]; [|by apply str_in_elem].
    destruct (str_in c _) eqn:Hin; by apply str_in_elem.
  - by destruct (init_py_built _ _ _ _ _ _ _ _ _ Hinit) as (_ & _ & _ & ? & _).
Qed.

(** X2. With config.py, VAAPI is enabled exactly when it was requested, an
    encoder is installed and the platform is Linux; it is then usable for
    encoding to the target codec, and transcoding is enabled. *)
Theorem vaapi_enabled_iff_requested_on_linux_with_encoder
    dir ffmpeg ffprobe sf uv cc lin mg p :
  MediaProcessor_init config_py dir ffmpeg ffprobe sf uv cc lin mg = Ok p ->
  use_vaapi p = uv && opt_str_truthy ffmpeg && lin /\
  encode_vaapi_possible p = use_vaapi p /\
  (use_vaapi p = true -> enable_transcoding p = true) /\
  (forall codec, decode_vaapi_possible p codec = true ->
     use_vaapi p = true /\ exists c, codec = Some c /\ c ∈ VAAPI_DECODABLE_CODECS).
Proof.
  intros Hinit.
  destruct (init_py_built _ _ _ _ _ _ _ _ _ Hinit) as (Hp & Hff & _).
  assert (Huse : use_vaapi p = uv && opt_str_truthy ffmpeg && lin).
  { revert Hinit. unfold MediaProcessor_init.
    destruct (determine_target_format_py cc) as (c & e & m & o & -> & _).
    intros [= <-]. cbn [use_vaapi]. unfold _validate_vaapi_request.
    destruct uv, (opt_str_truthy ffmpeg), lin; reflexivity. }
  split_and!; [done|by apply built_encode_vaapi| |].
  - intros Hv. rewrite (built_enable p Hp). by apply (built_vaapi p Hp).
  - intros codec. unfold decode_vaapi_possible.
    intros [[Hv _]%andb_prop Hdec]%andb_prop. split; [done|].
    destruct codec as [c|]; [|done]. exists c. split; [done|].
    by apply str_in_elem.
Qed.

Lemma vaapi_enabled_iff_requested_on_linux_with_encoder_witness :
  use_vaapi vaapi_processor = true /\ encode_vaapi_possible vaapi_processor = true.
Proof.
  destruct (vaapi_enabled_iff_requested_on_linux_with_encoder "out/videos"
    (Some "/usr/bin/ffmpeg") (Some "/usr/bin/ffprobe") None true (Some "h264") true true
    vaapi_processor) as (Huse & Henc & _).
  - reflexivity.
  - rewrite Henc, Huse. split; reflexivity.
Defined.

(** * Extensions from MIME types *)

(** X3. With config.py, whatever string is given as MIME type, the extension
    is a dot followed by at least one character, all of them letters, digits,
    ['-'] or ['+']: no second dot, no path separator, no blank. *)
Theorem mime_extension_is_one_safe_suffix p mime :
  config p = config_py ->
  exists s, _get_file_extension_from_mime p mime = String "." s /\
    s <> "" /\ str_forallb ext_char s = true.
Proof.
  intros Hcfg. unfold _get_file_extension_from_mime. rewrite Hcfg.
  assert (Hbin : exists s, ".bin" = String "." s /\ s <> "" /\ str_forallb ext_char s = true)
    by (by exists "bin").
  destruct (contains_char "/" mime); cbn [negb]; [|done].
  destruct (first_ext_for_mime _ mime) as [e|] eqn:He1.
  { apply first_ext_elem in He1 as (fi & Hin & ->).
    change (dict_values (CODEC_FORMAT_MAP config_py)) with
      (map snd (CODEC_FORMAT_MAP config_py)) in Hin.
    cbn [CODEC_FORMAT_MAP config_py map snd] in Hin.
    repeat (apply elem_of_cons in Hin as [->|Hin]; [by eexists|]).
    by apply elem_of_nil in Hin. }
  destruct (dict_get common_mime_map mime) as [e|] eqn:He2.
  { apply dict_get_elem in He2 as [k Hin]. unfold common_mime_map in Hin.
    repeat (apply elem_of_cons in Hin as [[= _ ->]|Hin]; [by eexists|]).
    by apply elem_of_nil in Hin. }
  destruct (str_truthy _) eqn:Ht; [|done].
  eexists. split; [done|]. split; [|apply str_forallb_filter].
  intros Heq. by rewrite Heq in Ht.
Qed.

Lemma mime_extension_is_one_safe_suffix_witness :
  exists s, _get_file_extension_from_mime vaapi_processor "video/../../x.sh; a=b" = String "." s /\
    s <> "" /\ str_forallb ext_char s = true.
Proof.
  apply (mime_extension_is_one_safe_suffix vaapi_processor "video/../../x.sh; a=b").
  reflexivity.
Defined.

(** X4. The extension derived from the target MIME type is the target
    extension: a file detected as being of the target type already carries
    the canonical output name after the identification step. *)
Theorem target_mime_type_maps_to_target_extension
    dir ffmpeg ffprobe sf uv cc lin mg p :
  MediaProcessor_init config_py dir ffmpeg ffprobe sf uv cc lin mg = Ok p ->
  _get_file_extension_from_mime p (target_mime_type p) = target_extension p /\
  (forall sb, sb +:+ _get_file_extension_from_mime p (target_mime_type p) = final_name p sb).
Proof.
  intros Hinit.
  destruct (init_py_built _ _ _ _ _ _ _ _ _ Hinit) as (Hp & _).
  assert (Hext : _get_file_extension_from_mime p (target_mime_type p) = target_extension p).
  { unfold _get_file_extension_from_mime. rewrite (built_config p Hp).
    destruct (built_target p Hp) as [(_ & -> & ->)|[(_ & -> & ->)|(_ & -> & ->)]];
      reflexivity. }
  split; [done|]. intros sb. unfold final_name. by rewrite Hext.
Qed.

Lemma target_mime_type_maps_to_target_extension_witness :
  _get_file_extension_from_mime vaapi_processor (target_mime_type vaapi_processor)
  = target_extension vaapi_processor.
Proof.
  apply (target_mime_type_maps_to_target_extension "out/videos"
    (Some "/usr/bin/ffmpeg") (Some "/usr/bin/ffprobe") None true (Some "h264") true true
    vaapi_processor).
  reflexivity.
Defined.

(** * The entry decision of the final stage *)

Lemma py_allowed_cases c :
  c ∈ ALLOWED_VIDEO_CODECS config_py -> c = "h264" \/ c = "vp9" \/ c = "av1".
Proof.
  cbn [ALLOWED_VIDEO_CODECS config_py]. intros Hin.
  repeat (apply elem_of_cons in Hin as [->|Hin]; [tauto|]).
  by apply elem_of_nil in Hin.
Qed.

Lemma py_format_map_keys c :
  dict_get (CODEC_FORMAT_MAP config_py) c = None <-> c ∉ ALLOWED_VIDEO_CODECS config_py.
Proof.
  cbn [CODEC_FORMAT_MAP ALLOWED_VIDEO_CODECS config_py dict_get].
  rewrite !not_elem_of_cons.
  destruct (String.eqb_spec "h264" c) as [<-|?]; [split; [done|tauto]|].
  destruct (String.eqb_spec "vp9" c) as [<-|?]; [split; [done|tauto]|].
  destruct (String.eqb_spec "av1" c) as [<-|?]; [split; [done|tauto]|].
  split; [|done]. intros _. split_and!; try done. apply not_elem_of_nil.
Qed.

Lemma py_preferred_cases p ext codec :
  config p = config_py ->
  is_preferred_format p ext codec = true <->
  (ext = ".mp4" /\ codec = Some "h264") \/
  (ext = ".webm" /\ (codec = Some "vp9" \/ codec = Some "av1")).
Proof.
  intros Hcfg. unfold is_preferred_format. rewrite Hcfg.
  cbn [PREFERRED_FORMATS config_py dict_get].
  destruct (String.eqb_spec ".mp4" ext) as [<-|Hmp4].
  { destruct codec as [c|]; cbn [list_truthy andb str_in orb].
    - destruct (String.eqb_spec c "h264") as [->|?]; [by intuition|].
      split; [done|]. intros [[_ [= ?]]|[[= ?] _]]; done.
    - split; [done|]. intros [[_ [= ?]]|[[= ?] _]]; done. }
  destruct (String.eqb_spec ".webm" ext) as [<-|Hwebm].
  { destruct codec as [c|]; cbn [list_truthy andb str_in orb].
    - destruct (String.eqb_spec c "vp9") as [->|?]; [by intuition|].
      destruct (String.eqb_spec c "av1") as [->|?]; [by intuition|].
      split; [done|]. intros [[[= ?] _]|[_ [[= ?]|[= ?]]]]; done.
    - split; [done|]. intros [[[= ?] _]|[_ [[= ?]|[= ?]]]]; done. }
  split; [done|]. intros [[? _]|[? _]]; by subst.
Qed.

(** X5. When a codec was asked for explicitly and it is an allowed one, the
    final transcode is skipped exactly for a file that already has that codec
    and the extension of its container; when the codec asked for is not an
    allowed one, every file is transcoded (to the h264 fallback). *)
Theorem explicit_codec_skips_only_files_already_in_target_format
    dir ffmpeg ffprobe sf uv c lin mg p ext codec :
  MediaProcessor_init config_py dir ffmpeg ffprobe sf uv (Some c) lin mg = Ok p ->
  c <> "" ->
  (c ∈ ALLOWED_VIDEO_CODECS config_py ->
   target_codec p = c /\
   (final_transcode_needed p ext codec = false <->
    codec = Some c /\ ext = target_extension p)) /\
  (c ∉ ALLOWED_VIDEO_CODECS config_py ->
   target_codec p = "h264" /\ final_transcode_needed p ext codec = true).
Proof.
  intros Hinit Hc.
  destruct (init_py_built _ _ _ _ _ _ _ _ _ Hinit) as (Hp & _ & _ & Hcc & _).
  destruct (init_py_codec dir ffmpeg ffprobe sf uv (Some c) lin mg)
    as (p' & Hinit' & Htc & _).
  rewrite Hinit in Hinit'. injection Hinit' as <-.
  assert (Htruthy : str_truthy c = true) by (by destruct c).
  unfold final_transcode_needed, explicit_change, is_preferred_format.
  rewrite Hcc, Htruthy, (built_config p Hp).
  split.
  - intros Hin. unfold effective_codec in Htc.
    rewrite (proj2 (str_in_elem _ _) Hin) in Htc. split; [done|].
    destruct (built_target p Hp) as [(Ht & -> & _)|[(Ht & -> & _)|(Ht & -> & _)]];
      rewrite Ht in Htc; subst c; cbn [CODEC_FORMAT_MAP config_py dict_get String.eqb
        Ascii.eqb Bool.eqb format_info_truthy fi_ext default];
      (split; [intros [Hpref [Hcodec Hext]%orb_false_elim]%orb_false_elim;
               apply negb_false_iff in Hcodec, Hext;
               apply bool_decide_eq_true in Hcodec; apply String.eqb_eq in Hext;
               by subst
              |intros [-> ->]; by vm_compute]).
  - intros Hnin. unfold effective_codec in Htc.
    destruct (str_in c (ALLOWED_VIDEO_CODECS config_py)) eqn:Hin;
      [by apply str_in_elem in Hin|].
    split; [done|].
    rewrite (proj2 (py_format_map_keys c) Hnin).
    destruct (is_preferred_format p ext codec) eqn:Hpref.
    + apply (py_preferred_cases p ext codec (built_config p Hp)) in Hpref.
      unfold is_preferred_format in *. 
      apply orb_true_iff. right. apply orb_true_iff. right.
      destruct Hpref as [[-> _]|[-> _]]; reflexivity.
    + unfold is_preferred_format in Hpref. rewrite (built_config p Hp) in Hpref.
      by rewrite Hpref.
Qed.

Lemma explicit_codec_skips_only_files_already_in_target_format_witness :
  final_transcode_needed vaapi_processor ".mp4" (Some "h264") = false /\
  final_transcode_needed vaapi_processor ".mov" (Some "h264") = true.
Proof.
  destruct (explicit_codec_skips_only_files_already_in_target_format "out/videos"
    (Some "/usr/bin/ffmpeg") (Some "/usr/bin/ffprobe") None true "h264" true true
    vaapi_processor ".mp4" (Some "h264")) as [Hallowed _].
  - reflexivity.
  - discriminate.
  - destruct Hallowed as [_ Hiff].
    + apply str_in_elem. reflexivity.
    + split; [apply Hiff; split; reflexivity | reflexivity].
Defined.

(** X6. When no codec was asked for, the final transcode is skipped exactly
    for the pairs of the preferred-formats table: H.264 in [.mp4], and VP9 or
    AV1 in [.webm]; an unknown codec always leads to a transcode. *)
Theorem default_codec_skips_exactly_preferred_formats
    dir ffmpeg ffprobe sf uv lin mg p ext codec :
  MediaProcessor_init config_py dir ffmpeg ffprobe sf uv None lin mg = Ok p ->
  (final_transcode_needed p ext codec = false <->
   (ext = ".mp4" /\ codec = Some "h264") \/
   (ext = ".webm" /\ (codec = Some "vp9" \/ codec = Some "av1"))) /\
  final_transcode_needed p ext None = true.
Proof.
  intros Hinit.
  destruct (init_py_built _ _ _ _ _ _ _ _ _ Hinit) as (Hp & _ & _ & Hcc & _).
  assert (Hneed : forall codec', final_transcode_needed p ext codec'
                                 = negb (is_preferred_format p ext codec')).
  { intros codec'. unfold final_transcode_needed, explicit_change.
    rewrite Hcc. apply orb_false_r. }
  split.
  - rewrite Hneed, negb_false_iff. apply py_preferred_cases, (built_config p Hp).
  - rewrite Hneed. apply negb_true_iff.
    destruct (is_preferred_format p ext None) eqn:Hpref; [|done].
    apply (py_preferred_cases p ext None (built_config p Hp)) in Hpref.
    destruct Hpref as [[_ [=]]|[_ [[=]|[=]]]].
Qed.

Lemma default_codec_skips_exactly_preferred_formats_witness :
  final_transcode_needed cpu_processor ".webm" (Some "vp9") = false.
Proof.
  apply (default_codec_skips_exactly_preferred_formats "out/videos"
    (Some "/usr/bin/ffmpeg") (Some "/usr/bin/ffprobe") None false true true
    cpu_processor ".webm" (Some "vp9")).
  - reflexivity.
  - right. split; [reflexivity | left; reflexivity].
Defined.

(** * The scaling factor *)

(** X7. The scaling stage is a no-op, leaving the world as it is and handing
    the current file on unchanged, unless the factor given to the
    constructor is between 1 and 99 and an encoder is installed: a missing
    factor, 100, or a value out of range is ignored without an error. *)
Theorem scaling_skipped_unless_factor_below_100
    E dir ffmpeg ffprobe sf uv cc lin mg p sb init cur sc mime w :
  MediaProcessor_init config_py dir ffmpeg ffprobe sf uv cc lin mg = Ok p ->
  (forall f, sf = Some f -> (f < 1 \/ 99 < f)%Z) \/ opt_str_truthy ffmpeg = false ->
  scaling_stage E p sb init cur sc mime w = (Ok (unscaled_input cur sc mime), w).
Proof.
  intros Hinit Hskip.
  destruct (init_py_built _ _ _ _ _ _ _ _ _ Hinit) as (Hp & Hff & _ & _ & Hsf & _).
  unfold scaling_stage.
  assert (Hoff : needs_scaling p && enable_transcoding p = false).
  { rewrite (built_enable p Hp), Hff. unfold needs_scaling. rewrite Hsf.
    destruct Hskip as [Hrange| ->]; [|apply andb_false_r].
    destruct sf as [f|]; [|done]. simpl.
    destruct (Hrange f eq_refl) as [Hlow|Hhigh].
    - by rewrite (proj2 (Z.leb_gt 1 f)) by lia.
    - destruct (1 <=? f)%Z; [|done]. simpl.
      destruct (Z.leb_spec f 100); [|done]. simpl.
      rewrite andb_false_iff. left. apply negb_false_iff, Z.eqb_eq. lia. }
  by rewrite Hoff.
Qed.

Lemma scaling_skipped_unless_factor_below_100_witness :
  scaling_stage webm_env
    (constructed (MediaProcessor_init config_py "out/videos" (Some "/usr/bin/ffmpeg")
                    (Some "/usr/bin/ffprobe") (Some 100%Z) false None true true))
    clip_base (clip_base +:+ ".tmp.bin") (clip_base +:+ ".webm") (Some "vp8") "video/webm"
    webm_dir
  = (Ok (unscaled_input (clip_base +:+ ".webm") (Some "vp8") "video/webm"), webm_dir).
Proof.
  apply (scaling_skipped_unless_factor_below_100 webm_env "out/videos"
    (Some "/usr/bin/ffmpeg") (Some "/usr/bin/ffprobe") (Some 100%Z) false None true true).
  - reflexivity.
  - left. intros f [= <-]. right. lia.
Defined.

(** The VAAPI flag of a processor built from config.py. *)
Lemma vaapi_flag_py dir ffmpeg ffprobe sf uv cc lin mg p :
  MediaProcessor_init config_py dir ffmpeg ffprobe sf uv cc lin mg = Ok p ->
  use_vaapi p = uv && opt_str_truthy ffmpeg && lin.
Proof.
  unfold MediaProcessor_init.
  destruct (determine_target_format_py cc) as (c & e & m & o & -> & _).
  intros [= <-]. cbn [use_vaapi]. unfold _validate_vaapi_request.
  destruct uv, (opt_str_truthy ffmpeg), lin; reflexivity.
Qed.

(** * Probing *)

Lemma Z_truthy_ne z : Z_truthy z = true <-> z <> 0%Z.
Proof. unfold Z_truthy. rewrite negb_true_iff. apply Z.eqb_neq. Qed.

Lemma str_truthy_ne s : str_truthy s = true <-> s <> "".
Proof. by destruct s. Qed.

(** X8. [_get_video_info] never changes the directory, and it returns the
    dimensions and codec exactly when a prober is configured, the file
    exists, the prober exits with status 0 and the first stream of its report
    has a width and a height other than 0 and a codec name that is not
    empty; later streams are not looked at. *)
Theorem video_info_known_iff_first_stream_complete E p path w vi :
  w_fs (_get_video_info E p path w).2 = w_fs w /\
  ((_get_video_info E p path w).1 = Ok (Some vi) <->
   opt_str_truthy (ffprobe_path p) = true /\
   is_Some (w_fs w !! path) /\
   exists s rest,
     ffprobe_run E (ffprobe_command p path) (w_fs w)
       = ProbeCompleted 0 (StdoutReport (Some (s :: rest))) /\
     st_width s = Some (width vi) /\ st_height s = Some (height vi) /\
     st_codec_name s = Some (codec_name vi) /\
     width vi <> 0%Z /\ height vi <> 0%Z /\ codec_name vi <> "").
Proof.
  split.
  { destruct (get_video_info_spec E p path w) as (r & l & -> & _). done. }
  unfold _get_video_info.
  destruct (opt_str_truthy (ffprobe_path p)) eqn:Hprobe; cbn [negb];
    [|split; [done|by intros [? _]]].
  rewrite bind_run, os_path_exists_run. cbv beta iota.
  destruct (w_fs w !! path) as [c|] eqn:Hc.
  2:{ rewrite bool_decide_false by (by intros [? ?]). cbn [negb].
      split; [done|]. by intros (_ & [? ?] & _). }
  rewrite bool_decide_true by eauto. cbn [negb].
  rewrite try_except_run, try_except_run, bind_run, run_prober_run.
  destruct (ffprobe_run E _ _) as [rc out|e] eqn:Hrun; cbv beta iota.
  2:{ destruct e; unfold catch_all; rewrite ret_run; cbn;
        (split; [done|]; by intros (_ & _ & s & rest & [=] & _)). }
  destruct (Z.eqb_spec rc 0) as [->|Hrc].
  2:{ rewrite ret_run. cbn. split; [done|].
      by intros (_ & _ & s & rest & [= ? _] & _). }
  destruct out as [|streams]; unfold json_loads.
  { rewrite bind_run. unfold raise. cbv beta iota. rewrite ret_run. cbn.
    split; [done|]. by intros (_ & _ & s & rest & [=] & _). }
  rewrite bind_run, ret_run. cbv beta iota.
  destruct streams as [[|s rest]|].
  1,3: rewrite ret_run; cbn; (split; [done|]; by intros (_ & _ & s & rest & [=] & _)).
  destruct (st_width s) as [sw|] eqn:Hw, (st_height s) as [sh|] eqn:Hh,
    (st_codec_name s) as [sc|] eqn:Hn;
    try (rewrite ret_run; cbn; split; [done|];
         intros (_ & _ & s' & rest' & [= <- _] & ? & ? & ? & _); congruence).
  destruct (Z_truthy sw && Z_truthy sh && str_truthy sc) eqn:Ht; rewrite ret_run; cbn.
  - apply andb_prop in Ht as [[Hw1%Z_truthy_ne Hh1%Z_truthy_ne]%andb_prop Hc1%str_truthy_ne].
    split.
    + intros [= <-]. cbn. split_and!; eauto 10.
    + intros (_ & _ & s' & rest' & [= <- _] & Hw2 & Hh2 & Hn2 & _).
      destruct vi as [vw vh vc]. cbn in *. congruence.
  - split; [done|].
    intros (_ & _ & s' & rest' & [= <- _] & Hw2 & Hh2 & Hn2 & Hw3 & Hh3 & Hn3).
    assert (sw = width vi /\ sh = height vi /\ sc = codec_name vi) as (-> & -> & ->)
      by (split_and!; congruence).
    apply Z_truthy_ne in Hw3. apply Z_truthy_ne in Hh3. apply str_truthy_ne in Hn3.
    by rewrite Hw3, Hh3, Hn3 in Ht.
Qed.

(** * Pre-resize *)

(** X9. [_perform_pre_resize] never raises and always hands back the path it
    was given.  When it reports no resize, the directory is exactly as
    before: the source file is untouched and no temporary file is left.  When
    it reports a resize, only the source file changed, replaced by a file
    that is not empty, and this happens only with an encoder installed and a
    video wider or higher than the configured limits. *)
Theorem pre_resize_replaces_in_place_or_changes_nothing E p input info w :
  exists r w',
    _perform_pre_resize E p input info w = (Ok (r, input), w') /\
    (r = false -> w_fs w' = w_fs w) /\
    (r = true ->
     (exists c, c <> [] /\ w_fs w' = <[input := c]> (w_fs w)) /\
     opt_str_truthy (ffmpeg_path p) = true /\
     exists vi, info = Some vi /\
       (MAX_PRE_RESIZE_WIDTH (config p) < width vi \/
        MAX_PRE_RESIZE_HEIGHT (config p) < height vi)%Z).
Proof.
  destruct (pre_resize_spec E p input info w) as (r & w' & Hrun & Hlog & Hfs).
  exists r, w'. split; [done|]. split; [by intros ->|].
  intros ->. split; [done|].
  revert Hrun. unfold _perform_pre_resize.
  destruct info as [vi|]; [|by intros [=]].
  destruct (opt_str_truthy (ffmpeg_path p)); cbn [negb]; [|by intros [=]].
  destruct (negb (Z_truthy _) || negb (Z_truthy _) || _) eqn:Hcond; [by intros [=]|].
  intros _. split; [done|]. exists vi. split; [done|].
  apply orb_false_elim in Hcond as [_ Hdims].
  apply andb_false_iff in Hdims as [Hw%Z.leb_gt|Hh%Z.leb_gt]; [by left|by right].
Qed.

(** * MIME detection *)

Lemma informative_dec mime :
  str_truthy mime && negb (String.eqb mime octet_stream) = true <-> informative mime.
Proof.
  unfold informative. rewrite andb_true_iff, negb_true_iff, str_truthy_ne.
  by destruct (String.eqb_spec mime octet_stream); intuition.
Qed.

(** X10. MIME detection never fails and changes nothing.  The type
    python-magic reports is taken when it is informative (neither empty nor
    application/octet-stream); otherwise the content type of the PDF when
    that one is informative; otherwise application/octet-stream.  The
    detected type is never empty. *)
Theorem detected_mime_prefers_magic_then_pdf E p path ct w :
  exists m, detect_mime E p path ct w = (Ok m, w) /\ m <> "" /\
    ((magic_says E p path (w_fs w) m) \/
     ((forall mm, ~ magic_says E p path (w_fs w) mm) /\ informative ct /\ m = ct) \/
     ((forall mm, ~ magic_says E p path (w_fs w) mm) /\ ~ informative ct /\
      m = octet_stream)).
Proof.
  unfold detect_mime, magic_says.
  set (from_pdf := if str_truthy ct && negb (String.eqb ct octet_stream)
                   then ct else octet_stream).
  assert (Hpdf : from_pdf <> "" /\
                 ((informative ct /\ from_pdf = ct) \/
                  (~ informative ct /\ from_pdf = octet_stream))).
  { unfold from_pdf.
    destruct (str_truthy ct && negb (String.eqb ct octet_stream)) eqn:Hct.
    - apply informative_dec in Hct. split; [apply Hct|by left].
    - split; [done|]. right. split; [|done].
      intros Hi%informative_dec. congruence. }
  destruct Hpdf as [Hne Hpdf].
  destruct (magic_available p) eqn:Hmagic.
  2:{ exists from_pdf. rewrite ret_run. split; [done|]. split; [done|]. right.
      destruct Hpdf as [[? ?]|[? ?]]; [left|right]; split_and!; try done;
        by intros mm [? _]. }
  rewrite try_except_run, bind_run.
  destruct (magic_from_file E path (w_fs w)) as [mm|e] eqn:Hm; cbv beta iota.
  2:{ unfold catch_all. rewrite ret_run. exists from_pdf.
      split; [done|]. split; [done|]. right.
      destruct Hpdf as [[? ?]|[? ?]]; [left|right]; split_and!; try done;
        by intros mm (_ & [=] & _). }
  destruct (str_truthy mm && negb (String.eqb mm octet_stream)) eqn:Hmm;
    rewrite ret_run.
  - apply informative_dec in Hmm. exists mm. split; [done|].
    split; [apply Hmm|]. by left.
  - exists from_pdf. split; [done|]. split; [done|]. right.
    assert (Hno : forall mm', ~ (true = true /\ Ok mm = Ok mm' /\ informative mm')).
    { intros mm' (_ & [= <-] & Hi%informative_dec). congruence. }
    destruct Hpdf as [[? ?]|[? ?]]; [left|right]; by split_and!.
Qed.

(** * Scaling *)

(** X11. The scaling stage never raises.  Either it hands the current file
    on as it is, the file untouched, and then the directory is unchanged or
    differs only by the absence of the scaled intermediate (a failed
    scaling leaves none behind); or it hands on the scaled intermediate, a
    file that is not empty, recorded as H.264 in [.mp4] of type video/mp4,
    and the file it was scaled from is deleted unless it is the initial
    temporary file.  No other file changes. *)
Theorem scaling_keeps_source_on_failure_and_drops_it_on_success
    E dir ffmpeg ffprobe sf uv cc lin mg p sb init cur sc mime w c :
  MediaProcessor_init config_py dir ffmpeg ffprobe sf uv cc lin mg = Ok p ->
  w_fs w !! cur = Some c ->
  cur <> scaled_name sb ->
  exists inp w',
    scaling_stage E p sb init cur sc mime w = (Ok inp, w') /\
    ((inp = unscaled_input cur sc mime /\
      w_fs w' !! cur = Some c /\
      (w_fs w' = w_fs w \/ w_fs w' = delete (scaled_name sb) (w_fs w))) \/
     (inp = scaled_input sb /\
      (exists c', c' <> [] /\ w_fs w' !! scaled_name sb = Some c') /\
      w_fs w' !! cur = (if String.eqb cur init then Some c else None) /\
      (forall q, q <> scaled_name sb -> q <> cur -> w_fs w' !! q = w_fs w !! q))).
Proof.
  intros Hinit Hc Hne.
  destruct (init_py_built _ _ _ _ _ _ _ _ _ Hinit) as (Hp & _).
  destruct (scaling_stage_spec E p Hp sb init cur sc mime w)
    as (inp & w' & l & Hrun & _ & _ & Hcases).
  exists inp, w'. split; [done|].
  destruct Hcases as [(-> & Hfs)|(-> & _ & c' & Hc' & Hfs)]; [left|right].
  - split; [done|]. split.
    + destruct Hfs as [[_ ->]| ->]; [done|]. by rewrite lookup_delete_ne.
    + destruct Hfs as [[_ ->]| ->]; auto.
  - split; [done|]. rewrite Hfs.
    destruct (String.eqb_spec cur init) as [->|Hinit']; cbn [negb id].
    + split_and!.
      * exists c'. split; [done|]. apply lookup_insert_eq.
      * by rewrite lookup_insert_ne.
      * intros q Hq _. by rewrite lookup_insert_ne.
    + split_and!.
      * exists c'. split; [done|].
        rewrite lookup_delete_ne by done. apply lookup_insert_eq.
      * apply lookup_delete_eq.
      * intros q Hq Hq'. rewrite lookup_delete_ne by done. by rewrite lookup_insert_ne.
Qed.

Lemma scaling_keeps_source_on_failure_and_drops_it_on_success_witness :
  exists inp w',
    scaling_stage failing_env
      (constructed (MediaProcessor_init config_py "out/videos" (Some "/usr/bin/ffmpeg")
                      (Some "/usr/bin/ffprobe") (Some 50%Z) false None true true))
      clip_base (clip_base +:+ ".tmp.bin") (clip_base +:+ ".webm") (Some "vp8") "video/webm"
      webm_dir = (Ok inp, w') /\
    (inp = unscaled_input (clip_base +:+ ".webm") (Some "vp8") "video/webm" \/
     inp = scaled_input clip_base).
Proof.
  destruct (scaling_keeps_source_on_failure_and_drops_it_on_success failing_env "out/videos"
    (Some "/usr/bin/ffmpeg") (Some "/usr/bin/ffprobe") (Some 50%Z) false None true true
    (constructed (MediaProcessor_init config_py "out/videos" (Some "/usr/bin/ffmpeg")
                    (Some "/usr/bin/ffprobe") (Some 50%Z) false None true true))
    clip_base (clip_base +:+ ".tmp.bin") (clip_base +:+ ".webm") (Some "vp8") "video/webm"
    webm_dir clip_bytes) as (inp & w' & Hrun & Hcases).
  - reflexivity.
  - reflexivity.
  - vm_compute. discriminate.
  - exists inp, w'. split; [exact Hrun|].
    destruct Hcases as [[-> _]|[-> _]]; [left|right]; reflexivity.
Defined.

(** * The size of the cascade *)

Lemma filter_attempts (f : event -> bool) l :
  (forall ev, f ev = true -> is_attempt ev = true) ->
  List.filter f (attempts l) = List.filter f l.
Proof.
  intros Hf. unfold attempts. induction l as [|ev l IH]; [done|]. simpl.
  destruct (is_attempt ev) eqn:Ha; simpl; rewrite IH; [done|].
  destruct (f ev) eqn:Hfe; [|done]. apply Hf in Hfe. congruence.
Qed.

Lemma new_events_refl w : new_events w w = [].
Proof. unfold new_events. apply drop_all. Qed.

(** The events of the final stage, in terms of the cascade. *)
Lemma final_stage_events E p (Hp : built_from_config_py p) sb (Hsb : safe_base sb) inp w :
  path_for_final_encode inp <> inter_name sb ->
  let run := final_transcoding_stage E p sb inp w in
  if final_transcode_needed p (ext_for_final_encode inp) (codec_for_final_encode inp)
     && enable_transcoding p
  then exists tr r io,
      attempts (new_events w run.2) = tr /\
      cascade_shape p (path_for_final_encode inp) (codec_for_final_encode inp)
        (inter_name sb) tr r io
  else new_events w run.2 = [].
Proof.
  intros HP run.
  destruct (final_transcode_needed p _ _ && enable_transcoding p) eqn:Hgo.
  - apply andb_prop in Hgo as [Hneed Hen].
    destruct (final_stage_transcode E p Hp sb Hsb inp w Hneed Hen HP)
      as (r & io & w1 & _ & (tr & Hrel & Hshape & _) & Hstage).
    exists tr, r, io. split; [|done].
    rewrite <-(casc_rel_log _ _ _ _ _ _ _ Hrel). f_equal.
    unfold run. rewrite Hstage. destruct r; [done|].
    destruct (rename_to_total (path_for_final_encode inp) (final_name p sb) w1)
      as (path & w2 & -> & Hlog & _).
    by apply new_events_same_log.
  - unfold run. rewrite final_stage_run, Hgo.
    destruct (rename_to_total (path_for_final_encode inp) (final_name p sb) w)
      as (path & w2 & -> & Hlog & _).
    cbn [snd]. rewrite (new_events_same_log w w w2 Hlog). apply new_events_refl.
Qed.

(** X12. The final stage makes at most three final encode attempts and at
    most one intermediate encode; it makes at least one final encode attempt
    when a transcode is needed and transcoding is enabled, and starts
    nothing at all otherwise. *)
Theorem cascade_makes_at_most_three_final_attempts
    E dir ffmpeg ffprobe sf uv cc lin mg p pn ai sr inp w :
  MediaProcessor_init config_py dir ffmpeg ffprobe sf uv cc lin mg = Ok p ->
  let sb := safe_base_of pn ai sr in
  path_for_final_encode inp <> inter_name sb ->
  let run := final_transcoding_stage E p sb inp w in
  let go := final_transcode_needed p (ext_for_final_encode inp) (codec_for_final_encode inp)
            && enable_transcoding p in
  (length (final_attempts (new_events w run.2)) <= 3)%nat /\
  (length (intermediate_encodes (new_events w run.2)) <= 1)%nat /\
  (go = true -> (1 <= length (final_attempts (new_events w run.2)))%nat) /\
  (go = false -> new_events w run.2 = []).
Proof.
  intros Hinit sb HP run go.
  destruct (init_py_built _ _ _ _ _ _ _ _ _ Hinit) as (Hp & _).
  pose proof (final_stage_events E p Hp sb (safe_base_of_safe pn ai sr) inp w HP) as Hev.
  cbv zeta in Hev. fold run go in Hev.
  destruct go.
  2:{ rewrite Hev. cbn. split_and!; try done; lia. }
  destruct Hev as (tr & r & io & Htr & Hshape).
  unfold final_attempts, intermediate_encodes.
  rewrite <-(filter_attempts is_final_attempt) by (by intros []).
  rewrite <-(filter_attempts is_intermediate_encode) by (by intros []).
  rewrite Htr. clear Htr.
  shape_cases Hshape p (codec_for_final_encode inp); cbn; split_and!; try done; lia.
Qed.

Lemma cascade_makes_at_most_three_final_attempts_witness :
  let run := final_transcoding_stage failing_env vaapi_processor clip_base webm_input
               webm_dir in
  (length (final_attempts (new_events webm_dir run.2)) <= 3)%nat.
Proof.
  apply (cascade_makes_at_most_three_final_attempts failing_env "out/videos"
           (Some "/usr/bin/ffmpeg") (Some "/usr/bin/ffprobe") None true (Some "h264")
           true true vaapi_processor 0 0 clip_stream webm_input webm_dir).
  - reflexivity.
  - vm_compute. discriminate.
Defined.

(** * The CPU fallback on an H.264 source *)

Lemma cascade_cpu_only_run E p sb F P codec w :
  encode_vaapi_possible p = false ->
  final_transcode_cascade E p sb F P codec w =
    match _perform_final_encode_step E p P F (target_codec p) codec
            (cpu_attempt_decode p codec) false w with
    | (Ok r, w') => (Ok (r, None), w')
    | (Raise e, w') => (Raise e, w')
    end.
Proof.
  intros Henc. unfold final_transcode_cascade, cpu_attempt_decode. rewrite Henc.
  rewrite bind_run, ret_run. cbv beta iota. cbn [negb].
  rewrite bind_run, ret_run. cbv beta iota.
  rewrite (bool_decide_false (Some P = None)) by done.
  rewrite bind_run.
  destruct (_perform_final_encode_step _ _ _ _ _ _ _ _ _) as [[r|e] w']; done.
Qed.

Lemma final_video_args_vaapi_decode p input :
  config p = config_py ->
  forall tc video,
    final_video_args p input tc (Some "h264") true false = Ok video ->
    exists rest, video = vaapi_decode_prefix p input ++ rest.
Proof.
  intros Hcfg tc video. unfold final_video_args. rewrite Hcfg.
  cbn [VAAPI_DEVICE_PATH config_py str_truthy orb andb vaapi_decodable str_in
       VAAPI_DECODABLE_CODECS String.eqb Ascii.eqb Bool.eqb].
  destruct (dict_get _ tc) as [opts|]; [|done].
  destruct (list_truthy opts); [|done].
  intros [= <-]. eexists. unfold vaapi_decode_prefix. cbn [app]. reflexivity.
Qed.

(** X13. Without VAAPI (not requested, or not available), a needed
    transcode of an H.264 source is a single CPU encode attempt, and that
    attempt asks for VAAPI hardware decode all the same: its command line, if
    a temporary file could be made, begins with the VAAPI device and hwaccel
    options. *)
Theorem cpu_fallback_asks_for_vaapi_decode_of_h264
    E dir ffmpeg ffprobe sf uv cc lin mg p sb inp w :
  MediaProcessor_init config_py dir ffmpeg ffprobe sf uv cc lin mg = Ok p ->
  use_vaapi p = false ->
  codec_for_final_encode inp = Some "h264" ->
  final_transcode_needed p (ext_for_final_encode inp) (Some "h264") = true ->
  enable_transcoding p = true ->
  let P := path_for_final_encode inp in
  let run := final_transcoding_stage E p sb inp w in
  exists r pre,
    new_events w run.2 = pre ++ [EvFinalEncode P (Some "h264") true false r] /\
    (pre = [] /\ r = false \/
     exists t rest, pre = [EvTemp t; EvEncoder (vaapi_decode_prefix p P ++ rest)]).
Proof.
  intros Hinit Huse Hcodec Hneed Hen P run.
  destruct (init_py_built _ _ _ _ _ _ _ _ _ Hinit) as (Hp & _).
  assert (Henc : encode_vaapi_possible p = false)
    by (by rewrite (built_encode_vaapi p Hp)).
  destruct (final_step_spec E p P (final_name p sb) (target_codec p) (Some "h264")
              true false w (built_profile p Hp false))
    as (r & w1 & Hstep & (pre & Hlog & Hpre) & _).
  assert (Hrun : exists w2, run = (run.1, w2) /\ w_log w2 = w_log w1).
  { unfold run. rewrite final_stage_run, Hcodec, Hneed, Hen. cbn [andb].
    rewrite (cascade_cpu_only_run E p sb _ _ _ w Henc).
    unfold cpu_attempt_decode. rewrite bool_decide_true by done.
    fold P. rewrite Hstep. destruct r; [by eexists|].
    destruct (rename_to_total P (final_name p sb) w1) as (path & w2 & -> & Hl & _).
    by eexists. }
  destruct Hrun as (w2 & Hw2 & Hlog2).
  exists r, pre. split.
  - rewrite Hw2. cbn [snd]. rewrite (new_events_same_log w w1 w2 Hlog2).
    by apply new_events_app.
  - destruct Hpre as [[-> ->]|(t & cmd & -> & _ & _ & Hcmd)]; [by left|right].
    unfold final_encode_command in Hcmd.
    destruct (final_video_args p P (target_codec p) (Some "h264") true false)
      as [video|] eqn:Hv; [|done].
    injection Hcmd as <-.
    destruct (final_video_args_vaapi_decode p P (built_config p Hp) _ _ Hv) as [rest ->].
    exists t. eexists. by rewrite <-app_assoc.
Qed.

Lemma cpu_fallback_asks_for_vaapi_decode_of_h264_witness :
  let inp := unscaled_input (clip_base +:+ ".mov") (Some "h264") "video/quicktime" in
  let w := mkWorld {[ clip_base +:+ ".mov" := clip_bytes ]} [] 0 in
  let run := final_transcoding_stage quicktime_env cpu_processor clip_base inp w in
  exists r pre,
    new_events w run.2
    = pre ++ [EvFinalEncode (clip_base +:+ ".mov") (Some "h264") true false r] /\
    (pre = [] /\ r = false \/
     exists t rest,
       pre = [EvTemp t;
              EvEncoder (vaapi_decode_prefix cpu_processor (clip_base +:+ ".mov") ++ rest)]).
Proof.
  apply (cpu_fallback_asks_for_vaapi_decode_of_h264 quicktime_env "out/videos"
           (Some "/usr/bin/ffmpeg") (Some "/usr/bin/ffprobe") None false None true true
           cpu_processor clip_base).
  - reflexivity.
  - reflexivity.
  - reflexivity.
  - reflexivity.
  - reflexivity.
Defined.

(** * The output of a successful cascade *)

(** X14. When one of the final encode attempts of a needed transcode
    succeeds, the file at the canonical output path is not empty, and the
    record returned names that path with the MIME type of the target
    format. *)
Theorem successful_transcode_output_is_not_empty
    E dir ffmpeg ffprobe sf uv cc lin mg p pn ai sr rc init inp w :
  MediaProcessor_init config_py dir ffmpeg ffprobe sf uv cc lin mg = Ok p ->
  let sb := safe_base_of pn ai sr in
  let P := path_for_final_encode inp in
  final_transcode_needed p (ext_for_final_encode inp) (codec_for_final_encode inp) = true ->
  enable_transcoding p = true ->
  P <> inter_name sb ->
  let run := final_stage_and_return E p pn ai rc sb init inp w in
  (exists i sc d e, EvFinalEncode i sc d e true ∈ new_events w run.2) ->
  run.1 = Ok (Some (item_of p pn ai rc (final_name p sb) (target_mime_type p))) /\
  exists c, c <> [] /\ w_fs run.2 !! final_name p sb = Some c.
Proof.
  intros Hinit sb P Hneed Hen HP run.
  destruct (init_py_built _ _ _ _ _ _ _ _ _ Hinit) as (Hp & _).
  pose proof (safe_base_of_safe pn ai sr) as Hsb. fold sb in Hsb.
  destruct (final_stage_transcode E p Hp sb Hsb inp w Hneed Hen HP)
    as (r & io & w1 & Hrun & (tr & Hrel & Hshape & HF & _) & Hstage).
  pose proof (casc_rel_log _ _ _ _ _ _ _ Hrel) as Htr.
  unfold run, final_stage_and_return. rewrite bind_run, Hstage.
  destruct r.
  2:{ (* no attempt succeeded *)
      destruct (rename_to_total (path_for_final_encode inp) (final_name p sb) w1)
        as (path & w2 & -> & Hlog & _).
      rewrite cleanup_run. cbn [fst snd]. intros (i & sc & d & e & Hin). exfalso.
      unfold new_events, set_fs in Hin. cbn [w_log] in Hin. rewrite Hlog in Hin.
      fold (new_events w w1) in Hin.
      pose proof (attempts_elem _ _ Hin eq_refl) as Hin'.
      rewrite Htr in Hin'.
      destruct (shape_success _ _ _ _ _ _ _ Hshape) as [_ Hs].
      discriminate Hs. eauto. }
  intros _. rewrite cleanup_run. cbn [fst snd resulting_path resulting_mime].
  destruct HF as (c & Hc & HF).
  set (out := {| resulting_path := final_name p sb;
                 resulting_mime := target_mime_type p;
                 intermediate_h264_file := io |}).
  assert (HF' : cleanup_fs init (scaled_intermediate_path inp) out (w_fs w1)
                  !! final_name p sb = Some c).
  { rewrite cleanup_fs_keeps; [exact HF| |left; reflexivity].
    subst out. cbn [intermediate_h264_file].
    destruct (shape_intermediate_named _ _ _ _ _ _ _ Hshape) as [_ [-> | ->]]; [done|].
    intros Heq%(inj Some). by apply (final_neq_inter p Hp sb). }
  rewrite HF'. rewrite bool_decide_true by eauto. split; [done|].
  exists c. split; [done|]. exact HF'.
Qed.

Lemma successful_transcode_output_is_not_empty_witness :
  let run := final_stage_and_return webm_env vaapi_processor 0 0 [] clip_base
               (clip_base +:+ ".tmp.bin") webm_input webm_dir in
  run.1 = Ok (Some (item_of vaapi_processor 0 0 [] (clip_base +:+ ".mp4") "video/mp4")) /\
  exists c, c <> [] /\ w_fs run.2 !! (clip_base +:+ ".mp4") = Some c.
Proof.
  apply (successful_transcode_output_is_not_empty webm_env "out/videos"
           (Some "/usr/bin/ffmpeg") (Some "/usr/bin/ffprobe") None true (Some "h264")
           true true vaapi_processor 0 0 clip_stream [] (clip_base +:+ ".tmp.bin")
           webm_input webm_dir).
  - reflexivity.
  - reflexivity.
  - reflexivity.
  - vm_compute. discriminate.
  - exists (inter_name clip_base), (Some "h264"), true, true. logged.
Defined.

(** * Whole runs: the record and the files touched *)

Lemma success_or_not (l : list event) :
  (exists i sc d e, EvFinalEncode i sc d e true ∈ l) \/
  (forall i sc d e, EvFinalEncode i sc d e true ∉ l).
Proof.
  induction l as [|ev l [IH|IH]].
  - right. intros i sc d e Hin. by apply elem_of_nil in Hin.
  - left. destruct IH as (i & sc & d & e & Hin). exists i, sc, d, e. by constructor.
  - destruct ev as [| | | | | | |i sc d e [|]];
      try (right; intros i' sc' d' e' Hin; apply elem_of_cons in Hin as [[=]|Hin];
           by apply (IH i' sc' d' e')).
    left. exists i, sc, d, e. constructor.
Qed.

Section finish_frame.
Context (E : Env) (p : MediaProcessor) (Hp : built_from_config_py p).
Context (sb : string) (Hsb : safe_base sb).

(** Steps 3 to 5: the MIME type of the record and the files left alone. *)
Lemma transcode_and_finish_frame pn ai rc cur sc mime c w :
w_fs w !! cur = Some c ->
cur <> inter_name sb -> cur <> scaled_name sb ->
exists m w',
  transcode_and_finish E p pn ai rc sb (initial_name sb) cur sc mime w
  = (Ok (Some (item_of p pn ai rc (final_name p sb) m)), w') /\
  (m = target_mime_type p \/ m = mime \/ m = "video/mp4") /\
  is_Some (w_fs w' !! final_name p sb) /\
  (forall q, q ∉ own_names p sb cur -> w_fs w' !! q = w_fs w !! q).
Proof.
intros Hc Hci Hcs.
unfold transcode_and_finish. rewrite bind_run.
destruct (scaling_stage_spec E p Hp sb (initial_name sb) cur sc mime w)
  as (inp & w1 & l_sc & Hrun1 & _ & _ & Hcases).
rewrite Hrun1. cbv beta iota.
assert (Hin : exists cP, w_fs w1 !! path_for_final_encode inp = Some cP /\
          path_for_final_encode inp <> inter_name sb /\
          (path_for_final_encode inp = cur \/ path_for_final_encode inp = scaled_name sb) /\
          (mime_for_final_encode inp = mime \/ mime_for_final_encode inp = "video/mp4") /\
          (scaled_intermediate_path inp = None \/
           scaled_intermediate_path inp = Some (scaled_name sb)) /\
          (forall q, q <> cur -> q <> scaled_name sb -> w_fs w1 !! q = w_fs w !! q)).
{ destruct Hcases as [[-> Hfs]|(-> & _ & c' & _ & Hfs)].
  - exists c. cbn [path_for_final_encode unscaled_input mime_for_final_encode
                   scaled_intermediate_path].
    split_and!; auto.
    + destruct Hfs as [[_ ->]| ->]; [done|]. by rewrite lookup_delete_ne.
    + intros q _ Hq. destruct Hfs as [[_ ->]| ->]; [done|].
      by rewrite lookup_delete_ne.
  - exists c'. cbn [path_for_final_encode scaled_input mime_for_final_encode
                    scaled_intermediate_path].
    split_and!; auto.
    + rewrite Hfs. destruct (negb _); cbn [id].
      * rewrite lookup_delete_ne by done. by rewrite lookup_insert_eq.
      * by rewrite lookup_insert_eq.
    + apply scaled_neq_inter.
    + intros q Hq Hq'. rewrite Hfs. destruct (negb _); cbn [id].
      * rewrite lookup_delete_ne by done. by rewrite lookup_insert_ne.
      * by rewrite lookup_insert_ne. }
destruct Hin as (cP & HcP & HPi & HP & Hmime & Hsp & Hframe1).
unfold final_stage_and_return. rewrite bind_run.
destruct (final_stage_spec E p Hp sb Hsb inp cP w1 HcP HPi)
  as (out & w2 & l_fin & Hrun2 & Hpost).
rewrite Hrun2. cbv beta iota. rewrite cleanup_run.
destruct Hpost as [Hpath _ _ _ Hfile2 Hframe2 Hnamed2 _ Hsucc2 Hfail2 _].
assert (Hio : intermediate_h264_file out <> Some (final_name p sb)).
{ destruct Hnamed2 as [-> | ->]; [done|].
  intros Heq%(inj Some). by apply (final_neq_inter p Hp sb). }
assert (HF3 : cleanup_fs (initial_name sb) (scaled_intermediate_path inp) out (w_fs w2)
                !! final_name p sb = w_fs w2 !! final_name p sb).
{ apply cleanup_fs_keeps; [done|]. left. by rewrite Hpath. }
rewrite Hpath, HF3. rewrite bool_decide_true by done.
exists (resulting_mime out). eexists. split; [done|].
cbn [w_fs set_fs]. split_and!.
- destruct (success_or_not l_fin) as [Hs|Hn].
  + left. by apply Hsucc2.
  + right. destruct (Hfail2 Hn) as [-> _]. done.
- by rewrite HF3.
- intros q Hq. unfold own_names in Hq. rewrite !not_elem_of_cons in Hq.
  destruct Hq as (Hq1 & Hq2 & Hq3 & Hq4 & Hq5 & _).
  rewrite cleanup_fs_keeps.
  + rewrite Hframe2; [by apply Hframe1|done|done|].
    destruct HP as [-> | ->]; done.
  + destruct Hnamed2 as [-> | ->]; [done|]. intros Heq%(inj Some). done.
  + right. split; [done|]. destruct Hsp as [-> | ->]; [done|].
    intros Heq%(inj Some). done.
Qed.
End finish_frame.

Section run_frame.
Context (E : Env) (p : MediaProcessor) (Hp : built_from_config_py p).

(** A whole run, from any world. *)
Lemma process_annotation_frame pn ai sr rc ct w :
let sb := safe_base_of pn ai sr in
let run := process_annotation E p pn ai sr rc ct w in
(* no stream *)
(run = (Ok None, w) /\ forall b, read_bytes sr = Ok b -> b = []) \/
exists b mime, read_bytes sr = Ok b /\ b <> [] /\
  EvDetected mime ∈ new_events w run.2 /\
  (forall mime', EvDetected mime' ∈ new_events w run.2 -> mime' = mime) /\
  (forall q, q ∉ own_names p sb (sb +:+ _get_file_extension_from_mime p mime) ->
     w_fs run.2 !! q = w_fs w !! q) /\
  ((startswith mime "video/" = false /\ run.1 = Ok None) \/
   (startswith mime "video/" = true /\
    exists m, run.1 = Ok (Some (item_of p pn ai rc (final_name p sb) m)) /\
      (m = target_mime_type p \/ m = mime \/ m = "video/mp4") /\
      is_Some (w_fs run.2 !! final_name p sb))).
Proof.
intros sb run.
destruct (read_bytes sr) as [b|e] eqn:Hread.
2:{ left. split; [|done]. unfold run, process_annotation. by rewrite Hread. }
destruct (decide (b = [])) as [->|Hb].
{ left. split; [|by intros ? [= <-]]. unfold run, process_annotation. by rewrite Hread. }
right. exists b.
pose proof (safe_base_of_safe pn ai sr) as Hsb. fold sb in Hsb.
unfold run. rewrite (process_annotation_run E p pn ai sr rc ct _ b Hread Hb).
cbv zeta. fold sb.
set (w1 := set_fs _ _).
assert (Hinit : w_fs w1 !! initial_name sb = Some b).
{ unfold w1. cbn. by rewrite lookup_insert_eq. }
destruct (identify_spec E p (built_config p Hp) sb Hsb ct w1 b Hinit)
  as (idn & w2 & Hrun & Hcur & (l_id & Hlog & Hid & Hdet & _) & (c & Hfs & _)).
cbv zeta in Hcur. rewrite Hrun.
set (mime := detected_mime idn) in *.
set (guess := sb +:+ _get_file_extension_from_mime p mime) in *.
exists mime. split; [done|]. split; [done|].
rewrite Forall_forall in Hid.
assert (Hlog1 : w_log w1 = w_log w) by done.
assert (Hframe2 : forall q, q <> initial_name sb -> q <> guess ->
                    w_fs w2 !! q = w_fs w !! q).
{ intros q Hq1 Hq2. rewrite Hfs, lookup_insert_ne by done.
  rewrite lookup_delete_ne by done. unfold w1. cbn. by rewrite lookup_insert_ne. }
destruct (startswith mime "video/") eqn:Hvideo; cbn [negb].
- assert (Hc : w_fs w2 !! guess = Some c) by (by rewrite Hfs, lookup_insert_eq).
  destruct (transcode_and_finish_frame E p Hp sb Hsb pn ai rc guess (source_codec idn)
              mime c w2 Hc (guess_neq_inter p Hp sb mime) (guess_neq_scaled p Hp sb mime))
    as (m & w3 & Hrun3 & Hm & Hfile & Hframe3).
  rewrite Hcur, Hrun3. cbn [fst snd].
  destruct (transcode_and_finish_spec E p Hp sb Hsb pn ai rc guess (source_codec idn)
              mime c w2 Hc (guess_neq_inter p Hp sb mime) (guess_neq_scaled p Hp sb mime)
              (guess_not_temp p (built_config p Hp) sb mime))
    as (m' & w3' & l_sc & l_fin & Hrun3' & Hpost).
  rewrite Hrun3 in Hrun3'. injection Hrun3' as _ <-.
  assert (Hl : w_log w3 = w_log w ++ l_id ++ l_sc ++ l_fin).
  { rewrite (fin_log _ _ _ _ _ _ _ _ _ _ Hpost), Hlog, Hlog1. by rewrite <-app_assoc. }
  rewrite (new_events_app w w3 _ Hl).
  split_and!.
  + apply elem_of_app. by left.
  + intros mime' Hin. rewrite !elem_of_app in Hin.
    destruct Hin as [Hin|[Hin|Hin]].
    * by apply (Hid _ Hin).
    * pose proof (fin_scaling _ _ _ _ _ _ _ _ _ _ Hpost) as Hsc.
      rewrite Forall_forall in Hsc. by destruct (Hsc _ Hin).
    * destruct (fin_cascade _ _ _ _ _ _ _ _ _ _ Hpost) as [P HP].
      rewrite Forall_forall in HP. by destruct (HP _ Hin).
  + intros q Hq. rewrite Hframe3 by done.
    unfold own_names in Hq. rewrite !not_elem_of_cons in Hq.
    apply Hframe2; tauto.
  + right. split; [done|]. by exists m.
- rewrite Hcur. cbn [fst snd].
  assert (Hl : w_log (if negb (String.eqb (initial_name sb) guess)
                      then set_fs (delete (initial_name sb)) w2 else w2)
               = w_log w ++ l_id).
  { rewrite <-Hlog1, <-Hlog. by destruct (negb _). }
  rewrite (new_events_app _ _ _ Hl).
  split_and!.
  + done.
  + intros mime' Hin. by apply (Hid _ Hin).
  + intros q Hq. unfold own_names in Hq. rewrite !not_elem_of_cons in Hq.
    destruct Hq as (Hq1 & Hq2 & _).
    destruct (negb _); cbn [set_fs w_fs].
    * rewrite lookup_delete_ne by done. by apply Hframe2.
    * by apply Hframe2.
  + by left.
Qed.
End run_frame.

Lemma replace_backslash_safe s :
  str_forallb (fun c => negb (Ascii.eqb c "\")) s = true -> replace_backslash s = s.
Proof.
  unfold replace_backslash. induction s as [|c s IH]; [done|]. simpl.
  intros [Hc Hs]%andb_prop. rewrite IH by done.
  by destruct (Ascii.eqb c "\").
Qed.

Lemma safe_name_char_no_backslash c :
  safe_name_char c = true -> negb (Ascii.eqb c "\") = true.
Proof. destruct (Ascii.eqb_spec c "\") as [->|]; [by vm_compute|done]. Qed.

(** The relative path of the record, for a file of the media directory of
    config.py. *)
Lemma output_path_py p (Hp : built_from_config_py p) sb (Hsb : safe_base sb) :
  replace_backslash (os_path_join (MEDIA_OUTPUT_DIR_NAME (config p)) (final_name p sb))
  = "videos/" +:+ final_name p sb.
Proof.
  rewrite (built_config p Hp). cbn [MEDIA_OUTPUT_DIR_NAME config_py].
  assert (H1 : str_forallb (fun c => negb (Ascii.eqb c "\")) sb = true).
  { destruct Hsb as [_ Hsafe].
    eapply str_forallb_impl; [|exact Hsafe]. apply safe_name_char_no_backslash. }
  assert (H2 : str_forallb (fun c => negb (Ascii.eqb c "\")) (target_extension p) = true).
  { by destruct (built_ext p Hp) as [-> | ->]. }
  assert (Hjoin : os_path_join "videos" (final_name p sb) = "videos/" +:+ final_name p sb).
  { destruct Hsb as [[rest ->] _]. unfold final_name. by rewrite app_cons. }
  rewrite Hjoin. apply replace_backslash_safe.
  unfold final_name. by rewrite !str_forallb_app, H1, H2.
Qed.

(** X15. [process_annotation] returns a record exactly when the stream was
    read, is not empty and the detected content type starts with [video/]:
    a video is never dropped, whatever the encoder does.  The record echoes
    the page index, the annotation index and the rectangle; its file is the
    canonical output name and exists; its relative path is that name under
    [videos/]; its content type starts with [video/]. *)
Theorem record_is_returned_exactly_for_video_content
    E dir ffmpeg ffprobe sf uv cc lin mg p pn ai sr rc ct w :
  MediaProcessor_init config_py dir ffmpeg ffprobe sf uv cc lin mg = Ok p ->
  let sb := safe_base_of pn ai sr in
  let run := process_annotation E p pn ai sr rc ct w in
  (forall item, run.1 = Ok (Some item) ->
     (exists b mime, read_bytes sr = Ok b /\ b <> [] /\
        EvDetected mime ∈ new_events w run.2 /\ startswith mime "video/" = true) /\
     pageIndex item = pn /\ annotIndex item = ai /\ pdfRect item = rc /\
     absolutePath item = sb +:+ target_extension p /\
     outputPath item = "videos/" +:+ sb +:+ target_extension p /\
     startswith (contentTypeDetected item) "video/" = true /\
     is_Some (w_fs run.2 !! absolutePath item)) /\
  (forall b mime, read_bytes sr = Ok b -> b <> [] ->
     EvDetected mime ∈ new_events w run.2 -> startswith mime "video/" = true ->
     exists item, run.1 = Ok (Some item)).
Proof.
  intros Hinit sb run.
  destruct (init_py_built _ _ _ _ _ _ _ _ _ Hinit) as (Hp & _).
  pose proof (safe_base_of_safe pn ai sr) as Hsb. fold sb in Hsb.
  pose proof (process_annotation_frame E p Hp pn ai sr rc ct w) as Hrun.
  cbv zeta in Hrun. fold sb run in Hrun.
  destruct Hrun as [[Hrun Hnone]|(b & mime & Hread & Hb & Hdet & Huniq & _ & Hcases)].
  { split.
    - intros item. by rewrite Hrun.
    - intros b mime Hread Hb. by specialize (Hnone b Hread). }
  destruct Hcases as [[Hnv Hres]|(Hv & m & Hres & Hm & Hfile)].
  { split.
    - intros item. by rewrite Hres.
    - intros b' mime' _ _ Hdet' Hv'. apply Huniq in Hdet'. congruence. }
  split; [|by eauto].
  intros item. rewrite Hres. intros [= <-].
  cbn [pageIndex annotIndex pdfRect absolutePath outputPath contentTypeDetected item_of].
  split_and!; try done.
  - by exists b, mime.
  - by apply output_path_py.
  - destruct Hm as [-> |[-> | ->]]; [|done|done].
    by destruct (built_target p Hp) as [(_ & _ & ->)|[(_ & _ & ->)|(_ & _ & ->)]].
Qed.

Lemma record_is_returned_exactly_for_video_content_witness :
  exists item,
    (process_annotation failing_env vaapi_processor 0 0 clip_stream [] "video/webm"
       empty_dir).1 = Ok (Some item).
Proof.
  destruct (record_is_returned_exactly_for_video_content failing_env "out/videos"
              (Some "/usr/bin/ffmpeg") (Some "/usr/bin/ffprobe") None true (Some "h264")
              true true vaapi_processor 0 0 clip_stream [] "video/webm" empty_dir)
    as [_ Hsome].
  - reflexivity.
  - apply (Hsome clip_bytes "video/webm").
    + reflexivity.
    + discriminate.
    + logged.
    + reflexivity.
Defined.

(** X16. A run of [process_annotation] changes no file whose name does not
    begin with the safe base name of the annotation; and when the stream is
    unreadable or empty it changes nothing at all, not even the log. *)
Theorem process_annotation_touches_only_names_on_its_safe_base
    E dir ffmpeg ffprobe sf uv cc lin mg p pn ai sr rc ct w :
  MediaProcessor_init config_py dir ffmpeg ffprobe sf uv cc lin mg = Ok p ->
  let sb := safe_base_of pn ai sr in
  let run := process_annotation E p pn ai sr rc ct w in
  (forall q, String.prefix sb q = false -> w_fs run.2 !! q = w_fs w !! q) /\
  ((forall b, read_bytes sr = Ok b -> b = []) -> run = (Ok None, w)).
Proof.
  intros Hinit sb run.
  destruct (init_py_built _ _ _ _ _ _ _ _ _ Hinit) as (Hp & _).
  split; [|apply process_annotation_no_stream].
  intros q Hq.
  pose proof (process_annotation_frame E p Hp pn ai sr rc ct w) as Hrun.
  cbv zeta in Hrun. fold sb run in Hrun.
  destruct Hrun as [[-> _]|(b & mime & _ & _ & _ & _ & Hframe & _)]; [done|].
  apply Hframe. unfold own_names, initial_name, scaled_name, inter_name, final_name.
  rewrite !not_elem_of_cons.
  split_and!; try apply not_elem_of_nil;
    intros ->; by rewrite prefix_app_r in Hq.
Qed.

Lemma process_annotation_touches_only_names_on_its_safe_base_witness :
  let w := mkWorld {[ "page_1.svg" := clip_bytes ]} [] 0 in
  w_fs (process_annotation webm_env vaapi_processor 0 0 clip_stream [] "video/webm" w).2
    !! "page_1.svg" = Some clip_bytes.
Proof.
  destruct (process_annotation_touches_only_names_on_its_safe_base webm_env "out/videos"
              (Some "/usr/bin/ffmpeg") (Some "/usr/bin/ffprobe") None true (Some "h264")
              true true vaapi_processor 0 0 clip_stream [] "video/webm"
              (mkWorld {[ "page_1.svg" := clip_bytes ]} [] 0)) as [Hframe _].
  - reflexivity.
  - cbv zeta. rewrite Hframe; reflexivity.
Defined.

(** * File names of different annotations *)

Lemma pretty_N_go_dec x s :
  str_forallb dec_char s = true -> str_forallb dec_char (pretty_N_go x s) = true.
Proof.
  revert s. induction (N.lt_wf_0 x) as [x _ IH]. intros s Hs.
  assert (x = 0 \/ 0 < x)%N as [->|Hx] by lia.
  - by rewrite pretty_N_go_0.
  - rewrite pretty_N_go_step by done. apply IH; [by apply N.div_lt|].
    simpl. rewrite Hs, andb_true_r.
    unfold pretty_N_char. by repeat case_match.
Qed.

Lemma str_of_Z_dec z : str_forallb dec_char (str_of_Z z) = true.
Proof.
  assert (Hpos : forall x : positive, str_forallb dec_char (pretty x) = true).
  { intros x. unfold pretty, pretty_positive, pretty, pretty_N.
    case_decide; [done|]. by apply pretty_N_go_dec. }
  unfold str_of_Z. destruct z as [|x|x]; [done|apply Hpos|].
  change (pretty (Z.neg x)) with ("-" +:+ pretty x).
  rewrite str_forallb_app. by rewrite Hpos.
Qed.

Lemma str_map_app f a b : str_map f (a +:+ b) = str_map f a +:+ str_map f b.
Proof. induction a as [|c a IH]; [done|]. rewrite app_cons. simpl. by rewrite IH. Qed.

Lemma str_map_safe_id s : str_forallb safe_name_char s = true -> str_map safe_char s = s.
Proof.
  induction s as [|c s IH]; [done|]. simpl. intros [Hc Hs]%andb_prop.
  rewrite IH by done. unfold safe_char. unfold safe_name_char in Hc. by rewrite Hc.
Qed.

Lemma dec_char_safe c : dec_char c = true -> safe_name_char c = true.
Proof.
  unfold dec_char, safe_name_char, isalnum.
  intros [->|Hc]%orb_prop; [done|]. rewrite Hc. by rewrite !orb_true_r.
Qed.

Lemma str_of_Z_safe z : str_map safe_char (str_of_Z z) = str_of_Z z.
Proof.
  apply str_map_safe_id. eapply str_forallb_impl; [apply dec_char_safe|].
  apply str_of_Z_dec.
Qed.

(** Two numerals, each followed by an underscore: if one text begins with
    the other, the numerals are the same. *)
Lemma prefix_numeral a a' r r' :
  str_forallb dec_char a = true -> str_forallb dec_char a' = true ->
  String.prefix (a +:+ String "_" r) (a' +:+ String "_" r') = true ->
  a = a' /\ String.prefix r r' = true.
Proof.
  revert a'. induction a as [|c a IH]; intros [|c' a'] Ha Ha'.
  - rewrite !app_nil_l_str. cbn [String.prefix].
    by destruct (ascii_dec "_" "_").
  - rewrite app_nil_l_str, app_cons. cbn [String.prefix str_forallb] in *.
    destruct (ascii_dec "_" c') as [<-|]; [|done]. by cbn in Ha'.
  - rewrite app_nil_l_str, app_cons. cbn [String.prefix str_forallb] in *.
    destruct (ascii_dec c "_") as [->|]; [|done]. by cbn in Ha.
  - rewrite !app_cons. cbn [String.prefix str_forallb] in *.
    apply andb_prop in Ha as [_ Ha]. apply andb_prop in Ha' as [_ Ha'].
    destruct (ascii_dec c c') as [<-|]; [|done].
    intros [-> ?]%IH; done.
Qed.

Lemma prefix_numeral_sep a a' r r' :
  str_forallb dec_char a = true -> str_forallb dec_char a' = true ->
  String.prefix (a +:+ "_" +:+ r) (a' +:+ "_" +:+ r') = true ->
  a = a' /\ String.prefix r r' = true.
Proof. apply prefix_numeral. Qed.

(** The safe base name spelled out. *)
Lemma safe_base_of_eq pn ai sr :
  exists id,
    safe_base_of pn ai sr
    = "slide_" +:+ str_of_Z (pn + 1) +:+ "_" +:+ "annot_" +:+ str_of_Z (ai + 1)
        +:+ "_" +:+ id.
Proof.
  unfold safe_base_of. eexists.
  change "_annot_" with ("_" +:+ "annot_").
  rewrite !str_app_assoc.
  rewrite !str_map_app, !str_of_Z_safe. reflexivity.
Qed.

Lemma safe_base_prefix_same_annotation pn ai sr pn' ai' sr' x :
  String.prefix (safe_base_of pn ai sr) (safe_base_of pn' ai' sr' +:+ x) = true ->
  pn = pn' /\ ai = ai'.
Proof.
  destruct (safe_base_of_eq pn ai sr) as [id ->].
  destruct (safe_base_of_eq pn' ai' sr') as [id' ->].
  rewrite !str_app_assoc, prefix_app.
  intros [Hp Hrest]%prefix_numeral_sep; [|apply str_of_Z_dec..].
  rewrite prefix_app in Hrest.
  apply prefix_numeral_sep in Hrest as [Ha _]; [|apply str_of_Z_dec..].
  unfold str_of_Z in *. apply (inj pretty) in Hp, Ha. split; lia.
Qed.

(** X17. The file names of two annotations that differ in page or in index
    never collide: no name built on the safe base of one begins with the
    safe base of the other, so the safe bases differ as well. *)
Theorem distinct_annotations_have_disjoint_file_names pn ai sr pn' ai' sr' :
  (pn, ai) <> (pn', ai') ->
  (forall x, String.prefix (safe_base_of pn ai sr) (safe_base_of pn' ai' sr' +:+ x) = false) /\
  safe_base_of pn ai sr <> safe_base_of pn' ai' sr'.
Proof.
  intros Hne.
  assert (Hpre : forall x,
    String.prefix (safe_base_of pn ai sr) (safe_base_of pn' ai' sr' +:+ x) = false).
  { intros x. destruct (String.prefix _ _) eqn:Hpre; [|done].
    apply safe_base_prefix_same_annotation in Hpre as [-> ->]. done. }
  split; [done|]. intros Heq. specialize (Hpre ""). rewrite Heq in Hpre.
  by rewrite prefix_app_r in Hpre.
Qed.

Lemma distinct_annotations_have_disjoint_file_names_witness :
  String.prefix (safe_base_of 0 0 clip_stream) (safe_base_of 0 10 clip_stream +:+ ".mp4")
  = false.
Proof.
  apply (distinct_annotations_have_disjoint_file_names 0 0 clip_stream 0 10 clip_stream).
  intros [= ?].
Defined.

(** X18. Processing one annotation leaves the files of every other
    annotation as they are: whatever is stored under a name built on the
    safe base of an annotation with another page or index is the same after
    the run as before. *)
Theorem processing_leaves_other_annotations_alone
    E dir ffmpeg ffprobe sf uv cc lin mg p pn ai sr rc ct w pn' ai' sr' :
  MediaProcessor_init config_py dir ffmpeg ffprobe sf uv cc lin mg = Ok p ->
  (pn, ai) <> (pn', ai') ->
  let run := process_annotation E p pn ai sr rc ct w in
  forall x, w_fs run.2 !! (safe_base_of pn' ai' sr' +:+ x)
            = w_fs w !! (safe_base_of pn' ai' sr' +:+ x).
Proof.
  intros Hinit Hne run x.
  destruct (init_py_built _ _ _ _ _ _ _ _ _ Hinit) as (Hp & _).
  pose proof (process_annotation_frame E p Hp pn ai sr rc ct w) as Hrun.
  cbv zeta in Hrun. fold run in Hrun.
  destruct Hrun as [[-> _]|(b & mime & _ & _ & _ & _ & Hframe & _)]; [done|].
  apply Hframe. unfold own_names, initial_name, scaled_name, inter_name, final_name.
  assert (Hpre : forall y, safe_base_of pn' ai' sr' +:+ x <> safe_base_of pn ai sr +:+ y).
  { intros y Heq.
    assert (Hp' : String.prefix (safe_base_of pn ai sr) (safe_base_of pn' ai' sr' +:+ x) = true)
      by (rewrite Heq; apply prefix_app_r).
    apply safe_base_prefix_same_annotation in Hp' as [-> ->]. done. }
  rewrite !not_elem_of_cons. split_and!; try apply not_elem_of_nil; apply Hpre.
Qed.

Lemma processing_leaves_other_annotations_alone_witness :
  let w := mkWorld {[ safe_base_of 0 1 clip_stream +:+ ".mp4" := clip_bytes ]} [] 0 in
  w_fs (process_annotation webm_env vaapi_processor 0 0 clip_stream [] "video/webm" w).2
    !! (safe_base_of 0 1 clip_stream +:+ ".mp4") = Some clip_bytes.
Proof.
  cbv zeta.
  rewrite (processing_leaves_other_annotations_alone webm_env "out/videos"
             (Some "/usr/bin/ffmpeg") (Some "/usr/bin/ffprobe") None true (Some "h264")
             true true vaapi_processor 0 0 clip_stream [] "video/webm" _ 0 1 clip_stream).
  - reflexivity.
  - reflexivity.
  - intros [= ?].
Defined.

(** * main.py: the VAAPI flag *)

(** X19. The processor [main] builds uses VAAPI exactly when it was
    requested, an encoder was found, the platform is Linux, the codec has
    VAAPI options, and either no prober was found or listing [/dev/dri] did
    not fail with [FileNotFoundError]: without a prober the look at
    [/dev/dri] is skipped.  The processor's own validation never overrides
    the outcome of the check. *)
Theorem main_enables_vaapi_iff_checks_pass
    dir ffmpeg ffprobe lin mg sf codec dev uv p :
  main_media_processor dir ffmpeg ffprobe lin mg sf codec dev uv = Ok p ->
  let checked := main_vaapi_check config_py ffmpeg ffprobe lin codec dev uv in
  use_vaapi p = checked /\
  (checked = true <->
   uv = true /\ opt_str_truthy ffmpeg = true /\ lin = true /\
   dict_contains (FFMPEG_CODEC_OPTIONS_VAAPI config_py) codec = true /\
   (opt_str_truthy ffprobe = false \/ dev <> Raise FileNotFoundError)).
Proof.
  intros Hinit checked.
  assert (Hiff : checked = true <->
    uv = true /\ opt_str_truthy ffmpeg = true /\ lin = true /\
    dict_contains (FFMPEG_CODEC_OPTIONS_VAAPI config_py) codec = true /\
    (opt_str_truthy ffprobe = false \/ dev <> Raise FileNotFoundError)).
  { unfold checked, main_vaapi_check.
    destruct uv; [|by intuition].
    destruct (opt_str_truthy ffmpeg); cbn [negb]; [|by intuition].
    destruct lin; cbn [negb]; [|by intuition].
    destruct (dict_contains _ codec); cbn [negb]; [|by intuition].
    destruct (opt_str_truthy ffprobe); cbn [negb]; [|by intuition].
    assert (Hcase : dev = Raise FileNotFoundError \/ dev <> Raise FileNotFoundError).
    { destruct dev as [l|[]]; (by left) || (by right). }
    destruct Hcase as [->|Hdev].
    - cbn [negb]. split; [done|]. intros (_ & _ & _ & _ & Hor).
      by destruct Hor.
    - assert (Hok : match dev with
                    | Ok _ => true
                    | Raise FileNotFoundError => false
                    | Raise _ => true
                    end = true) by (by destruct dev as [l|[]]).
      rewrite Hok. cbn [negb]. split; [|done]. intros _. split_and!; try done. by right. }
  split; [|done].
  unfold main_media_processor in Hinit.
  rewrite (vaapi_flag_py _ _ _ _ _ _ _ _ _ Hinit).
  fold checked. destruct Hiff as [Hiff _]. destruct checked; [|done].
  by destruct (Hiff eq_refl) as (_ & -> & -> & _).
Qed.

Lemma main_enables_vaapi_iff_checks_pass_witness :
  use_vaapi
    (constructed (main_media_processor "out/videos" (Some "/usr/bin/ffmpeg") None true true
                    None "h264" (Raise FileNotFoundError) true)) = true.
Proof.
  destruct (main_enables_vaapi_iff_checks_pass "out/videos" (Some "/usr/bin/ffmpeg") None
              true true None "h264" (Raise FileNotFoundError) true
              (constructed (main_media_processor "out/videos" (Some "/usr/bin/ffmpeg") None
                              true true None "h264" (Raise FileNotFoundError) true)))
    as [Huse _].
  - reflexivity.
  - rewrite Huse. reflexivity.
Defined.

(** * main.py: the page loop *)

Lemma process_annotation_total E p (Hp : built_from_config_py p) pn ai sr rc ct w :
  exists r w', process_annotation E p pn ai sr rc ct w = (Ok r, w') /\
    forall item, r = Some item -> pageIndex item = pn.
Proof.
  pose proof (process_annotation_frame E p Hp pn ai sr rc ct w) as Hrun.
  cbv zeta in Hrun.
  destruct (process_annotation E p pn ai sr rc ct w) as [r w'] eqn:Heq.
  cbn [fst snd] in Hrun.
  destruct Hrun as [[[= -> ->] _]|(b & mime & _ & _ & _ & _ & _ & Hcases)].
  - by eexists _, _.
  - destruct Hcases as [[_ ->]|(_ & m & -> & _)]; eexists _, _; (split; [done|]).
    + done.
    + by intros item [= <-].
Qed.

Section page_loop.
Context {D : Type} (E : Env) (p : MediaProcessor) (Hp : built_from_config_py p).
Context (fallback : D) (valid : D -> bool).

Lemma process_media_annotations_spec pn (d : D) l idx w :
exists vids w',
  process_media_annotations E p pn d idx l w = (Ok vids, w') /\
  Forall (fun e : page_entry D => exists item d', e = VideoEntry item d' /\ pageIndex item = pn) vids.
Proof.
revert idx w. induction l as [|a l IH]; intros idx w.
{ by eexists _, _. }
cbn [process_media_annotations]. rewrite bind_run.
assert (Hhere : exists here w1,
  match ann_stream_ref a, ann_rect a with
  | Some stream_ref, Some pdf_rect =>
      processed_media_info <-
        process_annotation E p pn idx stream_ref pdf_rect
          (default octet_stream (ann_content_type a)) ;;
      match processed_media_info with
      | Some item => ret [VideoEntry item d]
      | None => ret []
      end
  | _, _ => ret []
  end w = (Ok here, w1) /\
  Forall (fun e : page_entry D => exists item d', e = VideoEntry item d' /\ pageIndex item = pn) here).
{ destruct (ann_stream_ref a) as [sr|]; [|by eexists _, _].
  destruct (ann_rect a) as [rc|]; [|by eexists _, _].
  rewrite bind_run.
  destruct (process_annotation_total E p Hp pn idx sr rc
              (default octet_stream (ann_content_type a)) w) as (r & w1 & -> & Hr).
  destruct r as [item|]; rewrite ret_run; eexists _, _; (split; [done|]); [|done].
  apply Forall_cons. split; [|done]. exists item, d. split; [done|]. by apply Hr. }
destruct Hhere as (here & w1 & -> & Hh).
rewrite bind_run. destruct (IH (idx + 1)%Z w1) as (more & w2 & -> & Hm).
rewrite ret_run. eexists _, _. split; [done|]. by apply Forall_app.
Qed.

Lemma process_pages_spec pages k w :
exists entries w',
  process_pages E p fallback valid k pages w = (Ok entries, w') /\
  page_blocks k (length pages) entries.
Proof.
revert k w. induction pages as [|pg pages IH]; intros k w.
{ eexists _, _. split; [done|]. constructor. }
cbn [process_pages]. rewrite bind_run.
destruct (process_media_annotations_spec k
            (page_dims_or_fallback fallback valid (dims_found pg)) (media_annotations pg) 0 w)
  as (vids & w1 & -> & Hv).
rewrite bind_run. destruct (IH (k + 1)%Z w1) as (more & w2 & -> & Hm).
rewrite ret_run. eexists _, _. split; [done|].
cbn [length]. constructor; [|done].
destruct vids as [|v vids]; cbn [list_truthy].
- left. by eexists.
- right. split; [done|]. done.
Qed.

Lemma page_block_pages k (blk : list (page_entry D)) :
page_block k blk -> blk <> [] /\ Forall (fun e => entry_page e = k) blk.
Proof.
intros [[d ->]|[Hne Hall]].
- split; [done|]. by repeat constructor.
- split; [done|]. eapply Forall_impl; [exact Hall|].
  by intros e (item & d & -> & <-).
Qed.

Lemma page_blocks_range k n (l : list (page_entry D)) :
page_blocks k n l ->
Forall (fun e => (k <= entry_page e < k + Z.of_nat n)%Z) l.
Proof.
induction 1 as [k|k n blk rest Hblk _ IH]; [done|].
apply Forall_app. split.
- apply page_block_pages in Hblk as [_ Hall].
  eapply Forall_impl; [exact Hall|]. intros e ->. lia.
- eapply Forall_impl; [exact IH|]. intros e He. cbn beta in He. lia.
Qed.

Lemma page_blocks_sorted k n (l : list (page_entry D)) :
page_blocks k n l -> StronglySorted page_le l.
Proof.
induction 1 as [k|k n blk rest Hblk Hrest IH]; [constructor|].
apply page_block_pages in Hblk as [_ Hall].
apply page_blocks_range in Hrest.
induction Hall as [|e blk He Hall IHblk]; [done|].
cbn [app]. constructor; [done|].
apply Forall_app. split.
- clear -He Hall. rewrite Forall_forall in Hall. apply Forall_forall.
  intros x Hx. unfold page_le. rewrite He, (Hall x Hx). lia.
- eapply Forall_impl; [exact Hrest|]. intros x Hx. unfold page_le.
  cbn beta in Hx. lia.
Qed.

Lemma page_blocks_cover k n (l : list (page_entry D)) :
page_blocks k n l ->
forall i, (k <= i < k + Z.of_nat n)%Z -> exists e, e ∈ l /\ entry_page e = i.
Proof.
induction 1 as [k|k n blk rest Hblk _ IH]; intros i Hi; [lia|].
destruct (decide (i = k)) as [->|Hne].
- apply page_block_pages in Hblk as [Hne Hall].
  destruct blk as [|e blk]; [done|].
  apply Forall_cons in Hall as [He _].
  exists e. split; [|done]. apply elem_of_app. left. constructor.
- destruct (IH i) as (e & He & Hp'); [lia|].
  exists e. split; [|done]. apply elem_of_app. by right.
Qed.

Lemma page_blocks_placeholder k n (l : list (page_entry D)) :
page_blocks k n l ->
forall i d e, PlaceholderEntry i d ∈ l -> e ∈ l -> entry_page e = i ->
  e = PlaceholderEntry i d.
Proof.
induction 1 as [k|k n blk rest Hblk Hrest IH]; intros i d e Hph He Hpage.
{ by apply elem_of_nil in Hph. }
pose proof (page_block_pages _ _ Hblk) as [_ Hall].
pose proof (page_blocks_range _ _ _ Hrest) as Hrange.
rewrite Forall_forall in Hall, Hrange.
apply elem_of_app in Hph as [Hph|Hph]; apply elem_of_app in He as [He|He].
- destruct Hblk as [[d' ->]|[_ Hvid]].
  + apply list_elem_of_singleton in Hph, He. congruence.
  + rewrite Forall_forall in Hvid. by destruct (Hvid _ Hph) as (item & d' & [=] & _).
- specialize (Hall _ Hph). specialize (Hrange _ He). cbn in *. lia.
- specialize (Hall _ He). specialize (Hrange _ Hph). cbn in *. lia.
- by apply (IH i d e).
Qed.

Lemma insert_by_page_least (e : page_entry D) l :
Forall (page_le e) l -> insert_by_page e l = e :: l.
Proof.
destruct l as [|x l]; [done|]. intros [Hx _]%Forall_cons. cbn [insert_by_page].
unfold page_le in Hx. by rewrite (proj2 (Z.leb_le _ _) Hx).
Qed.

Lemma sort_by_page_sorted (l : list (page_entry D)) :
StronglySorted page_le l -> sort_by_page l = l.
Proof.
induction 1 as [|e l _ IH Hall]; [done|].
unfold sort_by_page in *. cbn [foldr]. rewrite IH. by apply insert_by_page_least.
Qed.
End page_loop.

(** X20. Step 1 of [main] never fails.  Every page of the document, and no
    other page index, has an entry in [all_page_data]; and a page that has a
    placeholder entry has no other entry, so that placeholders stand exactly
    for the pages without a processed media item. *)
Theorem every_page_has_an_entry_and_placeholders_stand_alone
    {D} E dir ffmpeg ffprobe sf uv cc lin mg p (fallback : D) valid pages w :
  MediaProcessor_init config_py dir ffmpeg ffprobe sf uv cc lin mg = Ok p ->
  exists all_page_data w',
    collect_page_data E p fallback valid pages w = (Ok all_page_data, w') /\
    (forall i, (0 <= i < Z.of_nat (length pages))%Z <->
               exists e, e ∈ all_page_data /\ entry_page e = i) /\
    (forall i d e, PlaceholderEntry i d ∈ all_page_data -> e ∈ all_page_data ->
                   entry_page e = i -> e = PlaceholderEntry i d).
Proof.
  intros Hinit.
  destruct (init_py_built _ _ _ _ _ _ _ _ _ Hinit) as (Hp & _).
  destruct (process_pages_spec E p Hp fallback valid pages 0 w)
    as (entries & w' & Hrun & Hblocks).
  exists entries, w'. split_and!.
  - unfold collect_page_data. rewrite bind_run, Hrun, ret_run.
    by rewrite (sort_by_page_sorted _ (page_blocks_sorted _ _ _ Hblocks)).
  - intros i. split.
    + intros Hi. apply (page_blocks_cover _ _ _ Hblocks). lia.
    + intros (e & He & <-). pose proof (page_blocks_range _ _ _ Hblocks) as Hr.
      rewrite Forall_forall in Hr. specialize (Hr _ He). cbn in Hr. lia.
  - apply (page_blocks_placeholder _ _ _ Hblocks).
Qed.

(** X21. The entries of [all_page_data] are appended in the order of their
    page index, so the sort by page index that follows the page loop leaves
    the list as it is. *)
Theorem page_data_is_sorted_before_the_sort
    {D} E dir ffmpeg ffprobe sf uv cc lin mg p (fallback : D) valid pages w :
  MediaProcessor_init config_py dir ffmpeg ffprobe sf uv cc lin mg = Ok p ->
  exists all_page_data w',
    process_pages E p fallback valid 0 pages w = (Ok all_page_data, w') /\
    StronglySorted (fun a b => (entry_page a <= entry_page b)%Z) all_page_data /\
    sort_by_page all_page_data = all_page_data /\
    collect_page_data E p fallback valid pages w = (Ok all_page_data, w').
Proof.
  intros Hinit.
  destruct (init_py_built _ _ _ _ _ _ _ _ _ Hinit) as (Hp & _).
  destruct (process_pages_spec E p Hp fallback valid pages 0 w)
    as (entries & w' & Hrun & Hblocks).
  pose proof (page_blocks_sorted _ _ _ Hblocks) as Hsorted.
  exists entries, w'. split_and!; [done|done|by apply sort_by_page_sorted|].
  unfold collect_page_data. rewrite bind_run, Hrun, ret_run.
  by rewrite (sort_by_page_sorted _ Hsorted).
Qed.

Lemma every_page_has_an_entry_and_placeholders_stand_alone_witness :
  exists all_page_data w',
    collect_page_data webm_env vaapi_processor (960, 540)%Z (fun d => (0 <? d.1)%Z)
      two_pages empty_dir = (Ok all_page_data, w') /\
    (forall i, (0 <= i < 2)%Z <-> exists e, e ∈ all_page_data /\ entry_page e = i).
Proof.
  destruct (every_page_has_an_entry_and_placeholders_stand_alone webm_env "out/videos"
              (Some "/usr/bin/ffmpeg") (Some "/usr/bin/ffprobe") None true (Some "h264")
              true true vaapi_processor (960, 540)%Z (fun d => (0 <? d.1)%Z)
              two_pages empty_dir) as (l & w' & Hrun & Hcover & _).
  - reflexivity.
  - exists l, w'. split; [exact Hrun | exact Hcover].
Defined.

Lemma page_data_is_sorted_before_the_sort_witness :
  exists all_page_data w',
    process_pages webm_env vaapi_processor (960, 540)%Z (fun d => (0 <? d.1)%Z) 0
      two_pages empty_dir = (Ok all_page_data, w') /\
    sort_by_page all_page_data = all_page_data.
Proof.
  destruct (page_data_is_sorted_before_the_sort webm_env "out/videos"
              (Some "/usr/bin/ffmpeg") (Some "/usr/bin/ffprobe") None true (Some "h264")
              true true vaapi_processor (960, 540)%Z (fun d => (0 <? d.1)%Z)
              two_pages empty_dir) as (l & w' & Hrun & _ & Hsort & _).
  - reflexivity.
  - exists l, w'. split; [exact Hrun | exact Hsort].
Defined.

(** * What single encodes leave on disk *)

(** X22. A final encode attempt is all or nothing.  When it reports
    success, the final output path holds a file that is not empty and no
    other file has changed; when it reports failure, the directory is exactly
    as before: the temporary file of the attempt is gone and a file that was
    at the final output path is still there. *)
Theorem final_attempt_installs_output_or_changes_nothing
    E dir ffmpeg ffprobe sf uv cc lin mg p input F sc d e w :
  MediaProcessor_init config_py dir ffmpeg ffprobe sf uv cc lin mg = Ok p ->
  exists r w',
    _perform_final_encode_step E p input F (target_codec p) sc d e w = (Ok r, w') /\
    (r = true -> exists c, c <> [] /\ w_fs w' = <[F := c]> (w_fs w)) /\
    (r = false -> w_fs w' = w_fs w).
Proof.
  intros Hinit.
  destruct (init_py_built _ _ _ _ _ _ _ _ _ Hinit) as (Hp & _).
  destruct (final_step_spec E p input F (target_codec p) sc d e w (built_profile p Hp e))
    as (r & w' & Hrun & _ & Hfs).
  exists r, w'. split; [done|]. split; by intros ->.
Qed.

Lemma final_attempt_installs_output_or_changes_nothing_witness :
  exists r w',
    _perform_final_encode_step failing_env vaapi_processor (clip_base +:+ ".webm")
      (clip_base +:+ ".mp4") "h264" (Some "vp8") false false webm_dir = (Ok r, w') /\
    (r = false -> w_fs w' = w_fs webm_dir).
Proof.
  destruct (final_attempt_installs_output_or_changes_nothing failing_env "out/videos"
              (Some "/usr/bin/ffmpeg") (Some "/usr/bin/ffprobe") None true (Some "h264")
              true true vaapi_processor (clip_base +:+ ".webm") (clip_base +:+ ".mp4")
              (Some "vp8") false false webm_dir) as (r & w' & Hrun & _ & Hfail).
  - reflexivity.
  - exists r, w'. split; [exact Hrun | exact Hfail].
Defined.

(** X23. The intermediate H.264 encode and the scaling encode never raise
    and touch only their output file.  After a reported success the output
    file exists and is not empty; after a reported failure it does not
    exist, even if a file of that name was there before, unless no encoder
    is installed (or, for scaling, no factor set), in which case nothing is
    done at all. *)
Theorem auxiliary_encode_leaves_good_output_or_none E p input out w :
  (exists r w',
     _perform_intermediate_h264_encode E p input out w = (Ok r, w') /\
     (forall q, q <> out -> w_fs w' !! q = w_fs w !! q) /\
     (r = true -> exists c, c <> [] /\ w_fs w' !! out = Some c) /\
     (r = false -> if opt_str_truthy (ffmpeg_path p)
                   then w_fs w' !! out = None else w_fs w' = w_fs w)) /\
  (exists r w',
     _perform_scaling_step E p input out w = (Ok r, w') /\
     (forall q, q <> out -> w_fs w' !! q = w_fs w !! q) /\
     (r = true -> exists c, c <> [] /\ w_fs w' !! out = Some c) /\
     (r = false -> if scaling_active p
                   then w_fs w' !! out = None else w_fs w' = w_fs w)).
Proof.
  assert (Haux : forall active cmd ev r w',
    aux_encode_post active cmd ev out w r w' ->
    (forall q, q <> out -> w_fs w' !! q = w_fs w !! q) /\
    (r = true -> exists c, c <> [] /\ w_fs w' !! out = Some c) /\
    (r = false -> if active then w_fs w' !! out = None else w_fs w' = w_fs w)).
  { intros active cmd ev r w' (pre & _ & Hact).
    destruct active.
    - destruct Hact as [_ Hfs]. destruct r.
      + destruct Hfs as (c & Hc & ->). split_and!.
        * intros q Hq. by rewrite lookup_insert_ne.
        * intros _. exists c. by rewrite lookup_insert_eq.
        * done.
      + rewrite Hfs. split_and!.
        * intros q Hq. by rewrite lookup_delete_ne.
        * done.
        * intros _. apply lookup_delete_eq.
    - destruct Hact as (_ & -> & ->). by split_and!. }
  split.
  - destruct (intermediate_spec E p input out w) as (r & w' & Hrun & Hpost).
    exists r, w'. split; [done|]. by eapply Haux.
  - destruct (scaling_step_spec E p input out w) as (r & w' & cmd & Hrun & Hpost).
    exists r, w'. split; [done|]. by eapply Haux.
Qed.

(** * The target format is a fixed point of the decision *)

(** X24. A file in the target format needs no further transcode: for a
    processor built without a codec choice or with an allowed one, the entry
    decision of the final stage says no for the target extension with the
    target codec.  What a successful transcode produces would not be
    transcoded again. *)
Theorem target_format_needs_no_transcode
    dir ffmpeg ffprobe sf uv cc lin mg p :
  MediaProcessor_init config_py dir ffmpeg ffprobe sf uv cc lin mg = Ok p ->
  (forall c, cc = Some c -> c ∈ ALLOWED_VIDEO_CODECS config_py) ->
  final_transcode_needed p (target_extension p) (Some (target_codec p)) = false /\
  is_preferred_format p (target_extension p) (Some (target_codec p)) = true.
Proof.
  intros Hinit Hcc.
  destruct (init_py_built _ _ _ _ _ _ _ _ _ Hinit) as (Hp & _ & _ & Hchoice & _).
  destruct (init_py_codec dir ffmpeg ffprobe sf uv cc lin mg) as (p' & Hinit' & Htc & _).
  rewrite Hinit in Hinit'. injection Hinit' as <-.
  assert (Hpref : is_preferred_format p (target_extension p) (Some (target_codec p)) = true).
  { apply (py_preferred_cases p _ _ (built_config p Hp)).
    destruct (built_target p Hp) as [(-> & -> & _)|[(-> & -> & _)|(-> & -> & _)]]; auto. }
  split; [|done].
  unfold final_transcode_needed. rewrite Hpref. cbn [negb orb].
  unfold explicit_change. rewrite Hchoice.
  destruct cc as [c|]; [|done].
  specialize (Hcc c eq_refl).
  unfold effective_codec in Htc. rewrite (proj2 (str_in_elem _ _) Hcc) in Htc.
  destruct (str_truthy c); [|done].
  rewrite (built_config p Hp), <-Htc.
  destruct (built_target p Hp) as [(-> & -> & _)|[(-> & -> & _)|(-> & -> & _)]];
    by rewrite bool_decide_true.
Qed.

Lemma target_format_needs_no_transcode_witness :
  final_transcode_needed vaapi_processor ".mp4" (Some "h264") = false.
Proof.
  apply (target_format_needs_no_transcode "out/videos" (Some "/usr/bin/ffmpeg")
           (Some "/usr/bin/ffprobe") None true (Some "h264") true true vaapi_processor).
  - reflexivity.
  - intros c [= <-]. apply str_in_elem. reflexivity.
Defined.
